(** * TechMart analytics core: fraud scoring, customer analytics,
      inventory forecasting and the cache / rate-limit middleware

    A shallow embedding of the four back-end services

      - services/fraudDetection.js        (Module FraudDetection)
      - services/inventoryManagement.js   (Module InventoryManagement)
      - services/customerAnalytics.js     (Module CustomerAnalytics)
      - middleware/performanceOptimization.js (Module PerformanceOptimization)

    Number model.  JavaScript numbers are modelled by [jsnum]: an exact
    rational, or one of the three non-finite values NaN, +Infinity and
    -Infinity, with the comparison and arithmetic rules of the language on
    them (comparisons with NaN are false, x/0 is an infinity or NaN,
    Math.max propagates NaN).  Binary rounding and the sign of zero are
    not modelled.  Integer-valued quantities (counters, stock, epoch
    milliseconds, whole days) are [Z].  Where a computation only ever sees
    finite values it is written directly on [Q]. *)

From Stdlib Require Import ZArith QArith Qround Lqa Lia List String Ascii Sorted.
From stdpp Require Import gmap strings list pretty.

(** ** JavaScript numbers *)

Module JsNum.

Local Open Scope Q_scope.

Inductive jsnum : Type :=
| NaN
| NegInf
| Fin (q : Q)
| PosInf.

Definition Qltb (a b : Q) : bool := negb (Qle_bool b a).

(** [a < b] and [a <= b]; both are false when an operand is NaN. *)
Definition jlt (a b : jsnum) : bool :=
  match a, b with
  | NaN, _ | _, NaN => false
  | NegInf, NegInf => false
  | NegInf, _ => true
  | Fin x, Fin y => Qltb x y
  | Fin _, PosInf => true
  | Fin _, NegInf => false
  | PosInf, _ => false
  end.

Definition jle (a b : jsnum) : bool :=
  match a, b with
  | NaN, _ | _, NaN => false
  | NegInf, _ => true
  | Fin x, Fin y => Qle_bool x y
  | Fin _, PosInf => true
  | Fin _, NegInf => false
  | PosInf, PosInf => true
  | PosInf, _ => false
  end.

Definition jgt (a b : jsnum) : bool := jlt b a.
Definition jge (a b : jsnum) : bool := jle b a.

Definition jneg (a : jsnum) : jsnum :=
  match a with
  | NaN => NaN
  | NegInf => PosInf
  | Fin x => Fin (- x)
  | PosInf => NegInf
  end.

Definition jadd (a b : jsnum) : jsnum :=
  match a, b with
  | NaN, _ | _, NaN => NaN
  | Fin x, Fin y => Fin (x + y)
  | PosInf, NegInf | NegInf, PosInf => NaN
  | PosInf, _ | _, PosInf => PosInf
  | NegInf, _ | _, NegInf => NegInf
  end.

Definition jsub (a b : jsnum) : jsnum :=
  match a, b with
  | Fin x, Fin y => Fin (x - y)
  | _, _ => jadd a (jneg b)
  end.

(** An infinity of the sign of [q]; NaN when [q] is zero. *)
Definition inf_of_sign (q : Q) : jsnum :=
  match (q ?= 0)%Q with
  | Gt => PosInf
  | Lt => NegInf
  | Eq => NaN
  end.

Definition jmul (a b : jsnum) : jsnum :=
  match a, b with
  | NaN, _ | _, NaN => NaN
  | Fin x, Fin y => Fin (x * y)
  | Fin x, PosInf | PosInf, Fin x => inf_of_sign x
  | Fin x, NegInf | NegInf, Fin x => inf_of_sign (- x)
  | PosInf, PosInf | NegInf, NegInf => PosInf
  | PosInf, NegInf | NegInf, PosInf => NegInf
  end.

(** Division; a finite value over zero is an infinity of the sign of the
    numerator, 0/0 is NaN. *)
Definition jdiv (a b : jsnum) : jsnum :=
  match a, b with
  | NaN, _ | _, NaN => NaN
  | Fin x, Fin y => if Qeq_bool y 0 then inf_of_sign x else Fin (x / y)
  | Fin _, _ => Fin 0
  | PosInf, Fin y => if Qltb y 0 then NegInf else PosInf
  | NegInf, Fin y => if Qltb y 0 then PosInf else NegInf
  | _, _ => NaN
  end.

(** Math.max and Math.min of two arguments. *)
Definition jmax (a b : jsnum) : jsnum :=
  match a, b with
  | NaN, _ | _, NaN => NaN
  | _, _ => if jle a b then b else a
  end.

Definition jmin (a b : jsnum) : jsnum :=
  match a, b with
  | NaN, _ | _, NaN => NaN
  | _, _ => if jle a b then a else b
  end.

(** Math.round: to the nearest integer, halves upwards. *)
Definition Qround (q : Q) : Z := Qfloor (q + (1 # 2)).

Definition jround (a : jsnum) : jsnum :=
  match a with
  | Fin x => Fin (inject_Z (Qround x))
  | _ => a
  end.

(** Truthiness of a number: NaN and 0 are falsy. *)
Definition truthy (a : jsnum) : bool :=
  match a with
  | NaN => false
  | Fin x => negb (Qeq_bool x 0)
  | _ => true
  end.

(** [a || b] on numbers. *)
Definition jor (a b : jsnum) : jsnum := if truthy a then a else b.

Definition of_Z (z : Z) : jsnum := Fin (inject_Z z).

End JsNum.

(** ** services/fraudDetection.js *)

Module FraudDetection.
Import JsNum.

Local Open Scope Z_scope.

(** The outcome of an awaited promise: fulfilled with a value, or rejected
    with an error. *)
Inductive promise (A : Type) : Type :=
| Fulfilled (a : A)
| Rejected (err : string).
Arguments Fulfilled {A} a.
Arguments Rejected {A} err.

#[global] Instance promise_ret : MRet promise := fun A a => Fulfilled a.
#[global] Instance promise_bind : MBind promise := fun A B f m =>
  match m with
  | Fulfilled a => f a
  | Rejected e => Rejected e
  end.

(** this.THRESHOLDS *)
Definition HIGH_AMOUNT : jsnum := Fin 5000.
Definition VELOCITY_WINDOW_MINUTES : Z := 10.
Definition VELOCITY_MAX_TRANSACTIONS : Z := 5.
Definition AMOUNT_DEVIATION_MULTIPLIER : jsnum := Fin 3.
Definition SUSPICIOUS_HOURS_START : jsnum := Fin 2.
Definition SUSPICIOUS_HOURS_END : jsnum := Fin 5.
Definition MAX_VALID_AMOUNT : jsnum := Fin 10000.
Definition MIN_VALID_AMOUNT : jsnum := Fin (1 # 100).

(** The fields of a transaction and of a customer that the checks read.
    [total_amount], [total_spent] and [risk_score] hold the value of
    parseFloat on the stored field; [user_agent] is [None] when the field
    is null or undefined; [timestamp] is in epoch milliseconds. *)
Record transaction : Type := {
  customer_id : option Z;
  total_amount : jsnum;
  timestamp : Z;
  user_agent : option string
}.

Record customer : Type := {
  total_spent : jsnum;
  risk_score : jsnum
}.

Inductive flag_type : Type :=
| amount_exceeds_limit
| amount_too_low
| amount_deviation
| high_value
| velocity_exceeded
| unusual_time
| unknown_customer
| high_risk_customer
| missing_user_agent
| bot_detected.

(** What a check returns: [{ suspicious: false }], or a flag with its type
    and score (the message text is left out). *)
Inductive check : Type :=
| NotSuspicious
| Flag (type : flag_type) (score : Z).

Definition suspicious (c : check) : bool :=
  match c with
  | NotSuspicious => false
  | Flag _ _ => true
  end.

Definition score (c : check) : Z :=
  match c with
  | NotSuspicious => 0
  | Flag _ s => s
  end.

Inductive severity_level : Type := low | medium | high | critical.

Record analysis : Type := {
  fraudScore : Q;
  flags : list check;
  isSuspicious : bool;
  severity : severity_level
}.

(** const avgSpent = customer ? parseFloat(customer.total_spent) / 10 : 500 *)
Definition avgSpent (c : option customer) : jsnum :=
  match c with
  | Some c => jdiv (total_spent c) (Fin 10)
  | None => Fin 500
  end.

Definition checkAmountAnomaly (t : transaction) (c : option customer) : check :=
  let amount := total_amount t in
  if jgt amount MAX_VALID_AMOUNT then Flag amount_exceeds_limit 40
  else if jlt amount MIN_VALID_AMOUNT then Flag amount_too_low 20
  else if jgt amount (jmul (avgSpent c) AMOUNT_DEVIATION_MULTIPLIER)
       then Flag amount_deviation 25
  else if jgt amount HIGH_AMOUNT then Flag high_value 15
  else NotSuspicious.

(** Transaction.count({ where: { customer_id, timestamp >= windowStart } }):
    the data-access query, given the customer id and the window start. *)
Definition count_query : Type := option Z -> Z -> promise Z.

Definition checkVelocity (count : count_query) (now : Z) (customerId : option Z)
  : promise check :=
  let windowStart := now - VELOCITY_WINDOW_MINUTES * 60 * 1000 in
  recentTransactions ← count customerId windowStart;
  if VELOCITY_MAX_TRANSACTIONS <=? recentTransactions
  then mret (Flag velocity_exceeded 30)
  else mret NotSuspicious.

(** [getHours] is Date.prototype.getHours of the host: the local hour of an
    instant, NaN for an invalid date. *)
Definition checkTimePattern (getHours : Z -> jsnum) (ts : Z) : check :=
  let hour := getHours ts in
  if jge hour SUSPICIOUS_HOURS_START && jle hour SUSPICIOUS_HOURS_END
  then Flag unusual_time 15
  else NotSuspicious.

Definition checkCustomerRisk (c : option customer) : check :=
  match c with
  | None => Flag unknown_customer 20
  | Some c =>
      if jge (risk_score c) (Fin (7 # 10)) then Flag high_risk_customer 25
      else NotSuspicious
  end.

(** Case-insensitive search of a lower-case pattern, as the /.../i
    regular expressions of [botPatterns] do. *)
Definition lower (a : ascii) : ascii :=
  let n := nat_of_ascii a in
  if ((65 <=? n) && (n <=? 90))%nat then ascii_of_nat (n + 32) else a.

Fixpoint starts_with (p s : string) : bool :=
  match p, s with
  | EmptyString, _ => true
  | String a p', String b s' => Ascii.eqb a (lower b) && starts_with p' s'
  | String _ _, EmptyString => false
  end.

Fixpoint matches (p s : string) : bool :=
  starts_with p s ||
  match s with
  | EmptyString => false
  | String _ s' => matches p s'
  end.

Definition botPatterns : list string :=
  ["bot"; "crawler"; "spider"; "curl"; "wget"; "python"; "java/"; "php"]%string.

Definition checkForBot (userAgent : option string) : check :=
  match userAgent with
  | None | Some EmptyString => Flag missing_user_agent 15
  | Some ua =>
      if existsb (fun pattern => matches pattern ua) botPatterns
      then Flag bot_detected 20
      else NotSuspicious
  end.

Definition getSeverity (fraudScore : Q) : severity_level :=
  if Qle_bool (8 # 10) fraudScore then critical
  else if Qle_bool (6 # 10) fraudScore then high
  else if Qle_bool (4 # 10) fraudScore then medium
  else low.

(** if (c.suspicious) { flags.push(c); fraudScore += c.score; } *)
Definition record_check (c : check) (acc : list check * Z) : list check * Z :=
  if suspicious c then (acc.1 ++ [c], acc.2 + score c) else acc.

(** Math.min(fraudScore / 100, 1) *)
Definition normalize (points : Z) : Q :=
  let s := (inject_Z points / 100)%Q in
  if Qle_bool s 1 then s else 1%Q.

Definition analyzeTransaction (getHours : Z -> jsnum) (count : count_query)
    (now : Z) (t : transaction) (c : option customer) : promise analysis :=
  let acc := ([], 0) in
  let amountCheck := checkAmountAnomaly t c in
  let acc := record_check amountCheck acc in
  velocityCheck ← checkVelocity count now (customer_id t);
  let acc := record_check velocityCheck acc in
  let timeCheck := checkTimePattern getHours (timestamp t) in
  let acc := record_check timeCheck acc in
  let riskCheck := checkCustomerRisk c in
  let acc := record_check riskCheck acc in
  let botCheck := checkForBot (user_agent t) in
  let acc := record_check botCheck acc in
  let fraudScore := normalize acc.2 in
  mret {| fraudScore := fraudScore;
          flags := acc.1;
          isSuspicious := Qle_bool (1 # 2) fraudScore;
          severity := getSeverity fraudScore |}.




Definition severity_rank (s : severity_level) : Z :=
  match s with low => 0 | medium => 1 | high => 2 | critical => 3 end.


(** The points and flags of the four checks other than the velocity check,
    in the order in which the analysis runs them. *)
Definition other_four_checks (getHours : Z -> jsnum) (t : transaction)
    (c : option customer) : list check * Z :=
  record_check (checkForBot (user_agent t))
    (record_check (checkCustomerRisk c)
      (record_check (checkTimePattern getHours (timestamp t))
        (record_check (checkAmountAnomaly t c) ([], 0)))).

(** The failure semantics as the specification words them: a failing
    velocity query degrades that one signal and the analysis still returns
    a result carrying the points of the other four checks. *)
Definition velocity_failure_tolerated (getHours : Z -> jsnum)
    (count : count_query) (now : Z) (t : transaction) (c : option customer)
  : Prop :=
  forall err,
    count (customer_id t) (now - VELOCITY_WINDOW_MINUTES * 60 * 1000)
      = Rejected err ->
    exists r,
      analyzeTransaction getHours count now t c = Fulfilled r /\
      flags r = (other_four_checks getHours t c).1 /\
      fraudScore r = normalize (other_four_checks getHours t c).2.

(** Sample inputs: a host on UTC, a data store that answers with a count,
    one whose connection is down, and a transaction of $15,000. *)
Definition getHoursUTC (ts : Z) : jsnum := of_Z ((ts / 3600000) mod 24).

Definition count_answers (n : Z) : count_query := fun _ _ => Fulfilled n.

Definition count_fails : count_query :=
  fun _ _ => Rejected "SequelizeConnectionError".

Definition tx_15000 : transaction :=
  {| customer_id := Some 7;
     total_amount := Fin 15000;
     timestamp := 1700000000000;
     user_agent := Some "Mozilla/5.0"%string |}.

End FraudDetection.

(** ** services/inventoryManagement.js *)

Module InventoryManagement.
Import JsNum.

Local Open Scope Z_scope.

(** [average_delivery_days] is a nullable INTEGER column. *)
Record supplier : Type := {
  supplier_id : Z;
  average_delivery_days : option Z
}.

Record product : Type := {
  id : Z;
  stock_quantity : Z;
  Supplier : option supplier
}.

Definition REORDER_LEAD_DAYS : Z := 7.
Definition SAFETY_STOCK_DAYS : Z := 3.

(** *** predictStockLevels *)

Inductive risk : Type := critical | high | medium | low.

Inductive direction : Type := increasing | decreasing | stable.

(** One entry of [predictions] (the calendar date is left out). *)
Record prediction : Type := {
  day : Z;
  predictedStock : jsnum;
  predictedSales : jsnum;
  stockoutRisk : risk
}.

Record stock_report : Type := {
  currentStock : Z;
  avgDailySales : jsnum;
  salesTrend : jsnum;
  trendDirection : direction;
  daysUntilStockout : option Z;
  predictions : list prediction
}.

Definition sum (l : list Z) : Z := foldl Z.add 0 l.

(** salesData.map(d => parseInt(d.quantity) || 0); a row is [None] when
    parseInt yields NaN. *)
Definition dailySales_of (salesData : list (option Z)) : list Z :=
  map (fun q => match q with Some n => n | None => 0 end) salesData.

Definition average (dailySales : list Z) : jsnum :=
  if (0 <? length dailySales)%nat
  then jdiv (of_Z (sum dailySales)) (of_Z (Z.of_nat (length dailySales)))
  else Fin 0.

(** slice(0, 7) and slice(-7) *)
Definition first_week (dailySales : list Z) : list Z := firstn 7 dailySales.
Definition last_week (dailySales : list Z) : list Z :=
  skipn (length dailySales - 7) dailySales.

Definition trend_of (dailySales : list Z) : jsnum :=
  if (7 <=? length dailySales)%nat then
    let firstWeekAvg := jdiv (of_Z (sum (first_week dailySales))) (Fin 7) in
    let lastWeekAvg := jdiv (of_Z (sum (last_week dailySales))) (Fin 7) in
    jdiv (jsub lastWeekAvg firstWeekAvg) firstWeekAvg
  else Fin 0.

(** Math.max(0, avgDailySales * (1 + trend * (day / 30))) *)
Definition sales_on (avg trend : jsnum) (d : Z) : jsnum :=
  jmax (Fin 0) (jmul avg (jadd (Fin 1) (jmul trend (jdiv (of_Z d) (Fin 30))))).

Definition risk_of (currentStock : jsnum) : risk :=
  if jle currentStock (Fin 0) then critical
  else if jle currentStock (Fin 10) then high
  else low.

(** The loop [for (day = ...; ...; day++)], with [n] iterations to go. *)
Fixpoint project (avg trend : jsnum) (currentStock : jsnum) (d : Z) (n : nat)
  : list prediction :=
  match n with
  | O => []
  | S n' =>
      let sales := sales_on avg trend d in
      let currentStock := jmax (Fin 0) (jsub currentStock sales) in
      {| day := d;
         predictedStock := jround currentStock;
         predictedSales := jround sales;
         stockoutRisk := risk_of currentStock |}
      :: project avg trend currentStock (d + 1) n'
  end.


Definition direction_of (trend : jsnum) : direction :=
  if jgt trend (Fin (5 # 100)) then increasing
  else if jlt trend (Fin (- (5 # 100))) then decreasing
  else stable.

(** The product is [None] when findByPk finds nothing; the function then
    returns null. *)
Definition predictStockLevels (found : option product)
    (salesData : list (option Z)) (daysAhead : Z) : option stock_report :=
  match found with
  | None => None
  | Some product =>
      let dailySales := dailySales_of salesData in
      let avgDailySales := average dailySales in
      let trend := trend_of dailySales in
      let predictions :=
        project avgDailySales trend (of_Z (stock_quantity product)) 1
          (Z.to_nat daysAhead) in
      let stockoutDay :=
        List.find (fun p => jle (predictedStock p) (Fin 0)) predictions in
      Some {| currentStock := stock_quantity product;
              avgDailySales := avgDailySales;
              salesTrend := trend;
              trendDirection := direction_of trend;
              daysUntilStockout := option_map day stockoutDay;
              predictions := predictions |}
  end.

(** The projection as the specification words it:
    predictedStock[d] = max(0, predictedStock[d-1] - A * (1 + T * (d/30))),
    read on a list of projected values starting at day 1. *)
Definition Qmax0 (x : Q) : Q := if Qle_bool 0 x then x else 0%Q.




(** The projection that the loop computes on finite inputs: the predicted
    sales of a day are clamped at 0 before they are subtracted. *)
Definition clamped_sales (A T : Q) (d : Z) : Q :=
  Qmax0 (A * (1 + T * (inject_Z d / 30)))%Q.

Fixpoint clamped_stock (S0 A T : Q) (d : nat) : Q :=
  match d with
  | O => S0
  | S d' =>
      Qmax0 (clamped_stock S0 A T d' - clamped_sales A T (Z.of_nat d))%Q
  end.

Definition Qrisk (stock : Q) : risk :=
  if Qle_bool stock 0 then critical
  else if Qle_bool stock 10 then high
  else low.

(** The entry that the loop pushes on day [d] when all its inputs are
    finite. *)
Definition entry (S0 A T : Q) (d : nat) : prediction :=
  {| day := Z.of_nat d;
     predictedStock := Fin (inject_Z (Qround (clamped_stock S0 A T d)));
     predictedSales := Fin (inject_Z (Qround (clamped_sales A T (Z.of_nat d))));
     stockoutRisk := Qrisk (clamped_stock S0 A T d) |}.



(** *** generateReorderSuggestions *)

Record suggestion : Type := {
  product_id : Z;
  suggestedStock : Z;
  reorderAvgDailySales : Q;
  reorderPoint : Z;
  recommendedQuantity : Z;
  reorderDaysUntilStockout : option Z;
  urgency : risk
}.

Record reorder_report : Type := {
  totalSuggestions : nat;
  criticalCount : nat;
  highCount : nat;
  suggestions : list suggestion
}.

(** salesMap.set(sale.product_id, parseInt(sale.totalSold || 0)) over the
    rows of the batched query; [totalSold] is [None] when the sum is null. *)
Definition build_salesMap (salesDataBatch : list (Z * option Z)) : gmap Z Z :=
  foldl (fun m sale => <[sale.1 := match sale.2 with Some n => n | None => 0 end]> m)
        ∅ salesDataBatch.

(** product.Supplier?.average_delivery_days || 7 *)
Definition leadTime (p : product) : Z :=
  match Supplier p with
  | Some s =>
      match average_delivery_days s with
      | Some d => if d =? 0 then 7 else d
      | None => 7
      end
  | None => 7
  end.

(** The body of the loop over the candidate products: the suggestion that
    is pushed, if any. *)
Definition suggest (salesMap : gmap Z Z) (p : product) : option suggestion :=
  let totalSold := match salesMap !! id p with Some n => n | None => 0 end in
  let avgDailySales := (inject_Z totalSold / 30)%Q in
  let leadTime := leadTime p in
  let reorderPoint :=
    Qceiling (avgDailySales * inject_Z (leadTime + SAFETY_STOCK_DAYS)) in
  let recommendedQuantity := Qceiling (avgDailySales * 30) in
  if stock_quantity p <=? reorderPoint then
    let urgency :=
      if stock_quantity p =? 0 then critical
      else if Qle_bool (inject_Z (stock_quantity p)) (avgDailySales * 3) then high
      else medium in
    Some {| product_id := id p;
            suggestedStock := stock_quantity p;
            reorderAvgDailySales := avgDailySales;
            reorderPoint := reorderPoint;
            recommendedQuantity := recommendedQuantity;
            reorderDaysUntilStockout :=
              if Qltb 0 avgDailySales
              then Some (Qfloor (inject_Z (stock_quantity p) / avgDailySales))
              else None;
            urgency := urgency |}
  else None.

Definition urgencyOrder (u : risk) : Z :=
  match u with critical => 0 | high => 1 | medium => 2 | low => 3 end.

(** Array.prototype.sort with the comparator on [urgencyOrder]: a stable
    sort, here by insertion. *)
Fixpoint insert_by_urgency (s : suggestion) (l : list suggestion) : list suggestion :=
  match l with
  | [] => [s]
  | x :: rest =>
      if urgencyOrder (urgency x) <? urgencyOrder (urgency s)
      then x :: insert_by_urgency s rest
      else s :: l
  end.

Definition sort_by_urgency (l : list suggestion) : list suggestion :=
  foldr insert_by_urgency [] l.

Definition count_urgency (u : risk) (l : list suggestion) : nat :=
  length (List.filter (fun s => urgencyOrder (urgency s) =? urgencyOrder u) l).

(** [table] is the product table and [salesDataBatch] the answer of the
    batched sales query; the candidates are the products with stock <= 50. *)
Definition generateReorderSuggestions (table : list product)
    (salesDataBatch : list (Z * option Z)) : reorder_report :=
  let products := List.filter (fun p => stock_quantity p <=? 50) table in
  match products with
  | [] => {| totalSuggestions := 0; criticalCount := 0; highCount := 0;
             suggestions := [] |}
  | _ =>
      let salesMap := build_salesMap salesDataBatch in
      let suggestions := omap (suggest salesMap) products in
      let suggestions := sort_by_urgency suggestions in
      {| totalSuggestions := length suggestions;
         criticalCount := count_urgency critical suggestions;
         highCount := count_urgency high suggestions;
         suggestions := suggestions |}
  end.

(** Sample inputs: a fortnight of sales that halves from 80 to 40 units a
    day, and a product with 5000 units in stock. *)
Definition halving_sales : list (option Z) :=
  repeat (Some 80) 7 ++ repeat (Some 40) 7.

Definition bulk_product : product :=
  {| id := 1; stock_quantity := 5000; Supplier := None |}.

(** Sample inputs for the reorder suggestions: a product without supplier
    that sold 30 units in 30 days and has 5 left. *)
Definition shelf_product : product :=
  {| id := 11; stock_quantity := 5; Supplier := None |}.

Definition shelf_sales : list (Z * option Z) := [(11, Some 30)].

End InventoryManagement.

(** ** middleware/performanceOptimization.js *)

Module PerformanceOptimization.
Import JsNum.

Local Open Scope Z_scope.

(** *** Response cache and its statistics *)

(** cacheStats; the counters start at 0 and are only ever incremented. *)
Record cache_stats : Type := {
  hits : nat;
  misses : nat;
  sets : nat
}.

Definition no_stats : cache_stats := {| hits := 0; misses := 0; sets := 0 |}.

(** The cache (its entries leave it when their TTL runs out, see [expire])
    together with the statistics. *)
Record cache_state : Type := {
  cache : gmap string string;
  cacheStats : cache_stats
}.

Definition empty_cache : cache_state := {| cache := ∅; cacheStats := no_stats |}.

(** A request, with the status and the body that the route handler answers
    when the request reaches it.  A body is a string; the empty string is
    the falsy one, which [if (cachedResponse)] takes for a miss. *)
Record request : Type := {
  originalUrl : string;
  statusCode : Z;
  data : string
}.

Inductive x_cache : Type := HIT | MISS.

Definition cacheMiddleware (keyPrefix : string) (req : request) (st : cache_state)
  : cache_state * (x_cache * string) :=
  let key := (keyPrefix ++ ":" ++ originalUrl req)%string in
  let stats := cacheStats st in
  match cache st !! key with
  | Some (String _ _ as cachedResponse) =>
      ({| cache := cache st;
          cacheStats := {| hits := S (hits stats); misses := misses stats;
                           sets := sets stats |} |},
       (HIT, cachedResponse))
  | _ =>
      let stats := {| hits := hits stats; misses := S (misses stats);
                      sets := sets stats |} in
      if (200 <=? statusCode req) && (statusCode req <? 300)
      then ({| cache := <[key := data req]> (cache st);
               cacheStats := {| hits := hits stats; misses := misses stats;
                                sets := S (sets stats) |} |},
            (MISS, data req))
      else ({| cache := cache st; cacheStats := stats |}, (MISS, data req))
  end.

(** The end of the lifetime of a cached entry. *)
Definition expire (key : string) (st : cache_state) : cache_state :=
  {| cache := delete key (cache st); cacheStats := cacheStats st |}.

(** What happens to the cache between and during requests. *)
Inductive cache_event : Type :=
| Request (keyPrefix : string) (req : request)
| Expire (key : string).

Definition cache_step (st : cache_state) (ev : cache_event) : cache_state :=
  match ev with
  | Request keyPrefix req => (cacheMiddleware keyPrefix req st).1
  | Expire key => expire key st
  end.

Definition cache_run (events : list cache_event) (st : cache_state) : cache_state :=
  foldl cache_step st events.

(** The X-Cache headers of the requests of a run. *)
Fixpoint cache_trace (events : list cache_event) (st : cache_state) : list x_cache :=
  match events with
  | [] => []
  | Request keyPrefix req :: rest =>
      (cacheMiddleware keyPrefix req st).2.1
      :: cache_trace rest (cacheMiddleware keyPrefix req st).1
  | Expire key :: rest => cache_trace rest (expire key st)
  end.

Definition is_hit (x : x_cache) : bool :=
  match x with HIT => true | MISS => false end.

Definition count_hits (l : list x_cache) : nat := length (List.filter is_hit l).
Definition count_misses (l : list x_cache) : nat :=
  length (List.filter (fun x => negb (is_hit x)) l).

(** hitRate: cacheStats.hits / (cacheStats.hits + cacheStats.misses) || 0 *)
Definition hitRate (stats : cache_stats) : jsnum :=
  jor (jdiv (of_Z (Z.of_nat (hits stats)))
            (of_Z (Z.of_nat (hits stats + misses stats))))
      (Fin 0).

(** *** Rate limiter *)

Record entry : Type := {
  count : Z;
  resetTime : Z
}.

(** The answer of the middleware: the three X-RateLimit headers, and either
    next() or status 429 with its Retry-After. *)
Record response : Type := {
  limit : Z;
  remaining : Z;
  reset : Z;
  retryAfter : option Z
}.

Definition rejected (r : response) : bool :=
  match retryAfter r with Some _ => true | None => false end.

(** Math.ceil(ms / 1000) *)
Definition ceil_seconds (ms : Z) : Z := Qceiling (inject_Z ms / 1000).

(** let entry = rateLimitStore.get(key);
    if (!entry || now > entry.resetTime) entry = { count: 0, resetTime: now + windowMs } *)
Definition windowed_entry (windowMs : Z) (key : string) (now : Z)
    (rateLimitStore : gmap string entry) : entry :=
  match rateLimitStore !! key with
  | Some entry =>
      if resetTime entry <? now
      then {| count := 0; resetTime := now + windowMs |}
      else entry
  | None => {| count := 0; resetTime := now + windowMs |}
  end.

Definition rateLimiter (windowMs maxRequests : Z) (key : string) (now : Z)
    (rateLimitStore : gmap string entry) : gmap string entry * response :=
  let entry := windowed_entry windowMs key now rateLimitStore in
  let entry := {| count := count entry + 1; resetTime := resetTime entry |} in
  let rateLimitStore := <[key := entry]> rateLimitStore in
  let headers retry :=
    {| limit := maxRequests;
       remaining := Z.max 0 (maxRequests - count entry);
       reset := resetTime entry;
       retryAfter := retry |} in
  if maxRequests <? count entry
  then (rateLimitStore, headers (Some (ceil_seconds (resetTime entry - now))))
  else (rateLimitStore, headers None).

(** The periodic sweep of the entries whose window has ended. *)
Definition sweep (now : Z) (rateLimitStore : gmap string entry) : gmap string entry :=
  filter (fun kv => ¬ (resetTime kv.2 < now)) rateLimitStore.

(** The window of [key] is open at [now]: an entry exists and its reset
    time has not passed. *)
Definition window_open (rateLimitStore : gmap string entry) (key : string)
    (now : Z) : bool :=
  match rateLimitStore !! key with
  | Some entry => negb (resetTime entry <? now)
  | None => false
  end.

(** Sample inputs: four requests for the same dashboard URL, and a store
    in which the client 10.0.0.2 has used part of its window. *)
Definition dashboard : request :=
  {| originalUrl := "/api/analytics/dashboard"; statusCode := 200;
     data := "{}" |}.

Definition four_requests : list cache_event :=
  repeat (Request "analytics" dashboard) 4.

Definition busy_store : gmap string entry :=
  {[ "10.0.0.2"%string := {| count := 2; resetTime := 61000 |} ]}.

End PerformanceOptimization.

(** ** services/customerAnalytics.js *)

Module CustomerAnalytics.
Import JsNum.

Local Open Scope Z_scope.

(** A completed transaction: its time in epoch milliseconds and the value
    of parseFloat on its total_amount. *)
Record transaction : Type := {
  timestamp : Z;
  total_amount : Q
}.

Record customer : Type := {
  id : Z;
  loyalty_tier : string;
  Transactions : list transaction
}.

Definition MS_PER_DAY : Z := 1000 * 60 * 60 * 24.

(** transactions.reduce((latest, t) => t.timestamp > latest.timestamp ? t : latest)
    and its mirror image for the earliest purchase; reduce without initial
    value starts from the first element. *)
Definition latest_of (first : transaction) (rest : list transaction) : transaction :=
  foldl (fun latest t => if timestamp latest <? timestamp t then t else latest)
        first rest.

Definition earliest_of (first : transaction) (rest : list transaction) : transaction :=
  foldl (fun earliest t => if timestamp t <? timestamp earliest then t else earliest)
        first rest.

(** Number.prototype.toFixed(2) followed by parseFloat: to the nearest
    cent, halves away from zero. *)
Definition toFixed2 (q : Q) : Q :=
  if Qltb q 0
  then (- (inject_Z (Qround (- q * 100)) / 100))%Q
  else (inject_Z (Qround (q * 100)) / 100)%Q.

(** *** performRFMAnalysis *)

(** A property of an object: absent (undefined), null, or a value. *)
Inductive field (A : Type) : Type :=
| Absent
| IsNull
| Value (a : A).
Arguments Absent {A}.
Arguments IsNull {A}.
Arguments Value {A} a.

Record rfm_row : Type := {
  customerId : Z;
  recency : field Z;
  recencyDays : field Z;
  frequency : Z;
  monetary : Q;
  rfmScore : field string;
  totalScore : field Z;
  segment : field string
}.

(** The row pushed by the first loop for one customer. *)
Definition initial_row (now : Z) (c : customer) : rfm_row :=
  match Transactions c with
  | [] =>
      {| customerId := id c;
         recency := IsNull;
         recencyDays := Absent;
         frequency := 0;
         monetary := 0;
         rfmScore := Value "111"%string;
         totalScore := Absent;
         segment := Value "Lost"%string |}
  | t :: rest =>
      let lastPurchase := latest_of t rest in
      {| customerId := id c;
         recency := Absent;
         recencyDays := Value ((now - timestamp lastPurchase) / MS_PER_DAY);
         frequency := Z.of_nat (length (t :: rest));
         monetary := toFixed2 (foldl (fun sum t => sum + total_amount t)%Q 0%Q
                                     (t :: rest));
         rfmScore := Absent;
         totalScore := Absent;
         segment := Absent |}
  end.

(** rfmData.filter(r => r.recencyDays !== null).map(r => r.recencyDays);
    an element is [None] when it is undefined. *)
Definition recencyValues_of (rfmData : list rfm_row) : list (option Q) :=
  flat_map (fun r => match recencyDays r with
                     | IsNull => []
                     | Absent => [None]
                     | Value d => [Some (inject_Z d)]
                     end) rfmData.

Definition frequencyValues_of (rfmData : list rfm_row) : list (option Q) :=
  map (fun r => Some (inject_Z (frequency r))) rfmData.

Definition monetaryValues_of (rfmData : list rfm_row) : list (option Q) :=
  map (fun r => Some (monetary r)) rfmData.

(** [...arr].sort((a, b) => a - b): the numbers in ascending order, then
    the undefined elements. *)
Fixpoint insert_number (x : Q) (l : list Q) : list Q :=
  match l with
  | [] => [x]
  | y :: rest => if Qle_bool x y then x :: l else y :: insert_number x rest
  end.

Definition sort_numbers (l : list Q) : list Q := foldr insert_number [] l.

Definition sorted_array (arr : list (option Q)) : list (option Q) :=
  map Some (sort_numbers (omap (fun v => v) arr))
  ++ List.filter (fun v => match v with None => true | Some _ => false end) arr.

(** sorted.findIndex(v => v >= val); a comparison with undefined is false. *)
Fixpoint findIndex_ge (val : option Q) (sorted : list (option Q)) (i : Z) : Z :=
  match sorted with
  | [] => -1
  | v :: rest =>
      match v, val with
      | Some x, Some y => if Qle_bool y x then i else findIndex_ge val rest (i + 1)
      | _, _ => findIndex_ge val rest (i + 1)
      end
  end.

Definition getPercentile (arr : list (option Q)) (val : option Q) (inverse : bool)
  : jsnum :=
  let sorted := sorted_array arr in
  let index := findIndex_ge val sorted 0 in
  let percentile :=
    jmul (jdiv (of_Z index) (of_Z (Z.of_nat (length sorted)))) (Fin 100) in
  if inverse then jsub (Fin 100) percentile else percentile.

Definition getScore (percentile : jsnum) : Z :=
  if jge percentile (Fin 80) then 5
  else if jge percentile (Fin 60) then 4
  else if jge percentile (Fin 40) then 3
  else if jge percentile (Fin 20) then 2
  else 1.

Definition assignSegment (r f m : Z) : string :=
  if (4 <=? r) && (4 <=? f) && (4 <=? m) then "Champions"
  else if (4 <=? r) && (3 <=? f) && (3 <=? m) then "Loyal Customers"
  else if (4 <=? r) && (f <=? 2) then "New Customers"
  else if (3 <=? r) && (3 <=? f) && (3 <=? m) then "Potential Loyalists"
  else if (r <=? 2) && (4 <=? f) && (4 <=? m) then "At Risk"
  else if (r <=? 2) && (2 <=? f) && (2 <=? m) then "Need Attention"
  else if (r <=? 2) && (f <=? 2) && (m <=? 2) then "Lost"
  else if (4 <=? m) then "Big Spenders"
  else "Others".

(** The decimal digit of a score. *)
Definition digit (n : Z) : string :=
  String (ascii_of_nat (48 + Z.to_nat n)) EmptyString.

(** The body of the second loop: rows whose recencyDays is null are
    skipped, every other row is scored against the three value arrays. *)
Definition score_row (recencyValues frequencyValues monetaryValues : list (option Q))
    (row : rfm_row) : rfm_row :=
  match recencyDays row with
  | IsNull => row
  | days =>
      let val := match days with Value d => Some (inject_Z d) | _ => None end in
      let rScore := getScore (getPercentile recencyValues val true) in
      let fScore :=
        getScore (getPercentile frequencyValues
                    (Some (inject_Z (frequency row))) false) in
      let mScore :=
        getScore (getPercentile monetaryValues (Some (monetary row)) false) in
      {| customerId := customerId row;
         recency := recency row;
         recencyDays := recencyDays row;
         frequency := frequency row;
         monetary := monetary row;
         rfmScore := Value (digit rScore ++ digit fScore ++ digit mScore)%string;
         totalScore := Value (rScore + fScore + mScore);
         segment := Value (assignSegment rScore fScore mScore) |}
  end.

Record rfm_report : Type := {
  totalCustomers : nat;
  rfmData : list rfm_row;
  segments : list (string * nat)
}.

(** segments[segment].count, in the order in which the segments first
    appear. *)
Definition segment_name (row : rfm_row) : string :=
  match segment row with
  | Value s => s
  | Absent => "undefined"
  | IsNull => "null"
  end.

Fixpoint bump (name : string) (counts : list (string * nat)) : list (string * nat) :=
  match counts with
  | [] => [(name, 1%nat)]
  | (n, k) :: rest =>
      if String.eqb n name then (n, S k) :: rest else (n, k) :: bump name rest
  end.

Definition performRFMAnalysis (now : Z) (customers : list customer) : rfm_report :=
  let rfmData := map (initial_row now) customers in
  let recencyValues := recencyValues_of rfmData in
  let frequencyValues := frequencyValues_of rfmData in
  let monetaryValues := monetaryValues_of rfmData in
  let rfmData := map (score_row recencyValues frequencyValues monetaryValues) rfmData in
  {| totalCustomers := length rfmData;
     rfmData := rfmData;
     segments := foldl (fun counts row => bump (segment_name row) counts) [] rfmData |}.

(** The treatment of customers without transactions as the specification
    words it: segment Lost and code 111, whatever the population. *)
Definition zero_transactions_are_lost (now : Z) (customers : list customer) : Prop :=
  forall (i : nat) (c : customer),
    customers !! i = Some c ->
    Transactions c = [] ->
    exists row,
      rfmData (performRFMAnalysis now customers) !! i = Some row /\
      customerId row = id c /\
      segment row = Value "Lost"%string /\
      rfmScore row = Value "111"%string.

(** *** identifyChurnRisk *)

Inductive risk : Type := critical | high | medium | low.

Record churn_row : Type := {
  churnCustomerId : Z;
  transactionCount : Z;
  daysSinceLastPurchase : Z;
  avgDaysBetweenPurchases : Z;
  churnProbability : string;
  riskLevel : risk;
  suggestedAction : string
}.

Definition getSuggestedAction (riskLevel : risk) (loyaltyTier : string) : string :=
  match riskLevel with
  | critical =>
      if String.eqb loyaltyTier "platinum" || String.eqb loyaltyTier "gold"
      then "Personal outreach with exclusive VIP offer"
      else "Send win-back email with 20% discount"
  | high => "Send re-engagement email with personalized recommendations"
  | _ => "Include in next promotional campaign"
  end.

(** (churnProbability * 100).toFixed(0) + '%' *)
Definition percent (churnProbability : Q) : string :=
  (pretty (Qround (churnProbability * 100)) ++ "%")%string.

(** The body of the loop over the customers: the row that is pushed, if
    any. *)
Definition churn_of (now : Z) (c : customer) : option churn_row :=
  match Transactions c with
  | [] => None
  | t :: rest =>
      let lastTransaction := latest_of t rest in
      let lastPurchaseDate := timestamp lastTransaction in
      let daysSinceLastPurchase := (now - lastPurchaseDate) / MS_PER_DAY in
      if (length (t :: rest) <? 2)%nat then None
      else
        let firstPurchase := earliest_of t rest in
        let avgDaysBetweenPurchases :=
          (lastPurchaseDate - timestamp firstPurchase)
          / (MS_PER_DAY * (Z.of_nat (length (t :: rest)) - 1)) in
        let '(churnProbability, riskLevel) :=
          if avgDaysBetweenPurchases * 3 <? daysSinceLastPurchase
          then ((9 # 10)%Q, critical)
          else if avgDaysBetweenPurchases * 2 <? daysSinceLastPurchase
          then ((7 # 10)%Q, high)
          else if Qltb (inject_Z avgDaysBetweenPurchases * (15 # 10))
                       (inject_Z daysSinceLastPurchase)
          then ((4 # 10)%Q, medium)
          else (0%Q, low) in
        if Qle_bool (4 # 10) churnProbability
        then Some {| churnCustomerId := id c;
                     transactionCount := Z.of_nat (length (t :: rest));
                     daysSinceLastPurchase := daysSinceLastPurchase;
                     avgDaysBetweenPurchases := avgDaysBetweenPurchases;
                     churnProbability := percent churnProbability;
                     riskLevel := riskLevel;
                     suggestedAction :=
                       getSuggestedAction riskLevel (loyalty_tier c) |}
        else None
  end.

Definition riskOrder (r : risk) : Z :=
  match r with critical => 0 | high => 1 | medium => 2 | low => 3 end.

(** churnRisk.sort((a, b) => riskOrder[a.riskLevel] - riskOrder[b.riskLevel]):
    a stable sort, here by insertion. *)
Fixpoint insert_by_risk (r : churn_row) (l : list churn_row) : list churn_row :=
  match l with
  | [] => [r]
  | x :: rest =>
      if riskOrder (riskLevel x) <? riskOrder (riskLevel r)
      then x :: insert_by_risk r rest
      else r :: l
  end.

Record churn_report : Type := {
  totalAtRisk : nat;
  criticalCount : nat;
  highCount : nat;
  mediumCount : nat;
  churnCustomers : list churn_row
}.

Definition count_risk (r : risk) (l : list churn_row) : nat :=
  length (List.filter (fun x => riskOrder (riskLevel x) =? riskOrder r) l).

Definition identifyChurnRisk (now : Z) (customers : list customer) : churn_report :=
  let churnRisk := foldr insert_by_risk [] (omap (churn_of now) customers) in
  {| totalAtRisk := length churnRisk;
     criticalCount := count_risk critical churnRisk;
     highCount := count_risk high churnRisk;
     mediumCount := count_risk medium churnRisk;
     churnCustomers := churnRisk |}.

(** The times of the latest and of the earliest purchase, as a maximum and
    a minimum. *)
Definition last_purchase (t : transaction) (rest : list transaction) : Z :=
  foldr Z.max (timestamp t) (map timestamp rest).

Definition first_purchase (t : transaction) (rest : list transaction) : Z :=
  foldr Z.min (timestamp t) (map timestamp rest).

(** The risk tiers as the specification words them: r is the ratio of the
    days since the last purchase to the average interval, the span between
    first and last purchase divided by the transaction count minus one. *)
Definition spec_average_interval (t : transaction) (rest : list transaction) : Q :=
  (inject_Z (last_purchase t rest - first_purchase t rest) / inject_Z MS_PER_DAY
   / (inject_Z (Z.of_nat (length (t :: rest))) - 1))%Q.

Definition spec_ratio (now : Z) (t : transaction) (rest : list transaction) : Q :=
  (inject_Z ((now - last_purchase t rest) / MS_PER_DAY)
   / spec_average_interval t rest)%Q.

Definition spec_tier (r : Q) : option (risk * string) :=
  if Qltb 3 r then Some (critical, "90%"%string)
  else if Qltb 2 r then Some (high, "70%"%string)
  else if Qltb (15 # 10) r then Some (medium, "40%"%string)
  else None.

Definition churn_as_specified (now : Z) (c : customer) : Prop :=
  forall t rest,
    Transactions c = t :: rest ->
    (2 <= length (t :: rest))%nat ->
    option_map (fun row => (riskLevel row, churnProbability row)) (churn_of now c)
    = spec_tier (spec_ratio now t rest).

(** Sample inputs: a customer without transactions; a customer with two
    purchases 10.9 days apart, seen 31 days after the second; a customer
    with two purchases 10 days apart, seen 35 days after the second. *)
Definition newcomer : customer :=
  {| id := 1; loyalty_tier := "none"; Transactions := [] |}.

Definition regular : customer :=
  {| id := 2; loyalty_tier := "gold";
     Transactions := [ {| timestamp := 0; total_amount := 120 |};
                       {| timestamp := 941760000; total_amount := 80 |} ] |}.

Definition regular_now : Z := 941760000 + 31 * MS_PER_DAY.

Definition lapsed : customer :=
  {| id := 3; loyalty_tier := "silver";
     Transactions := [ {| timestamp := 0; total_amount := 50 |};
                       {| timestamp := 10 * MS_PER_DAY; total_amount := 50 |} ] |}.

Definition lapsed_now : Z := 45 * MS_PER_DAY.

End CustomerAnalytics.

(** ** middleware/performanceOptimization.js, continued *)

Module PerformanceMore.
Import JsNum PerformanceOptimization.

Local Open Scope Z_scope.

(** Successive calls of one identity at the given times; the answers are
    listed in the order of the calls. *)
Fixpoint calls (windowMs maxRequests : Z) (key : string) (times : list Z)
    (rateLimitStore : gmap string entry) : gmap string entry * list response :=
  match times with
  | [] => (rateLimitStore, [])
  | now :: rest =>
      let answer := rateLimiter windowMs maxRequests key now rateLimitStore in
      let later := calls windowMs maxRequests key rest answer.1 in
      (later.1, answer.2 :: later.2)
  end.

(** cacheManager.invalidatePattern: [test] is RegExp.prototype.test of the
    pattern; the keys are visited in the order in which the cache lists
    them. *)
Definition invalidate_key (test : string -> bool) (acc : gmap string string * nat)
    (key : string) : gmap string string * nat :=
  if test key then (delete key acc.1, S acc.2) else acc.

Definition invalidatePattern (test : string -> bool) (st : cache_state)
  : cache_state * nat :=
  let keys := (map_to_list (cache st)).*1 in
  let swept := foldl (invalidate_key test) (cache st, 0%nat) keys in
  ({| cache := swept.1; cacheStats := cacheStats st |}, swept.2).

(** cacheManager.set and cacheManager.flush *)
Definition cacheManager_set (key value : string) (st : cache_state) : cache_state :=
  {| cache := <[key := value]> (cache st);
     cacheStats := {| hits := hits (cacheStats st);
                      misses := misses (cacheStats st);
                      sets := S (sets (cacheStats st)) |} |}.

Definition flush (st : cache_state) : cache_state :=
  {| cache := ∅; cacheStats := cacheStats st |}.







(** Sample inputs. *)
Definition three_keys : cache_state :=
  {| cache := {[ "analytics:/a" := "1"; "analytics:/b" := "2";
                 "dashboard:/a" := "3" ]}%string;
     cacheStats := no_stats |}.

Definition is_analytics (key : string) : bool :=
  String.prefix "analytics" key.

End PerformanceMore.

(** ** services/fraudDetection.js, continued *)

Module FraudMore.
Import JsNum FraudDetection.

Local Open Scope Z_scope.

(** The position of the check that raises a flag, in the order in which
    the analysis runs the checks. *)
Definition check_rank (c : check) : Z :=
  match c with
  | NotSuspicious => -1
  | Flag (amount_exceeds_limit | amount_too_low | amount_deviation | high_value) _ => 0
  | Flag velocity_exceeded _ => 1
  | Flag unusual_time _ => 2
  | Flag (unknown_customer | high_risk_customer) _ => 3
  | Flag (missing_user_agent | bot_detected) _ => 4
  end.

Definition points (flags : list check) : Z :=
  foldr (fun c acc => score c + acc) 0 flags.

(** A string with its letters in lower case. *)
Fixpoint lowercase (s : string) : string :=
  match s with
  | EmptyString => EmptyString
  | String a s' => String (lower a) (lowercase s')
  end.

(** analyzeExistingTransactions: [rows] is the answer of the query for
    the transactions to analyse, each with its id, the instant at which its
    analysis reads the clock, and its customer; [db] holds the fraud_score
    and fraud_flags columns by transaction id.  The loop updates a
    transaction as soon as it is analysed. *)
Record fraud_columns : Type := {
  fraud_score : Q;
  fraud_flags : list check
}.

Record batch_row : Type := {
  row_id : Z;
  row_now : Z;
  row_transaction : transaction;
  row_customer : option customer
}.

Fixpoint analyzeExistingTransactions (getHours : Z -> jsnum) (count : count_query)
    (rows : list batch_row) (db : gmap Z fraud_columns)
  : gmap Z fraud_columns * promise (list (batch_row * analysis)) :=
  match rows with
  | [] => (db, Fulfilled [])
  | row :: rest =>
      match analyzeTransaction getHours count (row_now row)
              (row_transaction row) (row_customer row) with
      | Rejected err => (db, Rejected err)
      | Fulfilled analysis =>
          let db := <[row_id row := {| fraud_score := fraudScore analysis;
                                       fraud_flags := flags analysis |}]> db in
          let later := analyzeExistingTransactions getHours count rest db in
          (later.1,
           results ← later.2;
           mret (if isSuspicious analysis then (row, analysis) :: results
                 else results))
      end
  end.

(** The entry that the loop pushes for a row, if any. *)
Definition suspicious_entry (getHours : Z -> jsnum) (count : count_query)
    (row : batch_row) : option (batch_row * analysis) :=
  match analyzeTransaction getHours count (row_now row)
          (row_transaction row) (row_customer row) with
  | Fulfilled analysis =>
      if isSuspicious analysis then Some (row, analysis) else None
  | Rejected _ => None
  end.

(** The query of a row answers. *)
Definition answers (count : count_query) (row : batch_row) : Prop :=
  exists n,
    count (customer_id (row_transaction row)) (row_now row - 600000) = Fulfilled n.

(** Sample inputs. *)
Definition sample_row : batch_row :=
  {| row_id := 41; row_now := 1700000000000;
     row_transaction := tx_15000; row_customer := None |}.

End FraudMore.

(** ** services/inventoryManagement.js, continued *)

Module InventoryMore.
Import JsNum InventoryManagement.

Local Open Scope Z_scope.

(** *** optimizeSupplier *)

(** A supplier as the query returns it; [delivery_days] is [None] when
    average_delivery_days is null, [payment_terms] is the empty string
    when the column is null. *)
Record supplier_row : Type := {
  sup_id : Z;
  reliability_score : Q;
  delivery_days : option Z;
  payment_terms : string
}.

(** Number.prototype.toFixed(1) followed by parseFloat: to the nearest
    tenth, halves away from zero. *)
Definition toFixed1 (q : Q) : Q :=
  if Qltb q 0
  then (- (inject_Z (Qround (- q * 10)) / 10))%Q
  else (inject_Z (Qround (q * 10)) / 10)%Q.

Definition reliabilityScore (s : supplier_row) : Q := (reliability_score s * 40)%Q.

(** (1 - Math.min(average_delivery_days, 14) / 14) * 30; null counts as 0. *)
Definition deliveryScore (s : supplier_row) : Q :=
  let days := match delivery_days s with Some d => d | None => 0 end in
  ((1 - inject_Z (Z.min days 14) / 14) * 30)%Q.

Definition costScore (s : supplier_row) : Q :=
  if String.eqb (payment_terms s) "Net 60" then 30%Q
  else if String.eqb (payment_terms s) "Net 45" then 25%Q
  else if String.eqb (payment_terms s) "Net 30" then 20%Q
  else if String.eqb (payment_terms s) "Prepaid" then 10%Q
  else 20%Q.

Definition totalScore (s : supplier_row) : Q :=
  (reliabilityScore s + deliveryScore s + costScore s)%Q.

Record supplier_score : Type := {
  scored : supplier_row;
  score_reliability : Q;
  score_delivery : Q;
  score_cost : Q;
  score_total : Q
}.

Definition score_supplier (s : supplier_row) : supplier_score :=
  {| scored := s;
     score_reliability := toFixed1 (reliabilityScore s);
     score_delivery := toFixed1 (deliveryScore s);
     score_cost := toFixed1 (costScore s);
     score_total := toFixed1 (totalScore s) |}.

(** supplierScores.sort((a, b) => parseFloat(b.scores.total) - parseFloat(a.scores.total)):
    a stable sort in descending order, here by insertion. *)
Fixpoint insert_by_total (x : supplier_score) (l : list supplier_score)
  : list supplier_score :=
  match l with
  | [] => [x]
  | y :: rest =>
      if Qltb (score_total x) (score_total y)
      then y :: insert_by_total x rest
      else x :: l
  end.

Definition rank_suppliers (l : list supplier_score) : list supplier_score :=
  foldr insert_by_total [] l.

(** [x] ranks at least as high as [y]. *)
Definition outranks (x y : supplier_score) : Prop :=
  (score_total y <= score_total x)%Q.

Record supplier_report : Type := {
  recommendations : list supplier_score;
  bestSupplier : option supplier_score
}.

(** [found] is whether findByPk found the product; [suppliers] is the
    answer of the query for the reliable suppliers. *)
Definition optimizeSupplier (found : bool) (suppliers : list supplier_row)
  : option supplier_report :=
  if found then
    let supplierScores := rank_suppliers (map score_supplier suppliers) in
    Some {| recommendations := firstn 5 supplierScores;
            bestSupplier := head supplierScores |}
  else None.

(** *** analyzeSeasonalPatterns *)

(** A row of the grouped sales: the parsed group key (day of week or hour)
    and the parsed totals, 0 where the sum is null. *)
Record season_row : Type := {
  season_key : Z;
  season_quantity : Z;
  season_count : Z
}.

Record season_entry : Type := {
  index : Z;
  label : string;
  totalQuantity : Z;
  transactionCount : Z
}.

Definition dayNames : list string :=
  ["Sunday"; "Monday"; "Tuesday"; "Wednesday"; "Thursday"; "Friday"; "Saturday"]%string.

(** hour.toString().padStart(2, '0') followed by ":00" *)
Definition hour_label (hour : Z) : string :=
  ((if (hour <? 10)%Z then "0" else "") ++ pretty hour ++ ":00")%string.

(** The entry of one day or hour: the totals of the first row with that
    key, zeros when there is none. *)
Definition season_entry_of (rows : list season_row) (i : Z) (name : string)
  : season_entry :=
  match List.find (fun d => season_key d =? i) rows with
  | Some d => {| index := i; label := name;
                 totalQuantity := season_quantity d;
                 transactionCount := season_count d |}
  | None => {| index := i; label := name;
               totalQuantity := 0; transactionCount := 0 |}
  end.

Definition weeklyPattern (salesByDayOfWeek : list season_row) : list season_entry :=
  imap (fun i name => season_entry_of salesByDayOfWeek (Z.of_nat i) name) dayNames.

Definition hourlyPattern (salesByHour : list season_row) : list season_entry :=
  map (fun hour => season_entry_of salesByHour (Z.of_nat hour)
                     (hour_label (Z.of_nat hour)))
      (seq 0 24).

(** pattern.reduce((max, d) => d.totalQuantity > max.totalQuantity ? d : max, pattern[0]) *)
Definition peak_from (first : season_entry) (pattern : list season_entry)
  : season_entry :=
  foldl (fun max d => if totalQuantity max <? totalQuantity d then d else max)
        first pattern.

Definition peak (pattern : list season_entry) : option season_entry :=
  match pattern with
  | [] => None
  | first :: _ => Some (peak_from first pattern)
  end.

Record season_report : Type := {
  weekly : list season_entry;
  hourly : list season_entry;
  peakDay : string;
  peakHour : string;
  recommendation : string
}.

Definition analyzeSeasonalPatterns (found : bool)
    (salesByDayOfWeek salesByHour : list season_row) : option season_report :=
  if found then
    let weeklyPattern := weeklyPattern salesByDayOfWeek in
    let hourlyPattern := hourlyPattern salesByHour in
    match peak weeklyPattern, peak hourlyPattern with
    | Some peakDay, Some peakHour =>
        Some {| weekly := weeklyPattern;
                hourly := hourlyPattern;
                peakDay := label peakDay;
                peakHour := label peakHour;
                recommendation :=
                  ("Consider increasing stock before " ++ label peakDay
                   ++ "s and ensuring availability during " ++ label peakHour
                   ++ " hours.")%string |}
    | _, _ => None
    end
  else None.

(** Sample inputs. *)
Definition two_suppliers : list supplier_row :=
  [ {| sup_id := 1; reliability_score := 95 # 100; delivery_days := Some 7;
       payment_terms := "Net 30" |};
    {| sup_id := 2; reliability_score := 80 # 100; delivery_days := None;
       payment_terms := "Net 60" |} ].

Definition unknown_delivery : supplier_row :=
  {| sup_id := 2; reliability_score := 80 # 100; delivery_days := None;
     payment_terms := "Net 60" |}.

(** [a] is at least as urgent as [b]. *)
Definition by_urgency (a b : suggestion) : Prop :=
  urgencyOrder (urgency a) <= urgencyOrder (urgency b).

(** The delivery days of the supplier of [p], when recorded, are not
    negative. *)
Definition delivery_days_nonneg (p : product) : Prop :=
  forall s d, Supplier p = Some s -> average_delivery_days s = Some d -> 0 <= d.

Definition late_week : list (option Z) := repeat (Some 0) 7 ++ repeat (Some 3) 7.

Definition empty_shelf : product :=
  {| id := 5; stock_quantity := 0; Supplier := None |}.

End InventoryMore.

(** ** services/customerAnalytics.js, continued *)

Module CustomerMore.
Import JsNum CustomerAnalytics.

Local Open Scope Z_scope.

(** The number of values of an array that lie strictly below [v]. *)
Definition count_below (v : Q) (nums : list Q) : nat :=
  length (List.filter (fun x => Qltb x v) nums).

(** *** performRFMAnalysis: the segment counts and topCustomers *)

(** The number of rows of a segment, and segments[name].count (0 when the
    segment has no entry). *)
Definition count_named (name : string) (rows : list rfm_row) : nat :=
  length (List.filter (fun row => String.eqb (segment_name row) name) rows).

Definition count_of (name : string) (counts : list (string * nat)) : nat :=
  match List.find (fun entry => String.eqb entry.1 name) counts with
  | Some entry => entry.2
  | None => 0%nat
  end.

(** rfmData.filter(c => c.totalScore): an absent, null or zero total is
    falsy. *)
Definition has_totalScore (row : rfm_row) : bool :=
  match totalScore row with
  | Value n => negb (n =? 0)
  | _ => false
  end.

Definition score_value (row : rfm_row) : Z :=
  match totalScore row with
  | Value n => n
  | _ => 0
  end.

(** .sort((a, b) => b.totalScore - a.totalScore): a stable sort in
    descending order, here by insertion. *)
Fixpoint insert_by_score (r : rfm_row) (l : list rfm_row) : list rfm_row :=
  match l with
  | [] => [r]
  | x :: rest =>
      if score_value r <? score_value x
      then x :: insert_by_score r rest
      else r :: l
  end.

Definition ranked_by_score (rows : list rfm_row) : list rfm_row :=
  foldr insert_by_score [] (List.filter has_totalScore rows).

(** ... .slice(0, 20) *)
Definition topCustomers (rows : list rfm_row) : list rfm_row :=
  firstn 20 (ranked_by_score rows).

(** [a] has at least the total score of [b]. *)
Definition higher_score (a b : rfm_row) : Prop := score_value b <= score_value a.

(** *** predictCustomerLifetimeValue *)






(** *** identifyChurnRisk: the order of the report *)

(** [a] is at least as much at risk as [b]. *)
Definition by_risk (a b : churn_row) : Prop :=
  riskOrder (riskLevel a) <= riskOrder (riskLevel b).

(** Sample input: a customer who bought twice on one day. *)
Definition burst_buyer : customer :=
  {| id := 4; loyalty_tier := "gold";
     Transactions := [ {| timestamp := 1000; total_amount := 20 |};
                       {| timestamp := 5000; total_amount := 30 |} ] |}.

End CustomerMore.

(** ** routes/transactions.js *)

Module TransactionRoutes.
Import JsNum FraudDetection.

Local Open Scope Z_scope.

(** The columns of the tables that the handler of POST /api/transactions
    reads and writes.  [price] holds the value of parseFloat on the stored
    price. *)
Record product_row : Type := {
  price : Q;
  stock_quantity : Z
}.

Record transaction_row : Type := {
  row_customer_id : Z;
  row_product_id : Z;
  row_quantity : Z;
  row_total_amount : Q;
  row_timestamp : Z;
  row_user_agent : option string;
  row_status : string;
  row_fraud_score : Q;
  row_fraud_flags : list check
}.

Record alert_row : Type := {
  alert_severity : severity_level;
  alert_customer_id : Z;
  alert_flags : list check
}.

Record database : Type := {
  customers : gmap Z customer;
  products : gmap Z product_row;
  transactions : list transaction_row;
  alerts : list alert_row
}.

(** The body of a request and its User-Agent header; customer_id and
    product_id are integers. *)
Record request : Type := {
  body_customer_id : Z;
  body_product_id : Z;
  body_quantity : Z;
  body_payment_method : string;
  body_user_agent : option string;
  header_user_agent : option string
}.

(** The status of the response and its fraudAnalysis block: score,
    isSuspicious, severity. *)
Record response : Type := {
  status : Z;
  fraudAnalysis : option (Q * bool * severity_level)
}.

Definition respond (code : Z) : response :=
  {| status := code; fraudAnalysis := None |}.

Definition payment_methods : list string :=
  ["credit_card"; "paypal"; "google_pay"; "apple_pay"; "bank_transfer"]%string.

(** transactionValidation: quantity is an integer >= 1 and the payment
    method is a known one. *)
Definition transactionValidation (req : request) : bool :=
  (1 <=? body_quantity req)
  && existsb (String.eqb (body_payment_method req)) payment_methods.

(** user_agent || req.get('User-Agent') *)
Definition user_agent_of (req : request) : option string :=
  match body_user_agent req with
  | Some (String a s) => Some (String a s)
  | _ => header_user_agent req
  end.

Definition total_amount_of (product : product_row) (quantity : Z) : Q :=
  let unit_price := price product in
  let subtotal := (unit_price * inject_Z quantity)%Q in
  let tax_amount := (subtotal * (8 # 100))%Q in
  (subtotal + tax_amount)%Q.

(** Transaction.count({ where: { customer_id, timestamp >= windowStart } })
    on the rows of the table; [available] tells whether the query
    answers. *)
Definition in_window (customerId : option Z) (windowStart : Z)
    (row : transaction_row) : bool :=
  match customerId with
  | Some cid => (row_customer_id row =? cid) && (windowStart <=? row_timestamp row)
  | None => false
  end.

Definition count_rows (available : bool) (rows : list transaction_row)
  : count_query :=
  fun customerId windowStart =>
    if available
    then Fulfilled (Z.of_nat (length (List.filter (in_window customerId windowStart) rows)))
    else Rejected "SequelizeConnectionError".

Definition created_row (req : request) (total_amount : Q) (created_at : Z)
  : transaction_row :=
  {| row_customer_id := body_customer_id req;
     row_product_id := body_product_id req;
     row_quantity := body_quantity req;
     row_total_amount := total_amount;
     row_timestamp := created_at;
     row_user_agent := user_agent_of req;
     row_status := "completed";
     row_fraud_score := 0;
     row_fraud_flags := [] |}.

(** transaction.update({ fraud_score, fraud_flags }) *)
Definition scored (row : transaction_row) (fraudAnalysis : analysis)
  : transaction_row :=
  {| row_customer_id := row_customer_id row;
     row_product_id := row_product_id row;
     row_quantity := row_quantity row;
     row_total_amount := row_total_amount row;
     row_timestamp := row_timestamp row;
     row_user_agent := row_user_agent row;
     row_status := row_status row;
     row_fraud_score := fraudScore fraudAnalysis;
     row_fraud_flags := flags fraudAnalysis |}.

(** router.post('/'): the database after the request and the response.
    [created_at] is the clock when the transaction is created, [now] when
    its analysis starts; the only failure followed is that of the query
    of the velocity check. *)
Definition post_transaction (getHours : Z -> jsnum) (available : bool)
    (created_at now : Z) (req : request) (db : database)
  : database * response :=
  if negb (transactionValidation req) then (db, respond 400)
  else
    match customers db !! body_customer_id req with
    | None => (db, respond 404)
    | Some customer =>
        match products db !! body_product_id req with
        | None => (db, respond 404)
        | Some product =>
            if stock_quantity product <? body_quantity req then (db, respond 400)
            else
              let total_amount := total_amount_of product (body_quantity req) in
              if Qltb total_amount (1 # 100) || Qltb 10000 total_amount
              then (db, respond 400)
              else
                let row := created_row req total_amount created_at in
                let rows := transactions db ++ [row] in
                let transaction :=
                  {| customer_id := Some (body_customer_id req);
                     total_amount := Fin total_amount;
                     timestamp := created_at;
                     user_agent := user_agent_of req |} in
                match analyzeTransaction getHours (count_rows available rows)
                        now transaction (Some customer) with
                | Rejected _ =>
                    ({| customers := customers db; products := products db;
                        transactions := rows; alerts := alerts db |},
                     respond 500)
                | Fulfilled fraudAnalysis =>
                    ({| customers :=
                          <[body_customer_id req :=
                              {| total_spent :=
                                   jadd (total_spent customer) (Fin total_amount);
                                 risk_score := risk_score customer |}]>
                            (customers db);
                        products :=
                          <[body_product_id req :=
                              {| price := price product;
                                 stock_quantity :=
                                   stock_quantity product - body_quantity req |}]>
                            (products db);
                        transactions :=
                          transactions db ++ [scored row fraudAnalysis];
                        alerts :=
                          if isSuspicious fraudAnalysis
                          then alerts db
                               ++ [{| alert_severity := severity fraudAnalysis;
                                      alert_customer_id := body_customer_id req;
                                      alert_flags := flags fraudAnalysis |}]
                          else alerts db |},
                     {| status := 201;
                        fraudAnalysis :=
                          Some (fraudScore fraudAnalysis,
                                isSuspicious fraudAnalysis,
                                severity fraudAnalysis) |})
                end
        end
    end.

(** The request passes every check that precedes the creation of the
    transaction, for customer [c] and product [p]. *)
Definition accepted (req : request) (db : database) (c : customer)
    (p : product_row) : Prop :=
  transactionValidation req = true /\
  customers db !! body_customer_id req = Some c /\
  products db !! body_product_id req = Some p /\
  body_quantity req <= stock_quantity p /\
  ((1 # 100) <= total_amount_of p (body_quantity req) <= 10000)%Q.

(** The transaction that the handler hands to the analysis. *)
Definition analysed (req : request) (p : product_row) (created_at : Z)
  : transaction :=
  {| customer_id := Some (body_customer_id req);
     total_amount := Fin (total_amount_of p (body_quantity req));
     timestamp := created_at;
     user_agent := user_agent_of req |}.

(** The earlier transactions of the customer inside the velocity window. *)
Definition earlier_in_window (req : request) (db : database) (now : Z) : Z :=
  Z.of_nat (length (List.filter
                      (in_window (Some (body_customer_id req)) (now - 600000))
                      (transactions db))).

Definition flag_types (l : list check) : list flag_type :=
  omap (fun c => match c with Flag type _ => Some type | NotSuspicious => None end) l.

(** GET /api/transactions/suspicious: parseFloat(req.query.minScore) || 0.5
    and the summary of the rows found, by their fraud_score. *)
Definition minScore_of (parsed : jsnum) : jsnum := jor parsed (Fin (5 # 10)).

Record summary : Type := {
  summary_total : nat;
  summary_critical : nat;
  summary_high : nat;
  summary_medium : nat
}.

Definition summarise (scores : list Q) : summary :=
  {| summary_total := length scores;
     summary_critical := length (List.filter (fun s => Qle_bool (8 # 10) s) scores);
     summary_high :=
       length (List.filter (fun s => Qle_bool (6 # 10) s && Qltb s (8 # 10)) scores);
     summary_medium :=
       length (List.filter (fun s => Qle_bool (4 # 10) s && Qltb s (6 # 10)) scores) |}.

Definition count_severity (level : severity_level) (scores : list Q) : nat :=
  length (List.filter (fun s => severity_rank (getSeverity s) =? severity_rank level)
            scores).

(** Sample inputs: a shop with one customer and one product, and an order
    of two units. *)
Definition shop : database :=
  {| customers := {[ 7 := {| total_spent := Fin 1000; risk_score := Fin (1 # 10) |} ]};
     products := {[ 3 := {| price := 50; stock_quantity := 10 |} ]};
     transactions := [];
     alerts := [] |}.

Definition order : request :=
  {| body_customer_id := 7; body_product_id := 3; body_quantity := 2;
     body_payment_method := "paypal";
     body_user_agent := None;
     header_user_agent := Some "Mozilla/5.0"%string |}.

End TransactionRoutes.

(** * Properties *)

Module JsNumFacts.
Import JsNum.

(** Case analysis on every condition of a cascade of [if]s. *)
Ltac case_ifs :=
  repeat match goal with
         | |- context [if ?b then _ else _] => destruct b
         end.

(** Settle a boolean comparison on [Z] whose outcome follows by [lia]. *)
Ltac ltb_true c :=
  replace c with true by (symmetry; apply Z.ltb_lt; lia).
Ltac ltb_false c :=
  replace c with false by (symmetry; apply Z.ltb_ge; lia).

Lemma Qltb_lt (a b : Q) : Qltb a b = true <-> (a < b)%Q.
Proof.
  unfold Qltb. rewrite negb_true_iff.
  destruct (Qle_bool b a) eqn:E.
  - apply Qle_bool_iff in E. split; [discriminate | intros H; lra].
  - split; [intros _ | reflexivity].
    destruct (Qlt_le_dec a b) as [H | H]; [exact H |].
    apply Qle_bool_iff in H. congruence.
Qed.

Lemma Qltb_ge (a b : Q) : Qltb a b = false <-> (b <= a)%Q.
Proof.
  unfold Qltb. rewrite negb_false_iff. apply Qle_bool_iff.
Qed.

Lemma Qle_bool_false (a b : Q) : Qle_bool a b = false <-> (b < a)%Q.
Proof.
  rewrite <- Qltb_lt. unfold Qltb.
  destruct (Qle_bool a b); simpl; split; congruence.
Qed.

End JsNumFacts.

(** ** Fraud scoring *)

Module FraudProps.
Import JsNum JsNumFacts FraudDetection.

Local Open Scope Z_scope.

Lemma checkAmountAnomaly_score t c : 0 <= score (checkAmountAnomaly t c).
Proof.
  unfold checkAmountAnomaly.
  case_ifs;
    simpl; lia.
Qed.

Lemma checkTimePattern_score getHours ts : 0 <= score (checkTimePattern getHours ts).
Proof. unfold checkTimePattern. destruct (_ && _); simpl; lia. Qed.

Lemma checkCustomerRisk_score c : 0 <= score (checkCustomerRisk c).
Proof.
  unfold checkCustomerRisk. destruct c as [c |]; [| simpl; lia].
  destruct (jge _ _); simpl; lia.
Qed.

Lemma checkForBot_score ua : 0 <= score (checkForBot ua).
Proof.
  unfold checkForBot. destruct ua as [[| a s] |]; try (simpl; lia).
  destruct (existsb _ _); simpl; lia.
Qed.

Lemma record_check_points c acc :
  0 <= score c -> 0 <= acc.2 -> 0 <= (record_check c acc).2.
Proof.
  unfold record_check. destruct (suspicious c); simpl; lia.
Qed.

Lemma normalize_range points :
  0 <= points -> (0 <= normalize points <= 1)%Q.
Proof.
  intros Hp. unfold normalize.
  assert (H0 : (0 <= inject_Z points / 100)%Q).
  { apply Qle_shift_div_l; [reflexivity |].
    rewrite Qmult_0_l. change 0%Q with (inject_Z 0). now rewrite <- Zle_Qle. }
  destruct (Qle_bool _ 1) eqn:E.
  - apply Qle_bool_iff in E. split; assumption.
  - split; discriminate.
Qed.

Lemma getSeverity_buckets (s : Q) :
  (getSeverity s = critical <-> (8 # 10 <= s)%Q) /\
  (getSeverity s = high <-> (6 # 10 <= s /\ s < 8 # 10)%Q) /\
  (getSeverity s = medium <-> (4 # 10 <= s /\ s < 6 # 10)%Q) /\
  (getSeverity s = low <-> (s < 4 # 10)%Q).
Proof.
  unfold getSeverity.
  destruct (Qle_bool (8 # 10) s) eqn:E8;
    [apply Qle_bool_iff in E8 | apply Qle_bool_false in E8];
  (destruct (Qle_bool (6 # 10) s) eqn:E6;
    [apply Qle_bool_iff in E6 | apply Qle_bool_false in E6]);
  (destruct (Qle_bool (4 # 10) s) eqn:E4;
    [apply Qle_bool_iff in E4 | apply Qle_bool_false in E4]);
  repeat split; intros; try discriminate; try reflexivity;
    repeat match goal with H : _ /\ _ |- _ => destruct H end; lra.
Qed.

Lemma getSeverity_monotone (s1 s2 : Q) :
  (s1 <= s2)%Q -> severity_rank (getSeverity s1) <= severity_rank (getSeverity s2).
Proof.
  intros Hle.
  destruct (getSeverity_buckets s1) as (C1 & H1 & M1 & L1).
  destruct (getSeverity_buckets s2) as (C2 & H2 & M2 & L2).
  destruct (getSeverity s1) eqn:E1, (getSeverity s2) eqn:E2; simpl; try lia;
    exfalso;
    repeat match goal with
    | H : ?x = ?x <-> _ |- _ => destruct H as [H _]; specialize (H eq_refl)
    | H : _ /\ _ |- _ => destruct H
    end; lra.
Qed.

Lemma checkVelocity_fulfilled count now cid n :
  count cid (now - 600000) = Fulfilled n ->
  checkVelocity count now cid =
  Fulfilled (if VELOCITY_MAX_TRANSACTIONS <=? n
             then Flag velocity_exceeded 30 else NotSuspicious).
Proof.
  intros Hq. unfold checkVelocity.
  change (now - VELOCITY_WINDOW_MINUTES * 60 * 1000) with (now - 600000).
  rewrite Hq. cbn [mbind promise_bind]. now destruct (_ <=? n).
Qed.

(** C1.  Whenever the velocity query answers, the analysis returns a
    result whose fraudScore lies in [0, 1], whose isSuspicious flag is true
    exactly when fraudScore >= 0.5, and whose severity is the bucket of
    fraudScore: critical iff >= 0.8, high iff in [0.6, 0.8), medium iff in
    [0.4, 0.6), low iff below 0.4; the bucket is a monotone function of
    the score.  The customer may be absent. *)
Theorem analyzeTransaction_score_invariant
    (getHours : Z -> jsnum) (count : count_query) (now : Z)
    (t : transaction) (c : option customer) (n : Z) :
  count (customer_id t) (now - 600000) = Fulfilled n ->
  exists r,
    analyzeTransaction getHours count now t c = Fulfilled r /\
    (0 <= fraudScore r <= 1)%Q /\
    (isSuspicious r = true <-> (1 # 2 <= fraudScore r)%Q) /\
    (severity r = critical <-> (8 # 10 <= fraudScore r)%Q) /\
    (severity r = high <-> (6 # 10 <= fraudScore r /\ fraudScore r < 8 # 10)%Q) /\
    (severity r = medium <-> (4 # 10 <= fraudScore r /\ fraudScore r < 6 # 10)%Q) /\
    (severity r = low <-> (fraudScore r < 4 # 10)%Q) /\
    (forall s, (fraudScore r <= s)%Q ->
       severity_rank (severity r) <= severity_rank (getSeverity s)).
Proof.
  intros Hq. unfold analyzeTransaction.
  rewrite (checkVelocity_fulfilled _ _ _ _ Hq).
  cbn [mbind promise_bind mret promise_ret].
  set (vc := if VELOCITY_MAX_TRANSACTIONS <=? n then _ else _).
  assert (Hvc : 0 <= score vc) by (subst vc; destruct (_ <=? n); simpl; lia).
  eexists. split; [reflexivity |]. cbn [fraudScore isSuspicious severity].
  match goal with |- context [normalize ?p] => set (points := p) end.
  assert (Hp : 0 <= points).
  { subst points.
    repeat apply record_check_points;
      auto using checkAmountAnomaly_score, checkTimePattern_score,
                 checkCustomerRisk_score, checkForBot_score.
    simpl. lia. }
  split; [exact (normalize_range points Hp) |].
  split; [apply Qle_bool_iff |].
  destruct (getSeverity_buckets (normalize points)) as (C & H & M & L).
  repeat (split; [assumption |]).
  intros s. apply getSeverity_monotone.
Qed.

Lemma analyzeTransaction_score_invariant_witness :
  exists r,
    analyzeTransaction getHoursUTC (count_answers 6) 0 tx_15000 None
      = Fulfilled r /\
    (0 <= fraudScore r <= 1)%Q.
Proof.
  destruct (analyzeTransaction_score_invariant getHoursUTC (count_answers 6)
              0 tx_15000 None 6 eq_refl) as (r & Hr & Hrange & _).
  exists r. split; [exact Hr | exact Hrange].
Defined.








(** C3, as the specification states it, fails: with a data store whose
    connection is down the analysis returns no result at all. *)
Lemma velocity_failure_not_tolerated :
  (forall r, analyzeTransaction getHoursUTC count_fails 0 tx_15000 None
             <> Fulfilled r) /\
  ~ velocity_failure_tolerated getHoursUTC count_fails 0 tx_15000 None.
Proof.
  split.
  - intros r Hr. discriminate Hr.
  - intros H. destruct (H _ eq_refl) as (r & Hr & _). discriminate Hr.
Qed.

(** C3, amended.  A failure of the velocity query propagates out of
    [checkVelocity] and out of [analyzeTransaction]: the call is rejected
    with the error of the query and no analysis result is returned. *)
Theorem velocity_failure_propagates
    (getHours : Z -> jsnum) (count : count_query) (now : Z)
    (t : transaction) (c : option customer) (err : string) :
  count (customer_id t) (now - 600000) = Rejected err ->
  checkVelocity count now (customer_id t) = Rejected err /\
  analyzeTransaction getHours count now t c = Rejected err.
Proof.
  intros Hq.
  assert (Hv : checkVelocity count now (customer_id t) = Rejected err).
  { unfold checkVelocity.
    change (now - VELOCITY_WINDOW_MINUTES * 60 * 1000) with (now - 600000).
    now rewrite Hq. }
  split; [exact Hv |]. unfold analyzeTransaction. now rewrite Hv.
Qed.

Lemma velocity_failure_propagates_witness :
  analyzeTransaction getHoursUTC count_fails 0 tx_15000 None
    = Rejected "SequelizeConnectionError".
Proof.
  exact (proj2 (velocity_failure_propagates getHoursUTC count_fails 0
                  tx_15000 None _ eq_refl)).
Defined.

End FraudProps.

(** ** Stock prediction and reorder suggestions *)

Module InventoryProps.
Import JsNum JsNumFacts InventoryManagement.

Local Open Scope Z_scope.


Lemma Qmax0_spec (x : Q) :
  ((0 <= x)%Q /\ Qmax0 x = x) \/ ((x < 0)%Q /\ Qmax0 x = 0%Q).
Proof.
  unfold Qmax0. destruct (Qle_bool 0 x) eqn:E.
  - left. split; [now apply Qle_bool_iff | reflexivity].
  - right. split; [now apply Qle_bool_false | reflexivity].
Qed.

Lemma jmax0_Fin (x : Q) : jmax (Fin 0) (Fin x) = Fin (Qmax0 x).
Proof. unfold jmax, jle, Qmax0. now destruct (Qle_bool 0 x). Qed.

Lemma sales_on_Fin (A T : Q) (d : Z) :
  sales_on (Fin A) (Fin T) d = Fin (clamped_sales A T d).
Proof. unfold sales_on, clamped_sales. simpl. apply jmax0_Fin. Qed.

Lemma risk_of_Fin (c : Q) : risk_of (Fin c) = Qrisk c.
Proof. reflexivity. Qed.






Lemma project_Fin (S0 A T : Q) (n k : nat) :
  project (Fin A) (Fin T) (Fin (clamped_stock S0 A T k)) (Z.of_nat (S k)) n
  = map (entry S0 A T) (seq (S k) n).
Proof.
  revert k. induction n as [| n IH]; intros k; [reflexivity |].
  cbn [project seq map]. rewrite sales_on_Fin.
  cbn [jsub]. rewrite jmax0_Fin.
  change (Qmax0 (clamped_stock S0 A T k - clamped_sales A T (Z.of_nat (S k))))
    with (clamped_stock S0 A T (S k)).
  f_equal. replace (Z.of_nat (S k) + 1) with (Z.of_nat (S (S k))) by lia.
  apply IH.
Qed.













Lemma insert_by_urgency_perm (s : suggestion) (l : list suggestion) :
  insert_by_urgency s l ≡ₚ s :: l.
Proof.
  induction l as [| x l IH]; [reflexivity |].
  cbn [insert_by_urgency]. destruct (_ <? _); [| reflexivity].
  rewrite IH. apply Permutation_swap.
Qed.

Lemma sort_by_urgency_perm (l : list suggestion) : sort_by_urgency l ≡ₚ l.
Proof.
  induction l as [| x l IH]; [reflexivity |].
  cbn [sort_by_urgency foldr]. rewrite insert_by_urgency_perm.
  now apply Permutation_cons.
Qed.

Lemma suggestions_are_suggested (table : list product)
    (salesDataBatch : list (Z * option Z)) (s : suggestion) :
  s ∈ suggestions (generateReorderSuggestions table salesDataBatch) <->
  exists p, p ∈ table /\ stock_quantity p <= 50 /\
            suggest (build_salesMap salesDataBatch) p = Some s.
Proof.
  unfold generateReorderSuggestions.
  set (products := List.filter (fun p => stock_quantity p <=? 50) table).
  assert (Hin : forall p, p ∈ products <-> p ∈ table /\ stock_quantity p <= 50).
  { intros p. subst products. rewrite !list_elem_of_In, filter_In.
    now rewrite Z.leb_le. }
  assert (Hgen : s ∈ sort_by_urgency
                     (omap (suggest (build_salesMap salesDataBatch)) products)
                 <-> exists p, p ∈ table /\ stock_quantity p <= 50 /\
                       suggest (build_salesMap salesDataBatch) p = Some s).
  { rewrite sort_by_urgency_perm, list_elem_of_omap.
    split; intros (p & H1 & H2); exists p.
    - apply Hin in H1 as [? ?]. auto.
    - destruct H2. split; [apply Hin |]; auto. }
  destruct products as [| p0 rest] eqn:E; [| exact Hgen].
  cbn [suggestions]. rewrite <- Hgen. reflexivity.
Qed.



End InventoryProps.

(** ** Cache statistics and rate limiter *)

Module PerformanceProps.
Import JsNum JsNumFacts PerformanceOptimization.

Local Open Scope Z_scope.

Lemma cache_run_counts (events : list cache_event) (st : cache_state) :
  hits (cacheStats (cache_run events st))
    = (hits (cacheStats st) + count_hits (cache_trace events st))%nat /\
  misses (cacheStats (cache_run events st))
    = (misses (cacheStats st) + count_misses (cache_trace events st))%nat.
Proof.
  revert st. induction events as [| ev events IH]; intros st.
  - cbn. split; lia.
  - destruct ev as [keyPrefix req | key]; cbn [cache_run foldl cache_step cache_trace].
    + destruct (IH (cacheMiddleware keyPrefix req st).1) as [Hh Hm].
      unfold cache_run in Hh, Hm. rewrite Hh, Hm. clear Hh Hm IH.
      unfold count_hits, count_misses. cbn [List.filter].
      unfold cacheMiddleware.
      destruct (cache st !! _) as [[| a cached] |]; cbn;
        try (destruct (_ && _); cbn); split; lia.
    + apply (IH (expire key st)).
Qed.

Lemma hitRate_value (stats : cache_stats) :
  ((hits stats + misses stats = 0)%nat -> hitRate stats = Fin 0) /\
  ((hits stats + misses stats <> 0)%nat ->
     exists q : Q,
       hitRate stats = Fin q /\
       (q == inject_Z (Z.of_nat (hits stats))
             / inject_Z (Z.of_nat (hits stats + misses stats)))%Q).
Proof.
  unfold hitRate, of_Z, jdiv. split.
  - intros H. assert (Hh : hits stats = 0%nat) by lia.
    assert (Hm : misses stats = 0%nat) by lia. rewrite Hh, Hm. reflexivity.
  - intros Hne.
    destruct (Qeq_bool (inject_Z (Z.of_nat (hits stats + misses stats))) 0) eqn:E.
    { apply Qeq_bool_iff in E. unfold Qeq in E. cbn in E. lia. }
    unfold jor, truthy.
    destruct (Qeq_bool (inject_Z (Z.of_nat (hits stats)) / _) 0) eqn:E0; cbn.
    + apply Qeq_bool_iff in E0. exists 0%Q. split; [reflexivity |].
      symmetry. exact E0.
    + eexists. split; reflexivity.
Qed.

(** C9.  The reported hit rate is 0 when no get has been recorded
    (hits + misses = 0) and the exact ratio hits / (hits + misses)
    otherwise; after any run of the cache from its initial state in which
    3 requests were hits and 1 was a miss, it is 3/4 = 0.75. *)
Theorem hitRate_exact_ratio :
  (forall stats, (hits stats + misses stats = 0)%nat -> hitRate stats = Fin 0) /\
  (forall stats, (hits stats + misses stats <> 0)%nat ->
     exists q : Q,
       hitRate stats = Fin q /\
       (q == inject_Z (Z.of_nat (hits stats))
             / inject_Z (Z.of_nat (hits stats + misses stats)))%Q) /\
  (forall events,
     count_hits (cache_trace events empty_cache) = 3%nat ->
     count_misses (cache_trace events empty_cache) = 1%nat ->
     exists q : Q,
       hitRate (cacheStats (cache_run events empty_cache)) = Fin q /\
       (q == 75 # 100)%Q).
Proof.
  split; [apply hitRate_value |]. split; [apply hitRate_value |].
  intros events H3 H1.
  destruct (cache_run_counts events empty_cache) as [Hh Hm].
  rewrite H3 in Hh. rewrite H1 in Hm. cbn in Hh, Hm.
  destruct (proj2 (hitRate_value (cacheStats (cache_run events empty_cache))))
    as (q & Hq & Heq).
  { rewrite Hh, Hm. discriminate. }
  exists q. split; [exact Hq |]. rewrite Heq, Hh, Hm. reflexivity.
Qed.

Lemma hitRate_exact_ratio_witness :
  exists q : Q,
    hitRate (cacheStats (cache_run four_requests empty_cache)) = Fin q /\
    (q == 75 # 100)%Q.
Proof.
  destruct hitRate_exact_ratio as (_ & _ & H).
  apply (H four_requests); vm_compute; reflexivity.
Defined.


Lemma rateLimiter_store (W M : Z) (key : string) (now : Z)
    (store : gmap string entry) :
  (rateLimiter W M key now store).1
  = <[key := {| count := count (windowed_entry W key now store) + 1;
                resetTime := resetTime (windowed_entry W key now store) |}]> store.
Proof.
  unfold rateLimiter.
  cbn [count resetTime]. now destruct (_ <? _).
Qed.


Lemma rateLimiter_fresh (W M : Z) (key : string) (now : Z)
    (store : gmap string entry) :
  window_open store key now = false ->
  (rateLimiter W M key now store).1 !! key
    = Some {| count := 1; resetTime := now + W |}.
Proof.
  intros Hw. rewrite rateLimiter_store, lookup_insert_eq.
  unfold window_open in Hw. unfold windowed_entry.
  destruct (store !! key) as [e |]; [| reflexivity].
  apply negb_false_iff in Hw. now rewrite Hw.
Qed.

Lemma rateLimiter_open (W M : Z) (key : string) (now : Z)
    (store : gmap string entry) (e : entry) :
  store !! key = Some e -> now <= resetTime e ->
  (rateLimiter W M key now store).1 !! key
    = Some {| count := count e + 1; resetTime := resetTime e |}.
Proof.
  intros He Hle. rewrite rateLimiter_store, lookup_insert_eq.
  unfold windowed_entry. rewrite He.
  now replace (resetTime e <? now) with false by (symmetry; apply Z.ltb_ge, Hle).
Qed.

Lemma rateLimiter_response (W M : Z) (key : string) (now : Z)
    (store : gmap string entry) (e : entry) :
  (rateLimiter W M key now store).1 !! key = Some e ->
  (rateLimiter W M key now store).2
    = {| limit := M;
         remaining := Z.max 0 (M - count e);
         reset := resetTime e;
         retryAfter := if M <? count e
                       then Some (ceil_seconds (resetTime e - now))
                       else None |}.
Proof.
  rewrite rateLimiter_store, lookup_insert_eq. intros [= <-].
  unfold rateLimiter.
  cbn [count resetTime]. now destruct (_ <? _).
Qed.


(** The periodic sweep is invisible to the callers: an entry that it
    removes is one that the next call would have restarted anyway. *)
Lemma sweep_preserves_response (W M : Z) (key : string) (now swept_at : Z)
    (store : gmap string entry) :
  swept_at <= now ->
  (rateLimiter W M key now (sweep swept_at store)).2
  = (rateLimiter W M key now store).2.
Proof.
  intros Hle.
  assert (Hw : windowed_entry W key now (sweep swept_at store)
               = windowed_entry W key now store).
  { unfold windowed_entry, sweep.
    destruct (store !! key) as [e |] eqn:He.
    - destruct (decide (resetTime e < swept_at)) as [Hold | Hnew].
      + replace (filter _ store !! key) with (@None entry).
        * now replace (resetTime e <? now) with true
            by (symmetry; apply Z.ltb_lt; lia).
        * symmetry. apply map_lookup_filter_None. right.
          intros e' He'. cbn. rewrite He in He'. injection He' as <-. tauto.
      + replace (filter _ store !! key) with (Some e); [reflexivity |].
        symmetry. apply map_lookup_filter_Some. split; [exact He | exact Hnew].
    - replace (filter _ store !! key) with (@None entry); [reflexivity |].
      symmetry. apply map_lookup_filter_None. left. exact He. }
  unfold rateLimiter. rewrite Hw.
  now destruct (_ <? _).
Qed.



End PerformanceProps.

(** ** Customer analytics *)

Module CustomerProps.
Import JsNum JsNumFacts CustomerAnalytics.

Local Open Scope Z_scope.

Lemma foldr_max_acc (a b : Z) (l : list Z) :
  foldr Z.max (Z.max a b) l = Z.max b (foldr Z.max a l).
Proof. induction l as [| x l IH]; cbn; lia. Qed.

Lemma foldr_min_acc (a b : Z) (l : list Z) :
  foldr Z.min (Z.min a b) l = Z.min b (foldr Z.min a l).
Proof. induction l as [| x l IH]; cbn; lia. Qed.

Lemma latest_of_max (t : transaction) (rest : list transaction) :
  timestamp (latest_of t rest) = last_purchase t rest.
Proof.
  unfold latest_of, last_purchase. revert t.
  induction rest as [| x rest IH]; intros t; [reflexivity |].
  cbn [foldl map foldr]. rewrite IH, <- foldr_max_acc.
  destruct (timestamp t <? timestamp x) eqn:E;
    [apply Z.ltb_lt in E | apply Z.ltb_ge in E]; f_equal; lia.
Qed.

Lemma earliest_of_min (t : transaction) (rest : list transaction) :
  timestamp (earliest_of t rest) = first_purchase t rest.
Proof.
  unfold earliest_of, first_purchase. revert t.
  induction rest as [| x rest IH]; intros t; [reflexivity |].
  cbn [foldl map foldr]. rewrite IH, <- foldr_min_acc.
  destruct (timestamp x <? timestamp t) eqn:E;
    [apply Z.ltb_lt in E | apply Z.ltb_ge in E]; f_equal; lia.
Qed.

Lemma purchase_bounds (t : transaction) (rest : list transaction) :
  first_purchase t rest <= timestamp t <= last_purchase t rest.
Proof.
  unfold first_purchase, last_purchase.
  induction rest as [| x rest IH]; cbn; lia.
Qed.

(** C6, as stated, fails.  Two purchases 10.9 days apart give an average
    interval of 10.9 days; 31 days after the second the ratio is about
    2.84, which the stated tiers call high (70%), while the code floors the
    interval to 10 days, finds 31 > 30 and reports critical (90%). *)
Lemma churn_not_as_specified : ~ churn_as_specified regular_now regular.
Proof.
  intros H. specialize (H _ _ eq_refl). cbn [length] in H.
  specialize (H ltac:(lia)). vm_compute in H. discriminate H.
Qed.

(** C6, amended.  For a customer with at least 2 completed transactions,
    let D be the whole days (rounded down) since the last purchase and I
    the average interval in whole days: the span between first and last
    purchase divided by the transaction count minus one, rounded down.  The
    customer is reported critical with 90% when D > 3 I, high with 70% when
    3 I >= D > 2 I, medium with 40% when 2 I >= D > 1.5 I, and is left out
    otherwise.  With I = 10 and D = 35 the customer is critical with 90%. *)
Theorem churn_tiers_on_whole_days (now : Z) (c : customer)
    (t : transaction) (rest : list transaction) :
  Transactions c = t :: rest ->
  (2 <= length (t :: rest))%nat ->
  let D := (now - last_purchase t rest) / MS_PER_DAY in
  let I := (last_purchase t rest - first_purchase t rest)
           / (MS_PER_DAY * (Z.of_nat (length (t :: rest)) - 1)) in
  let outcome :=
    option_map (fun row => (riskLevel row, churnProbability row)) (churn_of now c) in
  (forall row, churn_of now c = Some row ->
     daysSinceLastPurchase row = D /\ avgDaysBetweenPurchases row = I) /\
  (3 * I < D -> outcome = Some (critical, "90%"%string)) /\
  (2 * I < D <= 3 * I -> outcome = Some (high, "70%"%string)) /\
  (3 * I < 2 * D /\ D <= 2 * I -> outcome = Some (medium, "40%"%string)) /\
  (2 * D <= 3 * I -> outcome = None) /\
  (I = 10 -> D = 35 -> outcome = Some (critical, "90%"%string)).
Proof.
  intros Hc Hlen D I outcome.
  assert (Hout : outcome =
            if I * 3 <? D then Some (critical, "90%"%string)
            else if I * 2 <? D then Some (high, "70%"%string)
            else if Qltb (inject_Z I * (15 # 10)) (inject_Z D)
                 then Some (medium, "40%"%string)
                 else None).
  { subst outcome. unfold churn_of. rewrite Hc.
    replace (length (t :: rest) <? 2)%nat with false
      by (symmetry; apply Nat.ltb_ge, Hlen).
    rewrite latest_of_max, earliest_of_min. fold D I.
    destruct (I * 3 <? D); [reflexivity |].
    destruct (I * 2 <? D); [reflexivity |].
    destruct (Qltb _ _); reflexivity. }
  assert (HI : 0 <= I).
  { subst I. pose proof (purchase_bounds t rest). cbn [length] in *.
    apply Z.div_pos; unfold MS_PER_DAY; lia. }
  assert (Hmed : Qltb (inject_Z I * (15 # 10)) (inject_Z D) = true <-> 3 * I < 2 * D).
  { rewrite Qltb_lt. unfold Qlt. cbn. lia. }
  split; [| split; [| split; [| split; [| split]]]].
  - intros row. unfold churn_of. rewrite Hc.
    replace (length (t :: rest) <? 2)%nat with false
      by (symmetry; apply Nat.ltb_ge, Hlen).
    rewrite latest_of_max, earliest_of_min. fold D I.
    destruct (I * 3 <? D); [| destruct (I * 2 <? D); [| destruct (Qltb _ _)]];
      cbn; intros [= <-]; split; reflexivity.
  - intros H. rewrite Hout.
    now ltb_true (I * 3 <? D).
  - intros H. rewrite Hout.
    ltb_false (I * 3 <? D).
    now ltb_true (I * 2 <? D).
  - intros [H1 H2]. rewrite Hout.
    ltb_false (I * 3 <? D).
    ltb_false (I * 2 <? D).
    apply Hmed in H1. now rewrite H1.
  - intros H. rewrite Hout.
    ltb_false (I * 3 <? D).
    ltb_false (I * 2 <? D).
    destruct (Qltb _ _); [| reflexivity].
    destruct Hmed as [Hm _]. specialize (Hm eq_refl). lia.
  - intros HI10 HD35. rewrite Hout.
    now ltb_true (I * 3 <? D).
Qed.

Lemma churn_tiers_on_whole_days_witness :
  option_map (fun row => (riskLevel row, churnProbability row))
             (churn_of lapsed_now lapsed)
  = Some (critical, "90%"%string).
Proof.
  refine (proj1 (proj2 (churn_tiers_on_whole_days lapsed_now lapsed _ _
                          eq_refl _)) _).
  - cbn. lia.
  - vm_compute. reflexivity.
Defined.

Lemma insert_number_length (x : Q) (l : list Q) :
  length (insert_number x l) = S (length l).
Proof.
  induction l as [| y l IH]; [reflexivity |].
  cbn [insert_number]. destruct (Qle_bool x y); cbn; [reflexivity | now rewrite IH].
Qed.

Lemma sort_numbers_length (l : list Q) : length (sort_numbers l) = length l.
Proof.
  induction l as [| x l IH]; [reflexivity |].
  cbn [sort_numbers foldr]. rewrite insert_number_length.
  cbn [length]. f_equal. exact IH.
Qed.

Lemma insert_number_Forall (P : Q -> Prop) (x : Q) (l : list Q) :
  P x -> Forall P l -> Forall P (insert_number x l).
Proof.
  intros Hx Hl. induction Hl as [| y l Hy Hl IH]; cbn [insert_number].
  - repeat constructor. exact Hx.
  - destruct (Qle_bool x y); repeat constructor; assumption.
Qed.

Lemma sort_numbers_Forall (P : Q -> Prop) (l : list Q) :
  Forall P l -> Forall P (sort_numbers l).
Proof.
  intros Hl. induction Hl as [| x l Hx Hl IH]; [constructor |].
  cbn [sort_numbers foldr]. now apply insert_number_Forall.
Qed.

Lemma sorted_array_length (arr : list (option Q)) :
  length (sorted_array arr) = length arr.
Proof.
  unfold sorted_array.
  rewrite length_app, length_map, sort_numbers_length.
  induction arr as [| [x |] arr IH]; cbn in *; lia.
Qed.

Lemma findIndex_ge_undefined (sorted : list (option Q)) (i : Z) :
  findIndex_ge None sorted i = -1.
Proof.
  revert i. induction sorted as [| v sorted IH]; intros i; [reflexivity |].
  cbn [findIndex_ge]. destruct v; apply IH.
Qed.

Lemma inject_Z_nonzero (n : nat) :
  n <> 0%nat -> Qeq_bool (inject_Z (Z.of_nat n)) 0 = false.
Proof.
  intros Hn. destruct (Qeq_bool _ 0) eqn:E; [| reflexivity].
  apply Qeq_bool_iff in E. unfold Qeq in E. cbn in E. lia.
Qed.

Lemma getScore_top (p : Q) : (80 <= p)%Q -> getScore (Fin p) = 5.
Proof.
  intros H. unfold getScore, jge, jle.
  now replace (Qle_bool 80 p) with true by (symmetry; apply Qle_bool_iff, H).
Qed.

Lemma getScore_bottom (p : Q) : (p < 20)%Q -> getScore (Fin p) = 1.
Proof.
  intros H. unfold getScore, jge, jle.
  replace (Qle_bool 80 p) with false by (symmetry; apply Qle_bool_false; lra).
  replace (Qle_bool 60 p) with false by (symmetry; apply Qle_bool_false; lra).
  replace (Qle_bool 40 p) with false by (symmetry; apply Qle_bool_false; lra).
  now replace (Qle_bool 20 p) with false by (symmetry; apply Qle_bool_false; lra).
Qed.

Lemma getScore_range (p : jsnum) : 1 <= getScore p <= 5.
Proof.
  unfold getScore.
  case_ifs; lia.
Qed.

(** An undefined value is ranked below every element: its inverse
    percentile exceeds 100 and its score is 5. *)
Lemma score_of_undefined (arr : list (option Q)) :
  arr <> [] -> getScore (getPercentile arr None true) = 5.
Proof.
  intros Hne. unfold getPercentile.
  rewrite findIndex_ge_undefined, sorted_array_length.
  assert (Hlen : length arr <> 0%nat) by (destruct arr; [congruence | discriminate]).
  unfold of_Z, jdiv. rewrite (inject_Z_nonzero _ Hlen). cbn [jmul jsub].
  apply getScore_top.
  assert (Hx : (inject_Z (-1) / inject_Z (Z.of_nat (length arr)) <= 0)%Q).
  { apply Qle_shift_div_r.
    - change 0%Q with (inject_Z 0). rewrite <- Zlt_Qlt. lia.
    - rewrite Qmult_0_l. discriminate. }
  lra.
Qed.

(** A value that no element of a non-empty array of numbers is below has
    percentile 0 and score 1. *)
Lemma score_of_minimum (nums : list Q) (v : Q) :
  nums <> [] -> Forall (fun x => (v <= x)%Q) nums ->
  getScore (getPercentile (map Some nums) (Some v) false) = 1.
Proof.
  intros Hne Hall. unfold getPercentile.
  rewrite sorted_array_length, length_map.
  assert (Hlen : length nums <> 0%nat) by (destruct nums; [congruence | discriminate]).
  assert (Hidx : findIndex_ge (Some v) (sorted_array (map Some nums)) 0 = 0).
  { unfold sorted_array.
    replace (omap (fun v => v) (map Some nums)) with nums
      by (clear; induction nums as [| x l IH]; cbn; [| rewrite <- IH]; reflexivity).
    pose proof (sort_numbers_Forall _ nums Hall) as Hs.
    pose proof (sort_numbers_length nums) as Hl.
    destruct (sort_numbers nums) as [| y ys]; [cbn in Hl; lia |].
    inversion Hs as [| ? ? Hy _]; subst. cbn [map app findIndex_ge].
    now replace (Qle_bool v y) with true by (symmetry; apply Qle_bool_iff, Hy). }
  rewrite Hidx. unfold of_Z, jdiv. rewrite (inject_Z_nonzero _ Hlen).
  cbn [jmul]. apply getScore_bottom.
  assert (Hx : (inject_Z 0 / inject_Z (Z.of_nat (length nums)) == 0)%Q).
  { unfold Qdiv. apply Qmult_0_l. }
  rewrite Hx. reflexivity.
Qed.

Lemma initial_row_frequency (now : Z) (c : customer) :
  0 <= frequency (initial_row now c).
Proof. unfold initial_row. destruct (Transactions c); cbn; lia. Qed.

Lemma recencyValues_nonempty (rows : list rfm_row) (i : nat) (row : rfm_row) :
  rows !! i = Some row -> recencyDays row = Absent ->
  recencyValues_of rows <> [].
Proof.
  revert i. induction rows as [| r rows IH]; intros i Hi Hr; [discriminate |].
  unfold recencyValues_of. cbn [flat_map]. destruct i as [| i]; cbn in Hi.
  - injection Hi as ->. rewrite Hr. discriminate.
  - specialize (IH i Hi Hr). unfold recencyValues_of in IH.
    destruct (recencyDays r); cbn; try discriminate. exact IH.
Qed.

(** C7 is not what the code does.  The row of a customer without
    transactions carries [recency: null] but no [recencyDays], so neither
    the filter on [recencyDays !== null] nor the guard of the scoring loop
    recognises it: it is scored, with R = 5 (undefined is ranked below
    every recency) and F = 1, its code becomes 51m for some monetary score
    m, and its segment becomes New Customers, in every population. *)
Theorem zero_transactions_become_new_customers
    (now : Z) (customers : list customer) (i : nat) (c : customer) :
  customers !! i = Some c ->
  Transactions c = [] ->
  exists (row : rfm_row) (m : Z),
    rfmData (performRFMAnalysis now customers) !! i = Some row /\
    customerId row = id c /\
    1 <= m <= 5 /\
    rfmScore row = Value ("51" ++ digit m)%string /\
    segment row = Value "New Customers"%string /\
    ~ zero_transactions_are_lost now customers.
Proof.
  intros Hi Hc.
  set (rows := map (initial_row now) customers).
  assert (Hrow : rows !! i = Some (initial_row now c)).
  { subst rows. change (map (initial_row now) customers)
      with (initial_row now <$> customers).
    now rewrite list_lookup_fmap, Hi. }
  assert (Hzero : recencyDays (initial_row now c) = Absent
                  /\ frequency (initial_row now c) = 0
                  /\ customerId (initial_row now c) = id c).
  { unfold initial_row. rewrite Hc. repeat split. }
  destruct Hzero as (Hdays & Hfreq & Hid).
  assert (Hr : getScore (getPercentile (recencyValues_of rows) None true) = 5).
  { apply score_of_undefined. eapply recencyValues_nonempty; eassumption. }
  assert (Hf : getScore (getPercentile (frequencyValues_of rows)
                           (Some (inject_Z 0)) false) = 1).
  { unfold frequencyValues_of.
    replace (map (fun r => Some (inject_Z (frequency r))) rows)
      with (map Some (map (fun r => inject_Z (frequency r)) rows))
      by (now rewrite map_map).
    apply score_of_minimum.
    - destruct rows; [discriminate | discriminate].
    - subst rows. rewrite map_map. apply Forall_map, Forall_forall.
      intros x _. cbn. rewrite <- Zle_Qle. apply initial_row_frequency. }
  set (final := score_row (recencyValues_of rows) (frequencyValues_of rows)
                  (monetaryValues_of rows) (initial_row now c)).
  assert (Hfinal : rfmData (performRFMAnalysis now customers) !! i = Some final).
  { unfold performRFMAnalysis. cbn [rfmData]. fold rows.
    change (map ?f rows) with (f <$> rows).
    now rewrite list_lookup_fmap, Hrow. }
  set (m := getScore (getPercentile (monetaryValues_of rows)
                        (Some (monetary (initial_row now c))) false)).
  assert (Hscore : rfmScore final = Value ("51" ++ digit m)%string
                   /\ segment final = Value "New Customers"%string
                   /\ customerId final = id c).
  { subst final. unfold score_row. rewrite Hdays, Hfreq, Hr, Hf. fold m.
    cbn [rfmScore segment customerId]. repeat split; assumption. }
  destruct Hscore as (Hcode & Hseg & Hcid).
  exists final, m. repeat split; try assumption; try apply getScore_range.
  intros Hlost. destruct (Hlost i c Hi Hc) as (row & Hrow' & _ & Hl & _).
  rewrite Hfinal in Hrow'. injection Hrow' as <-. rewrite Hseg in Hl.
  discriminate Hl.
Qed.

Lemma zero_transactions_become_new_customers_witness :
  exists row : rfm_row,
    rfmData (performRFMAnalysis 0 [newcomer]) !! 0%nat = Some row /\
    rfmScore row = Value "511"%string /\
    segment row = Value "New Customers"%string.
Proof.
  destruct (zero_transactions_become_new_customers 0 [newcomer] 0 newcomer
              eq_refl eq_refl) as (row & m & Hrow & _ & _ & _ & Hseg & _).
  exists row. split; [exact Hrow |].
  vm_compute in Hrow. injection Hrow as <-. split; reflexivity.
Defined.

End CustomerProps.

(** ** More on the cache and the rate limiter *)

Module PerformanceMoreProps.
Import JsNum JsNumFacts PerformanceOptimization PerformanceProps PerformanceMore.

Local Open Scope Z_scope.

Lemma calls_in_open_window (W M : Z) (key : string) (times : list Z) :
  forall (store : gmap string entry) (e : entry) (i : nat) (r : response),
    store !! key = Some e ->
    Forall (fun t => t <= resetTime e) times ->
    (calls W M key times store).2 !! i = Some r ->
    (rejected r = true <-> M < count e + Z.of_nat i + 1) /\
    remaining r = Z.max 0 (M - (count e + Z.of_nat i + 1)) /\
    reset r = resetTime e.
Proof.
  induction times as [| t rest IH]; intros store e i r He Hall Hr;
    [discriminate |].
  inversion Hall as [| ? ? Ht Hrest]; subst.
  pose proof (rateLimiter_open W M key t store e He Ht) as Hnext.
  cbn [calls snd] in Hr. destruct i as [| j]; cbn in Hr.
  - injection Hr as <-.
    rewrite (rateLimiter_response W M key t store _ Hnext).
    unfold rejected. cbn [retryAfter remaining reset count resetTime].
    replace (count e + Z.of_nat 0 + 1) with (count e + 1) by lia.
    repeat split; try reflexivity.
    + destruct (M <? count e + 1) eqn:E; [intros _ | discriminate].
      now apply Z.ltb_lt.
    + intros Hlt. now ltb_true (M <? count e + 1).
  - destruct (IH _ _ j r Hnext Hrest Hr) as (Hrej & Hrem & Hreset).
    cbn [count resetTime] in Hrej, Hrem, Hreset.
    replace (count e + Z.of_nat (S j) + 1) with (count e + 1 + Z.of_nat j + 1)
      by lia.
    repeat split; tauto.
Qed.

(** X1.  After a call that opens a window, the i-th call of the identity
    inside that window (counting from 1, the opening call included) is
    rejected exactly when i exceeds maxRequests; its X-RateLimit-Remaining
    is max(0, maxRequests - i) and its X-RateLimit-Reset is the end of the
    window. *)
Theorem rateLimiter_admits_first_max (W M : Z) (key : string) (t1 : Z)
    (rest : list Z) (store : gmap string entry) :
  window_open store key t1 = false ->
  Forall (fun t => t <= t1 + W) rest ->
  forall (i : nat) (r : response),
    (calls W M key (t1 :: rest) store).2 !! i = Some r ->
    (rejected r = true <-> M < Z.of_nat i + 1) /\
    remaining r = Z.max 0 (M - (Z.of_nat i + 1)) /\
    reset r = t1 + W.
Proof.
  intros Hfresh Hrest i r Hr.
  pose proof (rateLimiter_fresh W M key t1 store Hfresh) as Hfirst.
  cbn [calls snd] in Hr. destruct i as [| j]; cbn in Hr.
  - injection Hr as <-.
    rewrite (rateLimiter_response W M key t1 store _ Hfirst).
    unfold rejected. cbn [retryAfter remaining reset count resetTime].
    repeat split; try reflexivity.
    + destruct (M <? 1) eqn:E; [intros _ | discriminate].
      apply Z.ltb_lt in E. lia.
    + intros Hlt. now ltb_true (M <? 1).
  - destruct (calls_in_open_window W M key rest _ _ j r Hfirst Hrest Hr)
      as (Hrej & Hrem & Hreset).
    cbn [count resetTime] in Hrej, Hrem, Hreset.
    replace (Z.of_nat (S j) + 1) with (1 + Z.of_nat j + 1) by lia.
    repeat split; tauto.
Qed.

Lemma rateLimiter_admits_first_max_witness :
  exists r,
    (calls 60000 2 "10.0.0.1" [1000; 1500; 2000] ∅).2 !! 2%nat = Some r /\
    rejected r = true.
Proof.
  destruct ((calls 60000 2 "10.0.0.1" [1000; 1500; 2000] ∅).2 !! 2%nat)
    as [r |] eqn:Hr; [| vm_compute in Hr; discriminate Hr].
  exists r. split; [reflexivity |].
  assert (Hfresh : window_open (∅ : gmap string entry) "10.0.0.1" 1000 = false)
    by reflexivity.
  assert (Hrest : Forall (fun t => t <= 1000 + 60000) [1500; 2000])
    by (repeat constructor; lia).
  apply (rateLimiter_admits_first_max 60000 2 "10.0.0.1" 1000 [1500; 2000] ∅
           Hfresh Hrest 2%nat r Hr).
  lia.
Defined.

(** X2.  The periodic sweep keeps exactly the entries whose reset time has
    not passed, and no later call can tell that it ran: the answer to a
    call is the same with and without the sweep. *)
Theorem sweep_drops_only_expired (now : Z) (store : gmap string entry) :
  (forall k e, sweep now store !! k = Some e <->
               store !! k = Some e /\ now <= resetTime e) /\
  (forall W M key later,
     now <= later ->
     (rateLimiter W M key later (sweep now store)).2
     = (rateLimiter W M key later store).2).
Proof.
  split.
  - intros k e. unfold sweep. rewrite map_lookup_filter_Some. cbn. intuition lia.
  - intros W M key later Hle. now apply sweep_preserves_response.
Qed.

(** X3.  A request that misses the cache and is answered with a 2xx status
    and a non-empty body is stored: the same request is then a HIT that
    returns that body and leaves the cache as it is.  A miss answered with
    another status stores nothing, and no request touches the entries of
    other keys. *)
Theorem cacheMiddleware_round_trip (keyPrefix : string) (req : request)
    (st : cache_state) :
  let key := (keyPrefix ++ ":" ++ originalUrl req)%string in
  let first := cacheMiddleware keyPrefix req st in
  (first.2.1 = MISS -> 200 <= statusCode req < 300 -> data req <> ""%string ->
     (cacheMiddleware keyPrefix req first.1).2 = (HIT, data req) /\
     cache (cacheMiddleware keyPrefix req first.1).1 = cache first.1) /\
  (first.2.1 = MISS -> ~ (200 <= statusCode req < 300) ->
     cache first.1 = cache st /\
     (cacheMiddleware keyPrefix req first.1).2.1 = MISS) /\
  (forall k, k <> key -> cache first.1 !! k = cache st !! k).
Proof.
  intros key first. subst first. unfold cacheMiddleware. fold key.
  destruct (cache st !! key) as [[| a body] |] eqn:Hk; cbn [fst snd].
  - (* a stored empty body counts as a miss *)
    destruct ((200 <=? statusCode req) && (statusCode req <? 300)) eqn:Hs;
      cbn [fst snd cache].
    + split; [| split].
      * intros _ _ Hd. rewrite lookup_insert_eq.
        destruct (data req) as [| b d]; [contradiction |]. now cbn.
      * intros _ Hn. exfalso. apply Hn.
        apply andb_true_iff in Hs as [H1 H2].
        apply Z.leb_le in H1. apply Z.ltb_lt in H2. lia.
      * intros k Hne. now rewrite lookup_insert_ne.
    + split; [| split].
      * intros _ Hr. exfalso.
        apply andb_false_iff in Hs as [H | H];
          [apply Z.leb_gt in H | apply Z.ltb_ge in H]; lia.
      * intros _ _. rewrite Hk. cbn [fst snd]. try rewrite Hs. now cbn.
      * reflexivity.
  - split; [| split]; try discriminate. reflexivity.
  - destruct ((200 <=? statusCode req) && (statusCode req <? 300)) eqn:Hs;
      cbn [fst snd cache].
    + split; [| split].
      * intros _ _ Hd. rewrite lookup_insert_eq.
        destruct (data req) as [| b d]; [contradiction |]. now cbn.
      * intros _ Hn. exfalso. apply Hn.
        apply andb_true_iff in Hs as [H1 H2].
        apply Z.leb_le in H1. apply Z.ltb_lt in H2. lia.
      * intros k Hne. now rewrite lookup_insert_ne.
    + split; [| split].
      * intros _ Hr. exfalso.
        apply andb_false_iff in Hs as [H | H];
          [apply Z.leb_gt in H | apply Z.ltb_ge in H]; lia.
      * intros _ _. rewrite Hk. cbn [fst snd]. try rewrite Hs. now cbn.
      * reflexivity.
Qed.

Lemma cacheMiddleware_round_trip_witness :
  (cacheMiddleware "analytics" dashboard
     (cacheMiddleware "analytics" dashboard empty_cache).1).2
  = (HIT, "{}"%string).
Proof.
  refine (proj1 (proj1 (cacheMiddleware_round_trip "analytics" dashboard
                          empty_cache) _ _ _)).
  - reflexivity.
  - cbn. lia.
  - discriminate.
Defined.

Lemma sweep_drops_only_expired_witness :
  sweep 70000 busy_store !! "10.0.0.2"%string = None.
Proof.
  destruct (sweep 70000 busy_store !! "10.0.0.2"%string) as [e |] eqn:E;
    [| reflexivity].
  apply (proj1 (sweep_drops_only_expired 70000 busy_store)) in E as [E1 E2].
  vm_compute in E1. injection E1 as <-. cbn in E2. lia.
Defined.



Lemma invalidate_keys (test : string -> bool) (keys : list string) :
  forall (m : gmap string string) (n : nat),
    NoDup keys ->
    (forall k, k ∈ keys -> is_Some (m !! k)) ->
    let swept := foldl (invalidate_key test) (m, n) keys in
    (forall k, swept.1 !! k
               = if decide (k ∈ keys /\ test k = true) then None else m !! k) /\
    (swept.2 + size swept.1 = n + size m)%nat.
Proof.
  induction keys as [| a keys IH]; intros m n Hnd Hin; cbn [foldl].
  - split; [| reflexivity]. intros k. destruct (decide _) as [[H _] |]; [| reflexivity].
    now apply elem_of_nil in H.
  - apply NoDup_cons in Hnd as [Ha Hnd].
    assert (Hstep : invalidate_key test (m, n) a
                    = if test a then (delete a m, S n) else (m, n)) by reflexivity.
    rewrite Hstep. clear Hstep.
    destruct (test a) eqn:Ta.
    + destruct (IH (delete a m) (S n) Hnd) as [Hl Hs].
      { intros k Hk. rewrite lookup_delete_ne by (intros ->; contradiction).
        apply Hin. now right. }
      cbn zeta in Hl, Hs. split.
      * intros k. rewrite Hl.
        destruct (decide (k ∈ keys /\ test k = true)) as [[Hk Tk] | Hn].
        -- rewrite decide_True; [reflexivity | split; [now right | exact Tk]].
        -- destruct (decide (k = a)) as [-> | Hka].
           ++ rewrite lookup_delete_eq. rewrite decide_True; [reflexivity |].
              split; [now left | exact Ta].
           ++ rewrite lookup_delete_ne by congruence.
              destruct (decide (k ∈ a :: keys /\ test k = true)) as [[Hk Tk] |];
                [| reflexivity].
              apply elem_of_cons in Hk as [-> | Hk]; [contradiction |].
              exfalso. apply Hn. now split.
      * rewrite Hs. destruct (Hin a) as [v Hv]; [now left |].
        pose proof (map_size_delete a m) as Hd. rewrite Hv in Hd. cbn in Hd.
        pose proof (map_size_ne_0_lookup_2 m a (ex_intro _ v Hv)). lia.
    + destruct (IH m n Hnd) as [Hl Hs].
      { intros k Hk. apply Hin. now right. }
      cbn zeta in Hl, Hs. split; [| exact Hs].
      intros k. rewrite Hl.
      destruct (decide (k ∈ keys /\ test k = true)) as [[Hk Tk] | Hn].
      * rewrite decide_True; [reflexivity | split; [now right | exact Tk]].
      * destruct (decide (k ∈ a :: keys /\ test k = true)) as [[Hk Tk] |];
          [| reflexivity].
        apply elem_of_cons in Hk as [-> | Hk]; [congruence |].
        exfalso. apply Hn. now split.
Qed.

(** X5.  Pattern invalidation removes all and only the keys that the
    pattern matches, returns the number of entries it removed, and leaves
    the statistics alone. *)
Theorem invalidatePattern_removes_matches (test : string -> bool)
    (st : cache_state) :
  let result := invalidatePattern test st in
  (forall k, cache result.1 !! k = if test k then None else cache st !! k) /\
  (result.2 + size (cache result.1) = size (cache st))%nat /\
  cacheStats result.1 = cacheStats st.
Proof.
  unfold invalidatePattern. cbn [fst snd cache cacheStats].
  destruct (invalidate_keys test (map_to_list (cache st)).*1 (cache st) 0)
    as [Hl Hs].
  - apply NoDup_fst_map_to_list.
  - intros k Hk. apply list_elem_of_fmap in Hk as ([k' v] & -> & Hkv).
    apply elem_of_map_to_list in Hkv. eauto.
  - cbn zeta in Hl, Hs. split; [| split; [exact Hs | reflexivity]].
    intros k. rewrite Hl. destruct (test k) eqn:Tk.
    + destruct (decide _) as [| Hn]; [reflexivity |].
      destruct (cache st !! k) as [v |] eqn:Hv; [| reflexivity].
      exfalso. apply Hn. split; [| reflexivity].
      apply list_elem_of_fmap. exists (k, v). split; [reflexivity |].
      now apply elem_of_map_to_list.
    + destruct (decide _) as [[_ H] |]; [discriminate | reflexivity].
Qed.

Lemma invalidatePattern_removes_matches_witness :
  cache (invalidatePattern is_analytics three_keys).1 !! "analytics:/a"%string
  = None.
Proof.
  exact (proj1 (invalidatePattern_removes_matches is_analytics three_keys)
           "analytics:/a"%string).
Defined.









End PerformanceMoreProps.

(** ** More on fraud scoring *)

Module FraudMoreProps.
Import JsNum JsNumFacts FraudDetection FraudProps FraudMore.

Local Open Scope Z_scope.

(** The shape of a returned analysis: the five checks recorded in their
    order, the velocity check having answered. *)
Lemma analyzeTransaction_shape getHours count now t c r :
  analyzeTransaction getHours count now t c = Fulfilled r ->
  exists vc,
    (vc = NotSuspicious \/ vc = Flag velocity_exceeded 30) /\
    let acc :=
      record_check (checkForBot (user_agent t))
        (record_check (checkCustomerRisk c)
          (record_check (checkTimePattern getHours (timestamp t))
            (record_check vc
              (record_check (checkAmountAnomaly t c) ([], 0))))) in
    r = {| fraudScore := normalize acc.2;
           flags := acc.1;
           isSuspicious := Qle_bool (1 # 2) (normalize acc.2);
           severity := getSeverity (normalize acc.2) |}.
Proof.
  unfold analyzeTransaction, checkVelocity. intros Hr.
  destruct (count _ _) as [n | e]; cbn [mbind promise_bind] in Hr;
    [| discriminate].
  destruct (VELOCITY_MAX_TRANSACTIONS <=? n);
    cbn [mbind promise_bind mret promise_ret] in Hr; injection Hr as <-;
    eexists; (split; [| reflexivity]); auto.
Qed.

Lemma record_check_effect (c : check) (acc : list check * Z) :
  (record_check c acc).1 = acc.1 ++ (if suspicious c then [c] else []) /\
  (record_check c acc).2 = acc.2 + (if suspicious c then score c else 0).
Proof.
  unfold record_check. destruct (suspicious c); cbn [fst snd].
  - split; reflexivity.
  - rewrite app_nil_r. split; [reflexivity | lia].
Qed.

Lemma points_app (l1 l2 : list check) : points (l1 ++ l2) = points l1 + points l2.
Proof. unfold points. induction l1 as [| c l1 IH]; cbn; lia. Qed.

Lemma amount_values t c :
  In (checkAmountAnomaly t c)
     [NotSuspicious; Flag amount_exceeds_limit 40; Flag amount_too_low 20;
      Flag amount_deviation 25; Flag high_value 15].
Proof. unfold checkAmountAnomaly. case_ifs; cbn; tauto. Qed.

Lemma time_values getHours ts :
  In (checkTimePattern getHours ts) [NotSuspicious; Flag unusual_time 15].
Proof. unfold checkTimePattern. case_ifs; cbn; tauto. Qed.

Lemma risk_values c :
  In (checkCustomerRisk c)
     [NotSuspicious; Flag unknown_customer 20; Flag high_risk_customer 25].
Proof. unfold checkCustomerRisk. destruct c; case_ifs; cbn; tauto. Qed.

Lemma bot_values ua :
  In (checkForBot ua)
     [NotSuspicious; Flag missing_user_agent 15; Flag bot_detected 20].
Proof.
  unfold checkForBot. destruct ua as [[| a s] |]; case_ifs; cbn; tauto.
Qed.

(** Case analysis on what the five checks of an analysis returned. *)
Ltac five_checks Hr :=
  let vc := fresh "vc" in
  let Hvc := fresh "Hvc" in
  apply analyzeTransaction_shape in Hr as (vc & Hvc & ->);
  match goal with
  | |- context [record_check (checkForBot ?ua)
                  (record_check (checkCustomerRisk ?c)
                     (record_check (checkTimePattern ?g ?ts)
                        (record_check _ (record_check (checkAmountAnomaly ?t ?c) _))))] =>
      pose proof (amount_values t c) as Ha;
      pose proof (time_values g ts) as Ht;
      pose proof (risk_values c) as Hk;
      pose proof (bot_values ua) as Hb;
      cbn [In] in Ha, Ht, Hk, Hb;
      repeat match goal with H : _ \/ _ |- _ => destruct H as [H | H] end;
      try contradiction;
      subst vc;
      repeat match goal with H : _ = checkAmountAnomaly _ _ |- _ => rewrite <- H end;
      repeat match goal with H : _ = checkTimePattern _ _ |- _ => rewrite <- H end;
      repeat match goal with H : _ = checkCustomerRisk _ |- _ => rewrite <- H end;
      repeat match goal with H : _ = checkForBot _ |- _ => rewrite <- H end
  end.

(** X7.  The score of a returned analysis is explained by its flags: it is
    the sum of their scores over 100, capped at 1.  There are at most five
    flags, each raised by a different check, and they are listed in the
    order of the checks: amount, velocity, time, customer risk, bot. *)
Theorem analysis_score_matches_flags getHours count now t c r :
  analyzeTransaction getHours count now t c = Fulfilled r ->
  fraudScore r = normalize (points (flags r)) /\
  (length (flags r) <= 5)%nat /\
  Forall (fun f => suspicious f = true) (flags r) /\
  StronglySorted Z.lt (map check_rank (flags r)).
Proof.
  intros Hr. five_checks Hr; cbn [fraudScore flags];
    (split; [reflexivity |]); (split; [cbn; lia |]);
    split; cbn; repeat constructor.
Qed.

Lemma analysis_score_matches_flags_witness :
  exists r,
    analyzeTransaction getHoursUTC (count_answers 6) 0 tx_15000 None = Fulfilled r /\
    fraudScore r = normalize (points (flags r)).
Proof.
  destruct (analyzeTransaction getHoursUTC (count_answers 6) 0 tx_15000 None)
    as [r | err] eqn:Hr; [| vm_compute in Hr; discriminate Hr].
  exists r. split; [reflexivity |].
  exact (proj1 (analysis_score_matches_flags getHoursUTC (count_answers 6) 0
                  tx_15000 None r Hr)).
Defined.

(** X8.  A transaction is suspicious exactly when its flags add up to at
    least 50 points, and critical exactly when they add up to at least 80.
    No single flag reaches that: a suspicious analysis carries at least two
    flags and a critical one at least three. *)
Theorem suspicion_needs_several_flags getHours count now t c r :
  analyzeTransaction getHours count now t c = Fulfilled r ->
  (isSuspicious r = true <-> 50 <= points (flags r)) /\
  (severity r = critical <-> 80 <= points (flags r)) /\
  (isSuspicious r = true -> (2 <= length (flags r))%nat) /\
  (severity r = critical -> (3 <= length (flags r))%nat).
Proof.
  intros Hr. five_checks Hr; cbn [isSuspicious severity flags];
    repeat split; intros H; vm_compute in H; try discriminate H;
    try (exfalso; apply H; reflexivity);
    vm_compute; try reflexivity; try discriminate; lia.
Qed.

Lemma suspicion_needs_several_flags_witness :
  exists r,
    analyzeTransaction getHoursUTC (count_answers 6) 0 tx_15000 None = Fulfilled r /\
    (isSuspicious r = true <-> 50 <= points (flags r)).
Proof.
  destruct (analyzeTransaction getHoursUTC (count_answers 6) 0 tx_15000 None)
    as [r | err] eqn:Hr; [| vm_compute in Hr; discriminate Hr].
  exists r. split; [reflexivity |].
  exact (proj1 (suspicion_needs_several_flags getHoursUTC (count_answers 6) 0
                  tx_15000 None r Hr)).
Defined.

Lemma starts_with_spec (p : string) :
  forall s,
    starts_with p s = true <->
    exists mid post, s = (mid ++ post)%string /\ lowercase mid = p.
Proof.
  induction p as [| a p IH]; intros s.
  - split; [intros _ | destruct s; reflexivity].
    exists ""%string, s. split; reflexivity.
  - destruct s as [| b s]; cbn [starts_with].
    + split; [discriminate |]. intros (mid & post & Hs & Hm).
      destruct mid; discriminate.
    + rewrite andb_true_iff, Ascii.eqb_eq, IH. split.
      * intros (-> & mid & post & -> & <-).
        exists (String b mid), post. split; reflexivity.
      * intros (mid & post & Hs & Hm). destruct mid as [| m mid]; [discriminate |].
        cbn in Hs, Hm. injection Hs as -> ->. injection Hm as <- <-.
        split; [reflexivity |]. exists mid, post. split; reflexivity.
Qed.

Lemma matches_spec (p : string) :
  forall s,
    matches p s = true <->
    exists pre mid post, s = (pre ++ mid ++ post)%string /\ lowercase mid = p.
Proof.
  induction s as [| b s IH]; cbn [matches]; rewrite orb_true_iff, starts_with_spec.
  - split.
    + intros [(mid & post & Hs & Hm) | H]; [| discriminate].
      exists ""%string, mid, post. split; assumption.
    + intros (pre & mid & post & Hs & Hm). left.
      destruct pre; [| discriminate]. exists mid, post. split; assumption.
  - rewrite IH. split.
    + intros [(mid & post & Hs & Hm) | (pre & mid & post & Hs & Hm)].
      * exists ""%string, mid, post. split; assumption.
      * exists (String b pre), mid, post. split; [now rewrite Hs | assumption].
    + intros (pre & mid & post & Hs & Hm). destruct pre as [| x pre].
      * left. exists mid, post. split; assumption.
      * right. cbn in Hs. injection Hs as -> ->.
        exists pre, mid, post. split; [reflexivity | assumption].
Qed.

(** X9.  Bot detection is a case-insensitive substring search: a user
    agent is flagged bot_detected (20 points) exactly when it is not empty
    and contains, in any mix of upper and lower case, one of bot, crawler,
    spider, curl, wget, python, java/ or php.  A missing or empty user
    agent is flagged missing_user_agent (15 points) instead. *)
Theorem checkForBot_substring (userAgent : option string) :
  (checkForBot userAgent = Flag bot_detected 20 <->
     exists ua, userAgent = Some ua /\ ua <> ""%string /\
       exists pattern pre mid post,
         In pattern botPatterns /\
         ua = (pre ++ mid ++ post)%string /\ lowercase mid = pattern) /\
  (checkForBot userAgent = Flag missing_user_agent 15 <->
     userAgent = None \/ userAgent = Some ""%string).
Proof.
  assert (Hex : forall ua,
            existsb (fun pattern => matches pattern ua) botPatterns = true <->
            exists pattern pre mid post,
              In pattern botPatterns /\
              ua = (pre ++ mid ++ post)%string /\ lowercase mid = pattern).
  { intros ua. rewrite existsb_exists. split.
    - intros (p & Hin & Hm). apply matches_spec in Hm as (pre & mid & post & Hs & Hl).
      exists p, pre, mid, post. auto.
    - intros (p & pre & mid & post & Hin & Hs & Hl). exists p. split; [exact Hin |].
      apply matches_spec. exists pre, mid, post. auto. }
  unfold checkForBot. destruct userAgent as [[| a s] |].
  - split; split; try discriminate; auto.
    intros (ua & [= <-] & Hne & _). contradiction.
  - specialize (Hex (String a s)).
    destruct (existsb _ _); split; split; try discriminate.
    + intros _. exists (String a s). repeat split; [discriminate |].
      now apply Hex.
    + reflexivity.
    + intros [H | H]; discriminate.
    + intros (ua & [= <-] & _ & H). apply Hex in H. discriminate.
    + intros [H | H]; discriminate.
  - split; split; try discriminate; auto.
    intros (ua & H & _). discriminate.
Qed.

Lemma checkForBot_substring_witness :
  checkForBot (Some "Mozilla/5.0 (compatible; GoogleBot/2.1)"%string)
  = Flag bot_detected 20.
Proof.
  apply (proj1 (checkForBot_substring _)).
  eexists. split; [reflexivity |]. split; [discriminate |].
  exists "bot"%string, "Mozilla/5.0 (compatible; Google"%string,
         "Bot"%string, "/2.1)"%string.
  split; [cbn; tauto | split; reflexivity].
Defined.

Lemma analysis_score_range getHours count now t c r :
  analyzeTransaction getHours count now t c = Fulfilled r ->
  (0 <= fraudScore r <= 1)%Q.
Proof.
  intros Hr. apply analyzeTransaction_shape in Hr as (vc & Hvc & ->).
  cbn [fraudScore]. apply normalize_range.
  assert (Hv : 0 <= score vc) by (destruct Hvc as [-> | ->]; cbn; lia).
  repeat apply record_check_points;
    auto using checkAmountAnomaly_score, checkTimePattern_score,
               checkCustomerRisk_score, checkForBot_score.
  cbn. lia.
Qed.

Lemma answers_fulfilled getHours count row :
  answers count row ->
  exists a, analyzeTransaction getHours count (row_now row)
              (row_transaction row) (row_customer row) = Fulfilled a.
Proof.
  intros [n Hn]. unfold analyzeTransaction.
  rewrite (checkVelocity_fulfilled _ _ _ _ Hn).
  cbn [mbind promise_bind mret promise_ret]. eauto.
Qed.

Lemma batch_all_answer getHours count (rows : list batch_row) :
  forall db,
    Forall (answers count) rows ->
    let result := analyzeExistingTransactions getHours count rows db in
    result.2 = Fulfilled (omap (suspicious_entry getHours count) rows) /\
    (forall k, k ∈ map row_id rows ->
       exists cols, result.1 !! k = Some cols /\ (0 <= fraud_score cols <= 1)%Q) /\
    (forall k, k ∉ map row_id rows -> result.1 !! k = db !! k).
Proof.
  induction rows as [| row rest IH]; intros db Hall.
  - cbn. split; [reflexivity |]. split; [| reflexivity].
    intros k Hk. now apply elem_of_nil in Hk.
  - inversion Hall as [| ? ? Hrow Hrest]; subst.
    destruct (answers_fulfilled getHours count row Hrow) as [a Ha].
    cbn [analyzeExistingTransactions omap list_omap]. unfold suspicious_entry at 1.
    rewrite Ha.
    set (db1 := <[row_id row := {| fraud_score := fraudScore a;
                                   fraud_flags := flags a |}]> db).
    destruct (IH db1 Hrest) as (Hres & Hin & Hout). cbn zeta in Hres, Hin, Hout.
    cbn [fst snd]. rewrite Hres. cbn [mbind promise_bind mret promise_ret].
    split; [now destruct (isSuspicious a) |]. split.
    + intros k Hk. cbn [map] in Hk.
      destruct (decide (k ∈ map row_id rest)) as [Hr | Hr]; [now apply Hin |].
      apply elem_of_cons in Hk as [-> | Hk]; [| contradiction].
      rewrite (Hout _ Hr). subst db1. rewrite lookup_insert_eq.
      eexists. split; [reflexivity |]. cbn [fraud_score].
      eapply analysis_score_range, Ha.
    + intros k Hk. cbn [map] in Hk. apply not_elem_of_cons in Hk as [Hne Hk].
      rewrite (Hout _ Hk). subst db1. now rewrite lookup_insert_ne.
Qed.

Lemma batch_interrupted getHours count (pre : list batch_row) :
  forall db row post err,
    Forall (answers count) pre ->
    count (customer_id (row_transaction row)) (row_now row - 600000)
      = Rejected err ->
    let result :=
      analyzeExistingTransactions getHours count (pre ++ row :: post) db in
    result.2 = Rejected err /\
    result.1 = (analyzeExistingTransactions getHours count pre db).1.
Proof.
  induction pre as [| r pre IH]; intros db row post err Hall Hfail.
  - cbn [app analyzeExistingTransactions].
    unfold analyzeTransaction, checkVelocity.
    change (row_now row - VELOCITY_WINDOW_MINUTES * 60 * 1000)
      with (row_now row - 600000).
    rewrite Hfail. cbn. split; reflexivity.
  - inversion Hall as [| ? ? Hr Hpre]; subst.
    destruct (answers_fulfilled getHours count r Hr) as [a Ha].
    cbn [app analyzeExistingTransactions]. rewrite Ha.
    destruct (IH (<[row_id r := {| fraud_score := fraudScore a;
                                   fraud_flags := flags a |}]> db)
                 row post err Hpre Hfail) as [H2 H1].
    cbn zeta in H1, H2. cbn [fst snd]. rewrite H2, H1. split; reflexivity.
Qed.

(** X10.  When the velocity query answers for every row, the batch
    analysis returns exactly the suspicious rows with their analyses, in
    the order of the rows; it leaves a fraud_score between 0 and 1 on every
    analysed transaction and does not touch the others.  When the query
    fails for a row, the batch is rejected with that error, and the
    transactions before that row stay updated: nothing is rolled back. *)
Theorem analyzeExistingTransactions_batch getHours count
    (rows : list batch_row) (db : gmap Z fraud_columns) :
  (Forall (answers count) rows ->
   let result := analyzeExistingTransactions getHours count rows db in
   result.2 = Fulfilled (omap (suspicious_entry getHours count) rows) /\
   (forall k, k ∈ map row_id rows ->
      exists cols, result.1 !! k = Some cols /\ (0 <= fraud_score cols <= 1)%Q) /\
   (forall k, k ∉ map row_id rows -> result.1 !! k = db !! k)) /\
  (forall pre row post err,
     rows = pre ++ row :: post ->
     Forall (answers count) pre ->
     count (customer_id (row_transaction row)) (row_now row - 600000)
       = Rejected err ->
     let result := analyzeExistingTransactions getHours count rows db in
     result.2 = Rejected err /\
     result.1 = (analyzeExistingTransactions getHours count pre db).1).
Proof.
  split.
  - apply batch_all_answer.
  - intros pre row post err ->. apply batch_interrupted.
Qed.

Lemma analyzeExistingTransactions_batch_witness :
  (analyzeExistingTransactions getHoursUTC count_fails [sample_row] ∅).2
  = Rejected "SequelizeConnectionError".
Proof.
  exact (proj1 (proj2 (analyzeExistingTransactions_batch getHoursUTC count_fails
                         [sample_row] ∅) [] sample_row [] _ eq_refl
                  (List.Forall_nil _) eq_refl)).
Defined.

End FraudMoreProps.

(** ** More on inventory *)

Module InventoryMoreProps.
Import JsNum JsNumFacts InventoryManagement InventoryProps InventoryMore.

Local Open Scope Z_scope.

Lemma insert_by_total_perm (x : supplier_score) (l : list supplier_score) :
  insert_by_total x l ≡ₚ x :: l.
Proof.
  induction l as [| y l IH]; [reflexivity |].
  cbn [insert_by_total]. destruct (Qltb _ _); [| reflexivity].
  rewrite IH. apply Permutation_swap.
Qed.

Lemma rank_suppliers_perm (l : list supplier_score) : rank_suppliers l ≡ₚ l.
Proof.
  induction l as [| x l IH]; [reflexivity |].
  cbn [rank_suppliers foldr]. rewrite insert_by_total_perm.
  now apply Permutation_cons.
Qed.

Lemma insert_by_total_sorted (x : supplier_score) (l : list supplier_score) :
  StronglySorted outranks l -> StronglySorted outranks (insert_by_total x l).
Proof.
  induction 1 as [| y l Hl IH Hy]; cbn [insert_by_total].
  - repeat constructor.
  - rewrite Forall_forall in Hy. unfold outranks in Hy.
    destruct (Qltb (score_total x) (score_total y)) eqn:E.
    + apply Qltb_lt in E. constructor; [exact IH |].
      rewrite Forall_forall. intros z Hz. unfold outranks.
      rewrite insert_by_total_perm in Hz. apply elem_of_cons in Hz as [-> | Hz].
      * lra.
      * now apply Hy.
    + apply Qltb_ge in E. constructor; [now constructor; [| rewrite Forall_forall] |].
      constructor; [exact E |].
      rewrite Forall_forall. intros z Hz. specialize (Hy z Hz).
      unfold outranks. lra.
Qed.

Lemma rank_suppliers_sorted (l : list supplier_score) :
  StronglySorted outranks (rank_suppliers l).
Proof.
  induction l as [| x l IH]; [constructor |].
  cbn [rank_suppliers foldr]. now apply insert_by_total_sorted.
Qed.

(** X11.  Supplier optimisation returns nothing when the product is not
    found.  Otherwise its ranking is a rearrangement of the scored
    suppliers in descending order of total score; the recommendations are
    the first five of the ranking (all of it when there are fewer), and
    the best supplier is the first: no supplier has a higher total, and
    there is none exactly when no supplier qualifies. *)
Theorem optimizeSupplier_ranking (suppliers : list supplier_row) :
  optimizeSupplier false suppliers = None /\
  exists report,
    optimizeSupplier true suppliers = Some report /\
    let ranking := rank_suppliers (map score_supplier suppliers) in
    ranking ≡ₚ map score_supplier suppliers /\
    StronglySorted outranks ranking /\
    recommendations report = firstn 5 ranking /\
    length (recommendations report) = Nat.min 5 (length suppliers) /\
    (bestSupplier report = None <-> suppliers = []) /\
    (forall best, bestSupplier report = Some best ->
       In best (recommendations report) /\
       forall s, In s suppliers ->
         (score_total (score_supplier s) <= score_total best)%Q).
Proof.
  split; [reflexivity |]. eexists. split; [reflexivity |].
  cbn [recommendations bestSupplier].
  set (ranking := rank_suppliers (map score_supplier suppliers)).
  pose proof (rank_suppliers_perm (map score_supplier suppliers)) as Hperm.
  pose proof (rank_suppliers_sorted (map score_supplier suppliers)) as Hsort.
  fold ranking in Hperm, Hsort.
  assert (Hlen : length ranking = length suppliers).
  { rewrite Hperm. apply length_map. }
  split; [exact Hperm |]. split; [exact Hsort |]. split; [reflexivity |].
  split; [rewrite length_firstn, Hlen; reflexivity |]. split.
  - destruct ranking as [| b rest], suppliers as [| s ss]; cbn in Hlen |- *;
      try discriminate; split; congruence.
  - intros best Hbest. destruct ranking as [| b rest]; [discriminate |].
    cbn in Hbest. injection Hbest as ->. split; [now left |].
    intros s Hs.
    assert (Hin : score_supplier s ∈ best :: rest).
    { rewrite Hperm. apply list_elem_of_In, in_map, Hs. }
    apply elem_of_cons in Hin as [-> | Hin]; [lra |].
    inversion Hsort as [| ? ? _ Hall]; subst.
    rewrite Forall_forall in Hall. now apply Hall.
Qed.

Lemma optimizeSupplier_ranking_witness :
  exists best,
    option_map bestSupplier (optimizeSupplier true two_suppliers) = Some (Some best)
    /\ sup_id (scored best) = 2.
Proof.
  destruct (optimizeSupplier_ranking two_suppliers) as (_ & report & Hr & _).
  rewrite Hr. vm_compute in Hr. injection Hr as <-.
  eexists. split; reflexivity.
Defined.

Lemma deliveryScore_value (s : supplier_row) (days : Z) :
  days = match delivery_days s with Some d => d | None => 0 end ->
  (deliveryScore s == 30 - inject_Z (Z.min days 14) * (15 # 7))%Q.
Proof.
  intros ->. unfold deliveryScore.
  set (x := inject_Z _). unfold Qdiv. change (/ 14)%Q with (1 # 14). ring.
Qed.

Lemma costScore_range (s : supplier_row) : (10 <= costScore s <= 30)%Q.
Proof. unfold costScore. case_ifs; split; discriminate. Qed.

(** X12.  A supplier whose delivery time is unknown gets the full 30
    delivery points, one that needs 14 days or more gets none, and any
    non-negative delivery time gives between 0 and 30.  The cost score is
    between 10 and 30, so a supplier with reliability between 0 and 1 and
    no negative delivery time totals between 10 and 100 points. *)
Theorem supplier_score_bounds (s : supplier_row) :
  (delivery_days s = None -> (deliveryScore s == 30)%Q) /\
  (forall d, delivery_days s = Some d -> 14 <= d -> (deliveryScore s == 0)%Q) /\
  (forall d, delivery_days s = Some d -> 0 <= d ->
     (0 <= deliveryScore s <= 30)%Q) /\
  (10 <= costScore s <= 30)%Q /\
  ((0 <= reliability_score s <= 1)%Q ->
   (forall d, delivery_days s = Some d -> 0 <= d) ->
   (10 <= totalScore s <= 100)%Q).
Proof.
  pose proof (costScore_range s) as Hcost.
  assert (Hnone : delivery_days s = None -> (deliveryScore s == 30)%Q).
  { intros H. rewrite (deliveryScore_value s 0) by now rewrite H.
    reflexivity. }
  assert (Hsome : forall d, delivery_days s = Some d -> 0 <= d ->
                    (0 <= deliveryScore s <= 30)%Q).
  { intros d H Hd. rewrite (deliveryScore_value s d) by now rewrite H.
    assert (H0 : (inject_Z 0 <= inject_Z (Z.min d 14))%Q)
      by (rewrite <- Zle_Qle; lia).
    assert (H14 : (inject_Z (Z.min d 14) <= inject_Z 14)%Q)
      by (rewrite <- Zle_Qle; lia).
    change (inject_Z 0) with 0%Q in H0. change (inject_Z 14) with 14%Q in H14.
    split; lra. }
  split; [exact Hnone |]. split; [| split; [exact Hsome | split; [exact Hcost |]]].
  - intros d H Hd. rewrite (deliveryScore_value s d) by now rewrite H.
    replace (Z.min d 14) with 14 by lia. reflexivity.
  - intros Hrel Hdays. unfold totalScore, reliabilityScore.
    assert (Hdel : (0 <= deliveryScore s <= 30)%Q).
    { destruct (delivery_days s) as [d |] eqn:E.
      - apply (Hsome d eq_refl), (Hdays d eq_refl).
      - rewrite (Hnone eq_refl). split; discriminate. }
    split; lra.
Qed.

Lemma supplier_score_bounds_witness : (deliveryScore unknown_delivery == 30)%Q.
Proof.
  exact (proj1 (supplier_score_bounds unknown_delivery) eq_refl).
Defined.

Lemma peak_from_spec (l : list season_entry) :
  forall acc,
    let p := peak_from acc l in
    totalQuantity acc <= totalQuantity p /\
    (forall e, e ∈ l -> totalQuantity e <= totalQuantity p) /\
    (p = acc \/
     exists i, l !! i = Some p /\ totalQuantity acc < totalQuantity p /\
       forall j e, (j < i)%nat -> l !! j = Some e ->
                   totalQuantity e < totalQuantity p).
Proof.
  induction l as [| d rest IH]; intros acc; cbn zeta.
  - cbn. split; [lia |]. split; [| now left].
    intros e He. now apply elem_of_nil in He.
  - unfold peak_from. cbn [foldl].
    set (acc' := if totalQuantity acc <? totalQuantity d then d else acc).
    fold (peak_from acc' rest).
    destruct (IH acc') as (Hacc & Hall & Hpos). cbn zeta in Hacc, Hall, Hpos.
    assert (Ha : totalQuantity acc <= totalQuantity acc'
                 /\ totalQuantity d <= totalQuantity acc').
    { subst acc'. destruct (_ <? _) eqn:E;
        [apply Z.ltb_lt in E | apply Z.ltb_ge in E]; lia. }
    split; [lia |]. split.
    + intros e He. apply elem_of_cons in He as [-> | He]; [lia | now apply Hall].
    + destruct Hpos as [Hp | (i & Hi & Hlt & Hbefore)].
      * rewrite Hp. subst acc'. destruct (_ <? _) eqn:E; [| now left].
        apply Z.ltb_lt in E. right. exists 0%nat. split; [reflexivity |].
        split; [exact E |]. intros j e Hj. lia.
      * right. exists (S i). split; [exact Hi |]. split; [lia |].
        intros j e Hj Hje. destruct j as [| j]; cbn in Hje.
        -- injection Hje as <-. lia.
        -- apply (Hbefore j e); [lia | exact Hje].
Qed.

Lemma peak_spec (pattern : list season_entry) (p : season_entry) :
  peak pattern = Some p ->
  exists i,
    pattern !! i = Some p /\
    (forall e, e ∈ pattern -> totalQuantity e <= totalQuantity p) /\
    (forall j e, (j < i)%nat -> pattern !! j = Some e ->
                 totalQuantity e < totalQuantity p).
Proof.
  destruct pattern as [| first rest]; [discriminate |].
  cbn [peak]. intros Hsome.
  assert (Hp0 : peak_from first (first :: rest) = p) by congruence.
  pose proof (peak_from_spec (first :: rest) first) as Hspec.
  cbn zeta in Hspec. rewrite Hp0 in Hspec.
  destruct Hspec as (_ & Hall & [Hp | (i & Hi & _ & Hbefore)]).
  - exists 0%nat. rewrite Hp. split; [reflexivity |]. split.
    + intros e He. rewrite <- Hp. now apply Hall.
    + intros j e Hj. lia.
  - exists i. auto.
Qed.

(** X13.  For a product that exists, the seasonal analysis always reports
    7 days, Sunday first, and 24 hours, 00:00 first; a day or hour has the
    totals of its first row and zeros when it has none.  The peak day
    (hour) is one whose quantity no other reaches, and the earliest such
    one: with no sales at all it is Sunday at 00:00.  A product that does
    not exist gives no report. *)
Theorem seasonal_pattern_shape (salesByDayOfWeek salesByHour : list season_row) :
  analyzeSeasonalPatterns false salesByDayOfWeek salesByHour = None /\
  exists report,
    analyzeSeasonalPatterns true salesByDayOfWeek salesByHour = Some report /\
    length (weekly report) = 7%nat /\
    length (hourly report) = 24%nat /\
    (forall i name, dayNames !! i = Some name ->
       weekly report !! i
       = Some (season_entry_of salesByDayOfWeek (Z.of_nat i) name)) /\
    (forall h, (h < 24)%nat ->
       hourly report !! h
       = Some (season_entry_of salesByHour (Z.of_nat h) (hour_label (Z.of_nat h)))) /\
    (forall rows i name,
       (forall d, In d rows -> season_key d <> i) ->
       totalQuantity (season_entry_of rows i name) = 0) /\
    (exists i p,
       weekly report !! i = Some p /\ peakDay report = label p /\
       (forall e, e ∈ weekly report -> totalQuantity e <= totalQuantity p) /\
       (forall j e, (j < i)%nat -> weekly report !! j = Some e ->
                    totalQuantity e < totalQuantity p)) /\
    (exists h p,
       hourly report !! h = Some p /\ peakHour report = label p /\
       (forall e, e ∈ hourly report -> totalQuantity e <= totalQuantity p) /\
       (forall j e, (j < h)%nat -> hourly report !! j = Some e ->
                    totalQuantity e < totalQuantity p)) /\
    (salesByDayOfWeek = [] -> peakDay report = "Sunday"%string) /\
    (salesByHour = [] -> peakHour report = "00:00"%string).
Proof.
  split; [reflexivity |]. unfold analyzeSeasonalPatterns.
  destruct (peak (weeklyPattern salesByDayOfWeek)) as [pd |] eqn:Ed;
    [| discriminate Ed].
  destruct (peak (hourlyPattern salesByHour)) as [ph |] eqn:Eh;
    [| discriminate Eh].
  eexists. split; [reflexivity |].
  cbn [weekly hourly peakDay peakHour].
  split; [reflexivity |]. split; [reflexivity |]. split.
  { intros i name Hi. do 7 (destruct i as [| i]; [injection Hi as <-; reflexivity |]).
    discriminate Hi. }
  split.
  { intros h Hh. unfold hourlyPattern.
    change (map ?f (seq 0 24)) with (f <$> seq 0 24).
    rewrite list_lookup_fmap, lookup_seq_lt by exact Hh. reflexivity. }
  split.
  { intros rows i name Hno. unfold season_entry_of.
    destruct (List.find _ rows) as [d |] eqn:E; [| reflexivity].
    apply find_some in E as [Hd Hk]. apply Z.eqb_eq in Hk.
    exfalso. exact (Hno d Hd Hk). }
  split.
  { apply peak_spec in Ed as (i & Hi & Hall & Hbefore). exists i, pd. auto. }
  split.
  { apply peak_spec in Eh as (h & Hh & Hall & Hbefore). exists h, ph. auto. }
  split.
  - intros ->. vm_compute in Ed. injection Ed as <-. reflexivity.
  - intros ->. vm_compute in Eh. injection Eh as <-. reflexivity.
Qed.

Lemma seasonal_pattern_shape_witness :
  option_map peakHour (analyzeSeasonalPatterns true [] []) = Some "00:00"%string.
Proof.
  destruct (seasonal_pattern_shape [] []) as (_ & report & Hr & H).
  rewrite Hr. cbn [option_map]. f_equal.
  apply H. reflexivity.
Defined.

Lemma project_length avg trend (n : nat) :
  forall cs d, length (project avg trend cs d n) = n.
Proof. induction n as [| n IH]; intros cs d; cbn; [| rewrite IH]; reflexivity. Qed.

Lemma project_day avg trend (n : nat) :
  forall cs d i e,
    project avg trend cs d n !! i = Some e -> day e = d + Z.of_nat i.
Proof.
  induction n as [| n IH]; intros cs d i e He; [discriminate |].
  cbn [project] in He. destruct i as [| i]; cbn in He.
  - injection He as <-. cbn. lia.
  - apply IH in He. lia.
Qed.

Lemma project_consistent avg trend (n : nat) :
  forall cs d i e,
    project avg trend cs d n !! i = Some e ->
    exists cs', predictedStock e = jround cs' /\ stockoutRisk e = risk_of cs'.
Proof.
  induction n as [| n IH]; intros cs d i e He; [discriminate |].
  cbn [project] in He. destruct i as [| i]; cbn in He.
  - injection He as <-. eexists. split; reflexivity.
  - eapply IH, He.
Qed.

Lemma critical_is_reported (cs : jsnum) :
  risk_of cs = critical -> jle (jround cs) (Fin 0) = true.
Proof.
  unfold risk_of. destruct (jle cs (Fin 0)) eqn:E; [intros _ | case_ifs; discriminate].
  destruct cs as [| | q |]; try discriminate; [reflexivity |].
  cbn in E. apply Qle_bool_iff in E.
  assert (Hr : (Qround q <= Qfloor (1 # 2))%Z).
  { unfold Qround. apply Qfloor_resp_le. lra. }
  change (Qfloor (1 # 2)) with 0 in Hr.
  change (Qle_bool (inject_Z (Qround q)) 0 = true).
  apply Qle_bool_iff. change 0%Q with (inject_Z 0). rewrite <- Zle_Qle. exact Hr.
Qed.

Lemma find_before {A : Type} (f : A -> bool) (l : list A) :
  forall i e,
    l !! i = Some e -> f e = true ->
    exists j e', (j <= i)%nat /\ List.find f l = Some e' /\ l !! j = Some e'.
Proof.
  induction l as [| x l IH]; intros i e Hi He; [discriminate |].
  cbn [List.find]. destruct (f x) eqn:Ex.
  - exists 0%nat, x. split; [lia | split; reflexivity].
  - destruct i as [| i]; cbn in Hi; [congruence |].
    destruct (IH i e Hi He) as (j & e' & Hj & Hf & Hl).
    exists (S j), e'. split; [lia | split; assumption].
Qed.

(** X14.  Whatever the sales data, the prediction for a product that
    exists holds exactly daysAhead entries, numbered 1, 2, ... in order
    (none when daysAhead is zero or negative, and then no stockout day);
    a reported stockout day is a day of the horizon.  A product that does
    not exist gives null. *)
Theorem prediction_horizon (p : product) (salesData : list (option Z))
    (daysAhead : Z) :
  predictStockLevels None salesData daysAhead = None /\
  exists r,
    predictStockLevels (Some p) salesData daysAhead = Some r /\
    currentStock r = stock_quantity p /\
    length (predictions r) = Z.to_nat daysAhead /\
    (forall i e, predictions r !! i = Some e -> day e = Z.of_nat i + 1) /\
    (daysAhead <= 0 -> predictions r = [] /\ daysUntilStockout r = None) /\
    (forall d, daysUntilStockout r = Some d -> 1 <= d <= daysAhead).
Proof.
  split; [reflexivity |]. eexists. split; [reflexivity |].
  cbn [currentStock predictions daysUntilStockout].
  set (preds := project _ _ _ 1 (Z.to_nat daysAhead)).
  assert (Hlen : length preds = Z.to_nat daysAhead) by apply project_length.
  assert (Hday : forall i e, preds !! i = Some e -> day e = Z.of_nat i + 1).
  { intros i e He. apply project_day in He. lia. }
  split; [reflexivity |]. split; [exact Hlen |]. split; [exact Hday |]. split.
  - intros Hle. assert (Hnil : preds = []).
    { destruct preds; [reflexivity |]. cbn in Hlen. lia. }
    rewrite Hnil. split; reflexivity.
  - intros d Hd. destruct (List.find _ preds) as [e |] eqn:E; [| discriminate].
    cbn in Hd. injection Hd as <-. apply find_some in E as [Hin _].
    apply list_elem_of_In, list_elem_of_lookup in Hin as [i Hi].
    rewrite (Hday i e Hi). apply lookup_lt_Some in Hi. lia.
Qed.

Lemma prediction_horizon_witness :
  exists r,
    predictStockLevels (Some bulk_product) halving_sales (-3) = Some r /\
    predictions r = [].
Proof.
  destruct (prediction_horizon bulk_product halving_sales (-3))
    as (_ & r & Hr & _ & _ & _ & Hempty & _).
  exists r. split; [exact Hr |]. apply Hempty. lia.
Defined.

(** X15.  The risk class and the stockout day agree in one direction: when
    a day of the prediction is classified critical, a stockout day is
    reported and it is not later than that day. *)
Theorem critical_day_has_stockout (p : product) (salesData : list (option Z))
    (daysAhead : Z) (r : stock_report) (i : nat) (e : prediction) :
  predictStockLevels (Some p) salesData daysAhead = Some r ->
  predictions r !! i = Some e ->
  stockoutRisk e = critical ->
  exists d, daysUntilStockout r = Some d /\ d <= day e.
Proof.
  unfold predictStockLevels. intros [= <-]. cbn [predictions daysUntilStockout].
  set (preds := project _ _ _ 1 (Z.to_nat daysAhead)). intros Hi Hcrit.
  destruct (project_consistent _ _ _ _ _ _ _ Hi) as (cs & Hstock & Hrisk).
  rewrite Hrisk in Hcrit. apply critical_is_reported in Hcrit.
  rewrite <- Hstock in Hcrit.
  destruct (find_before (fun q => jle (predictedStock q) (Fin 0)) preds i e Hi Hcrit)
    as (j & e' & Hj & Hfind & Hj').
  rewrite Hfind. exists (day e'). split; [reflexivity |].
  apply project_day in Hi. apply project_day in Hj'. lia.
Qed.

Lemma critical_day_has_stockout_witness :
  exists d,
    option_map daysUntilStockout (predictStockLevels (Some empty_shelf) [] 3)
    = Some (Some d) /\ d <= 1.
Proof.
  destruct (predictStockLevels (Some empty_shelf) [] 3) as [r |] eqn:Hr;
    [| discriminate Hr].
  destruct (critical_day_has_stockout empty_shelf [] 3 r 0
              {| day := 1; predictedStock := Fin (inject_Z 0);
                 predictedSales := Fin (inject_Z 0); stockoutRisk := critical |}
              Hr) as (d & Hd & Hle).
  - vm_compute in Hr. injection Hr as <-. reflexivity.
  - reflexivity.
  - exists d. cbn [option_map]. rewrite Hd. split; [reflexivity | exact Hle].
Defined.

Lemma Qround_inject_Z (z : Z) : Qround (inject_Z z) = z.
Proof.
  unfold Qround.
  assert (Hlo : (z <= Qfloor (inject_Z z + (1 # 2)))%Z).
  { rewrite <- (Qfloor_Z z) at 1. apply Qfloor_resp_le. lra. }
  assert (Hhi : (Qfloor (inject_Z z + (1 # 2)) < z + 1)%Z).
  { pose proof (Qfloor_le (inject_Z z + (1 # 2))) as Hf.
    rewrite Zlt_Qlt, inject_Z_plus. change (inject_Z 1) with 1%Q. lra. }
  lia.
Qed.

Lemma Qround_comp (x y : Q) : (x == y)%Q -> Qround x = Qround y.
Proof. intros H. unfold Qround. now rewrite H. Qed.

Lemma flat_sales (a T : Q) (d : Z) : (a == 0)%Q -> (clamped_sales a T d == 0)%Q.
Proof.
  intros Ha. unfold clamped_sales.
  destruct (Qmax0_spec (a * (1 + T * (inject_Z d / 30)))) as [[_ ->] | [_ ->]];
    [rewrite Ha; ring | reflexivity].
Qed.

Lemma flat_stock (S0 a T : Q) (d : nat) :
  (a == 0)%Q -> (0 <= S0)%Q -> (clamped_stock S0 a T d == S0)%Q.
Proof.
  intros Ha HS. induction d as [| d IH]; [reflexivity |].
  cbn [clamped_stock]. pose proof (flat_sales a T (Z.of_nat (S d)) Ha) as Hs.
  destruct (Qmax0_spec (clamped_stock S0 a T d - clamped_sales a T (Z.of_nat (S d))))
    as [[_ ->] | [Hneg _]]; lra.
Qed.

Lemma Qrisk_inject_Z (x : Q) (z : Z) :
  (x == inject_Z z)%Q ->
  Qrisk x = if z <=? 0 then critical else if z <=? 10 then high else low.
Proof.
  intros Hx. unfold Qrisk.
  assert (Hle : forall k : Z, Qle_bool x (inject_Z k) = (z <=? k)).
  { intros k. destruct (z <=? k) eqn:E.
    - apply Z.leb_le in E. apply Qle_bool_iff. rewrite Hx. now rewrite <- Zle_Qle.
    - apply Z.leb_gt in E. destruct (Qle_bool x (inject_Z k)) eqn:F; [| reflexivity].
      apply Qle_bool_iff in F. rewrite Hx in F. rewrite <- Zle_Qle in F. lia. }
  change 0%Q with (inject_Z 0). change 10%Q with (inject_Z 10).
  now rewrite !Hle.
Qed.

Lemma find_none_all {A : Type} (f : A -> bool) (l : list A) :
  (forall e, e ∈ l -> f e = false) -> List.find f l = None.
Proof.
  induction l as [| x l IH]; intros H; [reflexivity |].
  cbn. rewrite (H x) by constructor. apply IH. intros e He. apply H. now constructor.
Qed.

Lemma average_small (ds : list Z) :
  sum ds = 0 -> exists a, average ds = Fin a /\ (a == 0)%Q.
Proof.
  intros Hsum. unfold average. destruct (0 <? length ds)%nat eqn:E.
  - apply Nat.ltb_lt in E. rewrite Hsum. unfold of_Z, jdiv.
    rewrite (CustomerProps.inject_Z_nonzero (length ds)) by lia.
    eexists. split; [reflexivity |]. unfold Qdiv. change (inject_Z 0) with 0%Q. ring.
  - exists 0%Q. split; reflexivity.
Qed.

(** X16.  A product with fewer than seven days of sales rows whose
    quantities add up to nothing (in particular a product with no sales
    rows at all) and a non-negative stock gets a flat projection: the trend
    is 0 and stable, every day predicts no sales and the present stock,
    with the risk class of that stock; no stockout day is reported when
    the stock is positive, and day 1 when it is 0. *)
Theorem no_sales_flat_projection (p : product) (salesData : list (option Z))
    (daysAhead : Z) :
  (length salesData < 7)%nat ->
  sum (dailySales_of salesData) = 0 ->
  0 <= stock_quantity p ->
  exists r,
    predictStockLevels (Some p) salesData daysAhead = Some r /\
    salesTrend r = Fin 0 /\
    trendDirection r = stable /\
    (forall e, e ∈ predictions r ->
       predictedStock e = of_Z (stock_quantity p) /\
       predictedSales e = of_Z 0 /\
       stockoutRisk e =
         if stock_quantity p =? 0 then critical
         else if stock_quantity p <=? 10 then high else low) /\
    (0 < stock_quantity p -> daysUntilStockout r = None) /\
    (stock_quantity p = 0 -> 1 <= daysAhead -> daysUntilStockout r = Some 1).
Proof.
  intros Hlen Hsum Hstock.
  eexists. split; [reflexivity |].
  cbn [salesTrend trendDirection predictions daysUntilStockout].
  assert (Htrend : trend_of (dailySales_of salesData) = Fin 0).
  { unfold trend_of, dailySales_of. rewrite length_map.
    destruct (7 <=? length salesData)%nat eqn:E; [| reflexivity].
    apply Nat.leb_le in E. lia. }
  rewrite Htrend.
  destruct (average_small _ Hsum) as (a & -> & Ha).
  pose proof (project_Fin (inject_Z (stock_quantity p)) a 0 (Z.to_nat daysAhead) 0)
    as Hproj.
  change (clamped_stock (inject_Z (stock_quantity p)) a 0 0)
    with (inject_Z (stock_quantity p)) in Hproj.
  change (Z.of_nat 1) with 1 in Hproj.
  change (of_Z (stock_quantity p)) with (Fin (inject_Z (stock_quantity p))).
  rewrite Hproj.
  set (S0 := inject_Z (stock_quantity p)).
  assert (HS0 : (0 <= S0)%Q).
  { subst S0. change 0%Q with (inject_Z 0). now rewrite <- Zle_Qle. }
  assert (Hentry : forall d,
    predictedStock (entry S0 a 0 d) = of_Z (stock_quantity p) /\
    predictedSales (entry S0 a 0 d) = of_Z 0 /\
    stockoutRisk (entry S0 a 0 d) =
      if stock_quantity p =? 0 then critical
      else if stock_quantity p <=? 10 then high else low).
  { intros d. unfold entry. cbn [predictedStock predictedSales stockoutRisk].
    pose proof (flat_stock S0 a 0 d Ha HS0) as Hflat.
    split; [| split].
    - unfold of_Z. rewrite (Qround_comp _ _ Hflat). subst S0.
      now rewrite Qround_inject_Z.
    - unfold of_Z. rewrite (Qround_comp _ _ (flat_sales a 0 (Z.of_nat d) Ha)).
      reflexivity.
    - rewrite (Qrisk_inject_Z _ (stock_quantity p) Hflat).
      destruct (stock_quantity p =? 0) eqn:E0.
      + apply Z.eqb_eq in E0. now rewrite E0.
      + apply Z.eqb_neq in E0.
        destruct (stock_quantity p <=? 0) eqn:E1; [apply Z.leb_le in E1; lia |].
        reflexivity. }
  split; [reflexivity |]. split; [reflexivity |]. split; [| split].
  - intros e He. apply list_elem_of_fmap in He as (d & -> & _). apply Hentry.
  - intros Hpos. rewrite find_none_all; [reflexivity |].
    intros e He. apply list_elem_of_fmap in He as (d & -> & _).
    destruct (Hentry d) as (-> & _). unfold of_Z. cbn [jle].
    destruct (Qle_bool (inject_Z (stock_quantity p)) 0) eqn:F; [| reflexivity].
    apply Qle_bool_iff in F. change 0%Q with (inject_Z 0) in F.
    rewrite <- Zle_Qle in F. lia.
  - intros Hzero Hdays.
    destruct (Z.to_nat daysAhead) as [| n] eqn:En; [lia |].
    cbn [seq map List.find].
    destruct (Hentry 1%nat) as (-> & _). rewrite Hzero. reflexivity.
Qed.

Lemma no_sales_flat_projection_witness :
  exists r,
    predictStockLevels (Some shelf_product) [] 14 = Some r /\
    daysUntilStockout r = None /\
    (forall e, e ∈ predictions r -> predictedStock e = of_Z 5).
Proof.
  destruct (no_sales_flat_projection shelf_product [] 14)
    as (r & Hr & _ & _ & Hall & Hnone & _).
  - cbn. lia.
  - reflexivity.
  - cbn. lia.
  - exists r. split; [exact Hr |]. split.
    + apply Hnone. cbn. lia.
    + intros e He. apply (Hall e He).
Defined.

Lemma project_NaN (avg : jsnum) (n : nat) :
  forall cs d e,
    e ∈ project avg NaN cs d n ->
    predictedStock e = NaN /\ predictedSales e = NaN /\ stockoutRisk e = low.
Proof.
  assert (Hsales : forall d, sales_on avg NaN d = NaN).
  { intros d. unfold sales_on. cbn [jmul jadd]. destruct avg; reflexivity. }
  induction n as [| n IH]; intros cs d e He; [inversion He |].
  cbn [project] in He. rewrite Hsales in He.
  assert (Hcs : jmax (Fin 0) (jsub cs NaN) = NaN) by (destruct cs; reflexivity).
  rewrite Hcs in He. apply elem_of_cons in He as [-> | He].
  - repeat split.
  - eapply IH, He.
Qed.

Lemma sales_on_PosInf (a : Q) (d : Z) :
  (0 < a)%Q -> 1 <= d -> sales_on (Fin a) PosInf d = PosInf.
Proof.
  intros Ha Hd. unfold sales_on, of_Z.
  change (jdiv (Fin (inject_Z d)) (Fin 30)) with (Fin (inject_Z d / 30)).
  assert (Hpos : (0 < inject_Z d / 30)%Q).
  { apply Qlt_shift_div_l; [reflexivity |]. ring_simplify.
    change 0%Q with (inject_Z 0). rewrite <- Zlt_Qlt. lia. }
  cbn [jmul]. unfold inf_of_sign. apply Qgt_alt in Hpos. rewrite Hpos.
  cbn [jadd jmul]. unfold inf_of_sign. apply Qgt_alt in Ha. rewrite Ha.
  reflexivity.
Qed.

Lemma project_PosInf (a : Q) (n : nat) :
  (0 < a)%Q ->
  forall s d e,
    1 <= d ->
    e ∈ project (Fin a) PosInf (Fin s) d n ->
    predictedStock e = of_Z 0 /\ predictedSales e = PosInf /\
    stockoutRisk e = critical.
Proof.
  intros Ha. induction n as [| n IH]; intros s d e Hd He; [inversion He |].
  cbn [project] in He. rewrite (sales_on_PosInf a d Ha Hd) in He.
  change (jmax (Fin 0) (jsub (Fin s) PosInf)) with (Fin 0) in He.
  apply elem_of_cons in He as [-> | He].
  - repeat split.
  - apply (IH 0%Q (d + 1) e); [lia | exact He].
Qed.

(** X17.  The trend divides by the average of the first seven rows without
    a guard.  When those rows add up to 0 the result is not a number: with
    a last week that also adds up to 0 the trend is NaN, every predicted
    stock and sale is NaN, every risk is low and no stockout day is
    reported, whatever the stock; with a last week that sold something the
    trend is +Infinity, every day predicts infinite sales and stock 0 with
    critical risk, and the stockout day is day 1, whatever the stock. *)
Theorem trend_divides_by_first_week (p : product) (salesData : list (option Z))
    (daysAhead : Z) :
  let dailySales := dailySales_of salesData in
  (7 <= length salesData)%nat ->
  sum (first_week dailySales) = 0 ->
  exists r,
    predictStockLevels (Some p) salesData daysAhead = Some r /\
    (sum (last_week dailySales) = 0 ->
       salesTrend r = NaN /\ trendDirection r = stable /\
       daysUntilStockout r = None /\
       forall e, e ∈ predictions r ->
         predictedStock e = NaN /\ predictedSales e = NaN /\
         stockoutRisk e = low) /\
    (0 < sum (last_week dailySales) -> 0 < sum dailySales ->
       salesTrend r = PosInf /\ trendDirection r = increasing /\
       (1 <= daysAhead -> daysUntilStockout r = Some 1) /\
       forall e, e ∈ predictions r ->
         predictedStock e = of_Z 0 /\ predictedSales e = PosInf /\
         stockoutRisk e = critical).
Proof.
  intros dailySales Hlen Hfirst.
  eexists. split; [reflexivity |].
  cbn [salesTrend trendDirection predictions daysUntilStockout].
  fold dailySales.
  assert (Hlen' : (7 <=? length dailySales)%nat = true).
  { apply Nat.leb_le. subst dailySales. unfold dailySales_of.
    now rewrite length_map. }
  split.
  - intros Hlast.
    assert (Htrend : trend_of dailySales = NaN).
    { unfold trend_of. rewrite Hlen', Hfirst, Hlast. reflexivity. }
    rewrite Htrend. split; [reflexivity |]. split; [reflexivity |]. split.
    + rewrite find_none_all; [reflexivity |]. intros e He.
      apply project_NaN in He as (-> & _). reflexivity.
    + intros e He. eapply project_NaN, He.
  - intros Hlast Hsum.
    assert (Htrend : trend_of dailySales = PosInf).
    { unfold trend_of. rewrite Hlen', Hfirst. unfold of_Z.
      change (jdiv (Fin (inject_Z 0)) (Fin 7)) with (Fin (inject_Z 0 / 7)).
      change (jdiv (Fin (inject_Z (sum (last_week dailySales)))) (Fin 7))
        with (Fin (inject_Z (sum (last_week dailySales)) / 7)).
      cbn [jsub].
      change (jdiv (Fin (inject_Z (sum (last_week dailySales)) / 7 - inject_Z 0 / 7))
                   (Fin (inject_Z 0 / 7)))
        with (inf_of_sign (inject_Z (sum (last_week dailySales)) / 7 - inject_Z 0 / 7)).
      unfold inf_of_sign.
      assert (Hpos : (0 < inject_Z (sum (last_week dailySales)) / 7 - inject_Z 0 / 7)%Q).
      { assert (H0 : (0 < inject_Z (sum (last_week dailySales)))%Q).
        { change 0%Q with (inject_Z 0). now rewrite <- Zlt_Qlt. }
        assert (H1 : (0 < inject_Z (sum (last_week dailySales)) / 7)%Q).
        { apply Qlt_shift_div_l; [reflexivity | lra]. }
        change (inject_Z 0 / 7)%Q with (0 # 7)%Q. lra. }
      apply Qgt_alt in Hpos. now rewrite Hpos. }
    rewrite Htrend.
    assert (Havg : exists a, average dailySales = Fin a /\ (0 < a)%Q).
    { unfold average.
      assert (Hn : (0 < length dailySales)%nat) by (apply Nat.leb_le in Hlen'; lia).
      apply Nat.ltb_lt in Hn as Hn'. rewrite Hn'. unfold of_Z, jdiv.
      rewrite (CustomerProps.inject_Z_nonzero (length dailySales)) by lia.
      eexists. split; [reflexivity |].
      apply Qlt_shift_div_l.
      - change 0%Q with (inject_Z 0). rewrite <- Zlt_Qlt. lia.
      - ring_simplify. change 0%Q with (inject_Z 0). now rewrite <- Zlt_Qlt. }
    destruct Havg as (a & -> & Ha).
    split; [reflexivity |]. split; [reflexivity |]. split.
    + intros Hdays. destruct (Z.to_nat daysAhead) as [| n] eqn:En; [lia |].
      cbn [project]. rewrite (sales_on_PosInf a 1 Ha) by lia. reflexivity.
    + intros e He. unfold of_Z in He.
      eapply (project_PosInf a _ Ha _ 1 e); [lia | exact He].
Qed.

Lemma trend_divides_by_first_week_witness :
  exists r,
    predictStockLevels (Some bulk_product) late_week 14 = Some r /\
    salesTrend r = PosInf /\ daysUntilStockout r = Some 1.
Proof.
  destruct (trend_divides_by_first_week bulk_product late_week 14)
    as (r & Hr & _ & Hinf).
  - cbn. lia.
  - reflexivity.
  - exists r. split; [exact Hr |].
    destruct Hinf as (Ht & _ & Hday & _).
    + vm_compute. reflexivity.
    + vm_compute. reflexivity.
    + split; [exact Ht |]. apply Hday. lia.
Defined.

Lemma insert_by_urgency_sorted (s : suggestion) (l : list suggestion) :
  StronglySorted by_urgency l -> StronglySorted by_urgency (insert_by_urgency s l).
Proof.
  induction 1 as [| x l Hl IH Hx]; cbn [insert_by_urgency].
  - repeat constructor.
  - rewrite Forall_forall in Hx. unfold by_urgency in Hx.
    destruct (urgencyOrder (urgency x) <? urgencyOrder (urgency s)) eqn:E.
    + apply Z.ltb_lt in E. constructor; [exact IH |].
      rewrite Forall_forall. intros z Hz. unfold by_urgency.
      rewrite insert_by_urgency_perm in Hz. apply elem_of_cons in Hz as [-> | Hz].
      * lia.
      * now apply Hx.
    + apply Z.ltb_ge in E. constructor; [now constructor; [| rewrite Forall_forall] |].
      constructor; [exact E |].
      rewrite Forall_forall. intros z Hz. specialize (Hx z Hz).
      unfold by_urgency. lia.
Qed.

Lemma sort_by_urgency_sorted (l : list suggestion) :
  StronglySorted by_urgency (sort_by_urgency l).
Proof.
  induction l as [| x l IH]; [constructor |].
  cbn [sort_by_urgency foldr]. now apply insert_by_urgency_sorted.
Qed.

Lemma suggest_not_low (salesMap : gmap Z Z) (p : product) (s : suggestion) :
  suggest salesMap p = Some s -> urgency s <> low.
Proof.
  unfold suggest. destruct (stock_quantity p <=? _); [| discriminate].
  intros [= <-]. cbn [urgency]. case_ifs; discriminate.
Qed.

Lemma count_urgency_total (l : list suggestion) :
  Forall (fun s => urgency s <> low) l ->
  length l
  = (count_urgency critical l + count_urgency high l + count_urgency medium l)%nat.
Proof.
  unfold count_urgency. induction 1 as [| s l Hs _ IH]; [reflexivity |].
  cbn [List.filter length]. destruct (urgency s); try contradiction;
    cbn [urgencyOrder Z.eqb Pos.eqb length] in *; rewrite IH; lia.
Qed.

Lemma omap_length_le {A B : Type} (f : A -> option B) (l : list A) :
  (length (omap f l) <= length l)%nat.
Proof.
  induction l as [| x l IH]; [reflexivity |].
  cbn. destruct (f x); cbn; lia.
Qed.

(** X18.  The reorder report is ordered and its counts are consistent: the
    suggestions come in order of urgency (critical, then high, then
    medium), no other urgency occurs, the total is the number of
    suggestions and equals the critical, high and medium counts together,
    and there are never more suggestions than products. *)
Theorem reorder_report_ordered (table : list product)
    (salesDataBatch : list (Z * option Z)) :
  let r := generateReorderSuggestions table salesDataBatch in
  StronglySorted by_urgency (suggestions r) /\
  Forall (fun s => urgency s <> low) (suggestions r) /\
  totalSuggestions r = length (suggestions r) /\
  totalSuggestions r
  = (criticalCount r + highCount r + count_urgency medium (suggestions r))%nat /\
  (totalSuggestions r <= length table)%nat.
Proof.
  intros r.
  assert (Hlow : Forall (fun s => urgency s <> low) (suggestions r)).
  { rewrite Forall_forall. intros s Hs.
    apply suggestions_are_suggested in Hs as (p & _ & _ & Hp).
    eapply suggest_not_low, Hp. }
  subst r. unfold generateReorderSuggestions in *.
  set (products := List.filter (fun p => stock_quantity p <=? 50) table) in *.
  assert (Hprod : (length products <= length table)%nat)
    by apply List.filter_length_le.
  destruct products as [| p0 rest] eqn:Eprod.
  - cbn. repeat split; try constructor. lia.
  - rewrite <- Eprod in *.
    cbn [suggestions totalSuggestions criticalCount highCount] in *.
    split; [apply sort_by_urgency_sorted |]. split; [exact Hlow |].
    split; [reflexivity |]. split; [now apply count_urgency_total |].
    rewrite sort_by_urgency_perm.
    etransitivity; [apply omap_length_le | exact Hprod].
Qed.

Lemma leadTime_positive (p : product) : delivery_days_nonneg p -> 0 < leadTime p.
Proof.
  unfold delivery_days_nonneg, leadTime. intros H.
  destruct (Supplier p) as [s |]; [| lia].
  destruct (average_delivery_days s) as [d |] eqn:Ed; [| lia].
  specialize (H s d eq_refl Ed).
  destruct (d =? 0) eqn:E; [lia | apply Z.eqb_neq in E; lia].
Qed.

Lemma Qceiling_nonneg (x : Q) : (0 <= x)%Q -> 0 <= Qceiling x.
Proof.
  intros Hx. pose proof (Qle_ceiling x) as Hc.
  rewrite Zle_Qle. change (inject_Z 0) with 0%Q. lra.
Qed.

Lemma Qceiling_nonpos (x : Q) : (x <= 0)%Q -> Qceiling x <= 0.
Proof.
  intros Hx. change 0 with (Qceiling 0). now apply Qceiling_resp_le.
Qed.

(** X19.  With delivery days that are not negative: a product that is out
    of stock and whose recorded 30-day sales are not negative is always in
    the reorder report, with urgency critical and, when it sold anything,
    0 days until stockout.  A product with stock left and no recorded sales
    is never suggested. *)
Theorem out_of_stock_is_critical (table : list product)
    (salesDataBatch : list (Z * option Z)) (p : product) :
  let salesMap := build_salesMap salesDataBatch in
  let totalSold := default 0 (salesMap !! id p) in
  delivery_days_nonneg p ->
  (p ∈ table -> stock_quantity p = 0 -> 0 <= totalSold ->
     exists s,
       s ∈ suggestions (generateReorderSuggestions table salesDataBatch) /\
       product_id s = id p /\ urgency s = critical /\
       reorderDaysUntilStockout s = if 0 <? totalSold then Some 0 else None) /\
  (0 < stock_quantity p -> totalSold <= 0 -> suggest salesMap p = None).
Proof.
  intros salesMap totalSold Hdays.
  pose proof (leadTime_positive p Hdays) as Hlead.
  assert (Hsuggest : suggest salesMap p =
    let A := (inject_Z totalSold / 30)%Q in
    let point := Qceiling (A * inject_Z (leadTime p + SAFETY_STOCK_DAYS)) in
    if stock_quantity p <=? point then
      Some {| product_id := id p;
              suggestedStock := stock_quantity p;
              reorderAvgDailySales := A;
              reorderPoint := point;
              recommendedQuantity := Qceiling (A * 30);
              reorderDaysUntilStockout :=
                if Qltb 0 A
                then Some (Qfloor (inject_Z (stock_quantity p) / A))
                else None;
              urgency :=
                if stock_quantity p =? 0 then critical
                else if Qle_bool (inject_Z (stock_quantity p)) (A * 3) then high
                else medium |}
    else None).
  { unfold suggest, totalSold. now destruct (salesMap !! id p). }
  cbn zeta in Hsuggest.
  set (A := (inject_Z totalSold / 30)%Q) in *.
  assert (HL : (0 <= inject_Z (leadTime p + SAFETY_STOCK_DAYS))%Q).
  { change 0%Q with (inject_Z 0). rewrite <- Zle_Qle.
    change SAFETY_STOCK_DAYS with 3. lia. }
  assert (HA : (A == inject_Z totalSold * (1 # 30))%Q) by reflexivity.
  split.
  - intros Hin Hzero Hsold.
    assert (HA0 : (0 <= A)%Q).
    { assert (0 <= inject_Z totalSold)%Q
        by (change 0%Q with (inject_Z 0); now rewrite <- Zle_Qle).
      lra. }
    assert (Hpoint : 0 <= Qceiling (A * inject_Z (leadTime p + SAFETY_STOCK_DAYS))).
    { apply Qceiling_nonneg. now apply Qmult_le_0_compat. }
    rewrite Hzero in Hsuggest.
    apply Z.leb_le in Hpoint. rewrite Hpoint in Hsuggest.
    eexists. split; [| split; [| split]].
    + apply suggestions_are_suggested. exists p.
      split; [exact Hin |]. split; [lia | exact Hsuggest].
    + reflexivity.
    + reflexivity.
    + cbn [reorderDaysUntilStockout].
      destruct (0 <? totalSold) eqn:E.
      * apply Z.ltb_lt in E.
        assert (HApos : (0 < A)%Q).
        { assert (0 < inject_Z totalSold)%Q
            by (change 0%Q with (inject_Z 0); now rewrite <- Zlt_Qlt).
          lra. }
        apply Qltb_lt in HApos. rewrite HApos.
        assert (Hq : (inject_Z 0 / A == 0)%Q).
        { unfold Qdiv. change (inject_Z 0) with 0%Q. ring. }
        rewrite Hq. reflexivity.
      * apply Z.ltb_ge in E.
        assert (HAle : (A <= 0)%Q).
        { assert (inject_Z totalSold <= 0)%Q
            by (change 0%Q with (inject_Z 0); now rewrite <- Zle_Qle).
          lra. }
        unfold Qltb. apply Qle_bool_iff in HAle. now rewrite HAle.
  - intros Hstock Hsold.
    assert (HAle : (A <= 0)%Q).
    { assert (inject_Z totalSold <= 0)%Q
        by (change 0%Q with (inject_Z 0); now rewrite <- Zle_Qle).
      lra. }
    assert (Hpoint : Qceiling (A * inject_Z (leadTime p + SAFETY_STOCK_DAYS)) <= 0).
    { apply Qceiling_nonpos.
      set (L := inject_Z (leadTime p + SAFETY_STOCK_DAYS)) in *. nra. }
    rewrite Hsuggest.
    destruct (stock_quantity p <=? _) eqn:E; [| reflexivity].
    apply Z.leb_le in E. lia.
Qed.

Lemma out_of_stock_is_critical_witness :
  exists s,
    s ∈ suggestions (generateReorderSuggestions [shelf_product; empty_shelf]
                       shelf_sales) /\
    product_id s = 5 /\ urgency s = critical.
Proof.
  destruct (out_of_stock_is_critical [shelf_product; empty_shelf] shelf_sales
              empty_shelf) as [Hcrit _].
  - intros s d Hs. discriminate Hs.
  - destruct Hcrit as (s & Hin & Hid & Hu & _).
    + apply elem_of_cons. right. apply elem_of_cons. now left.
    + reflexivity.
    + vm_compute. discriminate.
    + exists s. split; [exact Hin |]. split; [exact Hid | exact Hu].
Defined.

End InventoryMoreProps.

(** ** Customer analytics, continued *)

Module CustomerMoreProps.
Import JsNum JsNumFacts CustomerAnalytics CustomerProps CustomerMore.

Local Open Scope Z_scope.

Lemma insert_number_perm (x : Q) (l : list Q) : insert_number x l ≡ₚ x :: l.
Proof.
  induction l as [| y l IH]; [reflexivity |].
  cbn [insert_number]. destruct (Qle_bool x y); [reflexivity |].
  rewrite IH. apply Permutation_swap.
Qed.

Lemma sort_numbers_perm (l : list Q) : sort_numbers l ≡ₚ l.
Proof.
  induction l as [| x l IH]; [reflexivity |].
  cbn [sort_numbers foldr]. rewrite insert_number_perm.
  now apply Permutation_cons.
Qed.

Lemma insert_number_sorted (x : Q) (l : list Q) :
  StronglySorted Qle l -> StronglySorted Qle (insert_number x l).
Proof.
  induction 1 as [| y l Hl IH Hy]; cbn [insert_number].
  - repeat constructor.
  - rewrite Forall_forall in Hy.
    destruct (Qle_bool x y) eqn:E.
    + apply Qle_bool_iff in E.
      constructor; [now constructor; [| rewrite Forall_forall] |].
      constructor; [exact E |].
      rewrite Forall_forall. intros z Hz. specialize (Hy z Hz). lra.
    + apply Qle_bool_false in E. constructor; [exact IH |].
      rewrite Forall_forall. intros z Hz.
      rewrite insert_number_perm in Hz. apply elem_of_cons in Hz as [-> | Hz].
      * lra.
      * now apply Hy.
Qed.

Lemma sort_numbers_sorted (l : list Q) : StronglySorted Qle (sort_numbers l).
Proof.
  induction l as [| x l IH]; [constructor |].
  cbn [sort_numbers foldr]. now apply insert_number_sorted.
Qed.

Lemma count_below_perm (v : Q) (l l' : list Q) :
  l ≡ₚ l' -> count_below v l = count_below v l'.
Proof.
  unfold count_below.
  induction 1 as [| x l l' _ IH | x y l | l l' l'' _ IH1 _ IH2]; cbn [List.filter].
  - reflexivity.
  - destruct (Qltb x v); cbn [length]; now rewrite IH.
  - destruct (Qltb x v), (Qltb y v); reflexivity.
  - now rewrite IH1.
Qed.

Lemma count_below_none (v : Q) (l : list Q) :
  Forall (fun x => (v <= x)%Q) l -> count_below v l = 0%nat.
Proof.
  unfold count_below. induction 1 as [| x l Hx _ IH]; [reflexivity |].
  cbn [List.filter]. apply Qltb_ge in Hx. now rewrite Hx.
Qed.

Lemma findIndex_ge_sorted (v : Q) (l : list Q) :
  StronglySorted Qle l ->
  forall i, (exists x, x ∈ l /\ (v <= x)%Q) ->
  findIndex_ge (Some v) (map Some l) i = i + Z.of_nat (count_below v l).
Proof.
  induction 1 as [| y l Hl IH Hy]; intros i (x & Hx & Hvx); [inversion Hx |].
  cbn [map findIndex_ge]. destruct (Qle_bool v y) eqn:E.
  - apply Qle_bool_iff in E. rewrite count_below_none; [lia |].
    constructor; [exact E |].
    eapply Forall_impl; [exact Hy |]. cbn. intros z Hz. lra.
  - apply Qle_bool_false in E.
    apply elem_of_cons in Hx as [-> | Hx]; [lra |].
    rewrite IH by (exists x; split; assumption).
    unfold count_below. cbn [List.filter].
    apply Qltb_lt in E. rewrite E. cbn [length]. lia.
Qed.

Lemma sorted_array_numbers (nums : list Q) :
  sorted_array (map Some nums) = map Some (sort_numbers nums).
Proof.
  unfold sorted_array.
  assert (H1 : omap (fun v => v) (map Some nums) = nums).
  { induction nums as [| x l IH]; [reflexivity |]. cbn. f_equal. exact IH. }
  assert (H2 : List.filter (fun v : option Q => match v with None => true | Some _ => false end)
                 (map Some nums) = []).
  { clear H1. induction nums as [| x l IH]; [reflexivity |]. cbn. exact IH. }
  rewrite H1, H2. apply app_nil_r.
Qed.

Lemma getPercentile_rank (nums : list Q) (v : Q) :
  (exists x, x ∈ nums /\ (v <= x)%Q) ->
  getPercentile (map Some nums) (Some v) false
  = Fin (inject_Z (Z.of_nat (count_below v nums))
         / inject_Z (Z.of_nat (length nums)) * 100) /\
  getPercentile (map Some nums) (Some v) true
  = Fin (100 - inject_Z (Z.of_nat (count_below v nums))
               / inject_Z (Z.of_nat (length nums)) * 100).
Proof.
  intros Hex. unfold getPercentile.
  rewrite sorted_array_length, length_map, sorted_array_numbers.
  rewrite findIndex_ge_sorted.
  - rewrite (count_below_perm v _ _ (sort_numbers_perm nums)). rewrite Z.add_0_l.
    assert (Hlen : length nums <> 0%nat).
    { destruct Hex as (x & Hx & _). destruct nums; [inversion Hx | discriminate]. }
    unfold of_Z, jdiv. rewrite (inject_Z_nonzero _ Hlen). split; reflexivity.
  - apply sort_numbers_sorted.
  - destruct Hex as (x & Hx & Hvx). exists x. split; [| exact Hvx].
    now rewrite sort_numbers_perm.
Qed.

Lemma getScore_at_least (p : Q) (k : Z) :
  1 <= k <= 4 -> (k + 1 <= getScore (Fin p) <-> (inject_Z (20 * k) <= p)%Q).
Proof.
  intros Hk. unfold getScore, jge, jle.
  assert (Hcases : k = 1 \/ k = 2 \/ k = 3 \/ k = 4) by lia.
  destruct (Qle_bool 80 p) eqn:E80;
    [apply Qle_bool_iff in E80 | apply Qle_bool_false in E80];
  (destruct (Qle_bool 60 p) eqn:E60;
    [apply Qle_bool_iff in E60 | apply Qle_bool_false in E60]);
  (destruct (Qle_bool 40 p) eqn:E40;
    [apply Qle_bool_iff in E40 | apply Qle_bool_false in E40]);
  (destruct (Qle_bool 20 p) eqn:E20;
    [apply Qle_bool_iff in E20 | apply Qle_bool_false in E20]);
  destruct Hcases as [-> | [-> | [-> | ->]]];
  change (inject_Z (20 * 1)) with 20%Q; change (inject_Z (20 * 2)) with 40%Q;
  change (inject_Z (20 * 3)) with 60%Q; change (inject_Z (20 * 4)) with 80%Q;
  (split; intros H; first [lia | lra | exfalso; lra | exfalso; lia]).
Qed.

Lemma rank_threshold (b n k : Z) :
  0 < n ->
  (inject_Z (20 * k) <= inject_Z b / inject_Z n * 100)%Q <-> k * n <= 5 * b.
Proof.
  intros Hn.
  assert (Hn' : (0 < inject_Z n)%Q)
    by (change 0%Q with (inject_Z 0); now rewrite <- Zlt_Qlt).
  set (x := (inject_Z b / inject_Z n)%Q).
  assert (Hx : (x * inject_Z n == inject_Z b)%Q).
  { subst x. field. lra. }
  assert (Hprod : (inject_Z (k * n) == inject_Z k * inject_Z n)%Q)
    by (rewrite inject_Z_mult; reflexivity).
  assert (H20 : (inject_Z (20 * k) == 20 * inject_Z k)%Q)
    by (rewrite inject_Z_mult; reflexivity).
  assert (H5 : (inject_Z (5 * b) == 5 * inject_Z b)%Q)
    by (rewrite inject_Z_mult; reflexivity).
  rewrite Zle_Qle, Hprod, H5, H20, <- Hx.
  split; intros H.
  - assert (inject_Z k <= 5 * x)%Q by lra.
    assert (E : (5 * (x * inject_Z n) == (5 * x) * inject_Z n)%Q) by ring.
    rewrite E. apply Qmult_le_compat_r; lra.
  - assert (Hle : (inject_Z k <= 5 * x)%Q).
    { apply (Qmult_le_r _ _ (inject_Z n)); [exact Hn' |].
      assert (E : ((5 * x) * inject_Z n == 5 * (x * inject_Z n))%Q) by ring.
      rewrite E. exact H. }
    lra.
Qed.

(** X20.  The percentile of getPercentile is a rank: for an array of
    numbers and a value that does not exceed all of them (in particular a
    value of the array), it is 100 times the share of the values strictly
    below, and 100 minus that when inverted.  So the score is at least k+1
    exactly when at least k fifths of the values lie strictly below (for
    the inverted score: when at least k fifths do not). *)
Theorem percentile_is_rank (nums : list Q) (v : Q) :
  let n := Z.of_nat (length nums) in
  let below := Z.of_nat (count_below v nums) in
  (exists x, x ∈ nums /\ (v <= x)%Q) ->
  getPercentile (map Some nums) (Some v) false
  = Fin (inject_Z below / inject_Z n * 100) /\
  getPercentile (map Some nums) (Some v) true
  = Fin (100 - inject_Z below / inject_Z n * 100) /\
  (forall k, 1 <= k <= 4 ->
     (k + 1 <= getScore (getPercentile (map Some nums) (Some v) false)
      <-> k * n <= 5 * below)) /\
  (forall k, 1 <= k <= 4 ->
     (k + 1 <= getScore (getPercentile (map Some nums) (Some v) true)
      <-> k * n <= 5 * (n - below))).
Proof.
  intros n below Hex.
  destruct (getPercentile_rank nums v Hex) as [Hp Hi].
  fold n below in Hp, Hi.
  assert (Hn : 0 < n).
  { destruct Hex as (x & Hx & _). subst n.
    destruct nums; [inversion Hx | cbn [length]; lia]. }
  split; [exact Hp |]. split; [exact Hi |]. split.
  - intros k Hk. rewrite Hp, getScore_at_least by exact Hk.
    now apply rank_threshold.
  - intros k Hk. rewrite Hi, getScore_at_least by exact Hk.
    rewrite <- (rank_threshold (n - below) n k Hn).
    assert (Hn' : (0 < inject_Z n)%Q)
      by (change 0%Q with (inject_Z 0); now rewrite <- Zlt_Qlt).
    assert (Heq : (inject_Z (n - below) / inject_Z n * 100
                   == 100 - inject_Z below / inject_Z n * 100)%Q).
    { unfold Z.sub. rewrite inject_Z_plus, inject_Z_opp. field. lra. }
    now rewrite Heq.
Qed.

Lemma percentile_is_rank_witness :
  getPercentile (map Some [3; 1; 2; 2]%Q) (Some 2%Q) false
  = Fin (inject_Z 1 / inject_Z 4 * 100).
Proof.
  refine (proj1 (percentile_is_rank [3; 1; 2; 2]%Q 2%Q _)).
  exists 3%Q. split; [| lra]. constructor.
Defined.

Lemma initial_row_scored (now : Z) (c : customer) :
  recencyDays (initial_row now c) <> IsNull /\
  customerId (initial_row now c) = id c /\
  frequency (initial_row now c) = Z.of_nat (length (Transactions c)).
Proof.
  unfold initial_row. destruct (Transactions c); cbn; repeat split; discriminate.
Qed.

Lemma score_row_scored (rv fv mv : list (option Q)) (row : rfm_row) :
  recencyDays row <> IsNull ->
  exists rS fS mS,
    1 <= rS <= 5 /\ 1 <= fS <= 5 /\ 1 <= mS <= 5 /\
    customerId (score_row rv fv mv row) = customerId row /\
    frequency (score_row rv fv mv row) = frequency row /\
    monetary (score_row rv fv mv row) = monetary row /\
    rfmScore (score_row rv fv mv row)
    = Value (digit rS ++ digit fS ++ digit mS)%string /\
    totalScore (score_row rv fv mv row) = Value (rS + fS + mS) /\
    segment (score_row rv fv mv row) = Value (assignSegment rS fS mS).
Proof.
  intros Hnull. unfold score_row.
  destruct (recencyDays row) as [| | d] eqn:E; [| contradiction |];
    (do 3 eexists; split; [apply getScore_range |]; split; [apply getScore_range |];
     split; [apply getScore_range |]; cbn; repeat split; reflexivity).
Qed.

Lemma rfm_rows (now : Z) (customers : list customer) (i : nat) (c : customer) :
  customers !! i = Some c ->
  exists row rS fS mS,
    rfmData (performRFMAnalysis now customers) !! i = Some row /\
    1 <= rS <= 5 /\ 1 <= fS <= 5 /\ 1 <= mS <= 5 /\
    customerId row = id c /\
    frequency row = Z.of_nat (length (Transactions c)) /\
    rfmScore row = Value (digit rS ++ digit fS ++ digit mS)%string /\
    totalScore row = Value (rS + fS + mS) /\
    segment row = Value (assignSegment rS fS mS).
Proof.
  intros Hc. unfold performRFMAnalysis. cbn [rfmData].
  rewrite !list_lookup_fmap, Hc. cbn [fmap option_fmap option_map].
  destruct (initial_row_scored now c) as (Hnull & Hid & Hfreq).
  set (rows := map (initial_row now) customers).
  destruct (score_row_scored (recencyValues_of rows) (frequencyValues_of rows)
              (monetaryValues_of rows) (initial_row now c) Hnull)
    as (rS & fS & mS & HrS & HfS & HmS & Hid' & Hfreq' & _ & Hcode & Htotal & Hseg).
  eexists. exists rS, fS, mS. split; [reflexivity |].
  repeat (split; [assumption || congruence |]). exact Hseg.
Qed.

Lemma count_of_bump (n name : string) (counts : list (string * nat)) :
  count_of n (bump name counts)
  = if String.eqb name n then S (count_of n counts) else count_of n counts.
Proof.
  unfold count_of. induction counts as [| [m k] counts IH]; cbn [bump List.find fst snd].
  - destruct (String.eqb name n); reflexivity.
  - destruct (String.eqb m name) eqn:Em; cbn [List.find fst snd].
    + apply String.eqb_eq in Em as ->. destruct (String.eqb name n); reflexivity.
    + destruct (String.eqb m n) eqn:En; [| exact IH].
      apply String.eqb_eq in En as ->.
      now rewrite String.eqb_sym, Em.
Qed.

Lemma bump_names (name : string) (counts : list (string * nat)) :
  NoDup counts.*1 ->
  NoDup (bump name counts).*1 /\
  (forall n, n ∈ (bump name counts).*1 <-> n = name \/ n ∈ counts.*1).
Proof.
  induction counts as [| [m k] counts IH]; intros Hnd; cbn [bump].
  - split; [repeat constructor; inversion 1 |].
    intros n. cbn. rewrite list_elem_of_singleton, elem_of_nil. tauto.
  - apply NoDup_cons in Hnd as [Hm Hnd]. cbn [fmap list_fmap fst] in Hm.
    destruct (IH Hnd) as [IH1 IH2].
    destruct (String.eqb m name) eqn:E.
    + apply String.eqb_eq in E as ->. split.
      * apply NoDup_cons. split; assumption.
      * intros n. cbn. rewrite elem_of_cons. tauto.
    + apply String.eqb_neq in E. split.
      * change (NoDup (m :: (bump name counts).*1)). apply NoDup_cons. split; [| exact IH1].
        rewrite IH2. intros [-> | Hin]; [congruence | contradiction].
      * intros n. change (n ∈ m :: (bump name counts).*1 <-> n = name \/ n ∈ m :: counts.*1).
        rewrite !elem_of_cons, IH2. tauto.
Qed.

Lemma bump_total (name : string) (counts : list (string * nat)) :
  sum_list (bump name counts).*2 = S (sum_list counts.*2).
Proof.
  induction counts as [| [m k] counts IH]; [reflexivity |].
  cbn [bump]. destruct (String.eqb m name); cbn in *; [reflexivity | lia].
Qed.

Lemma count_of_listed (n : string) (counts : list (string * nat)) :
  Forall (fun entry => (0 < entry.2)%nat) counts ->
  (n ∈ counts.*1 <-> (0 < count_of n counts)%nat).
Proof.
  unfold count_of. induction 1 as [| [m k] counts Hk _ IH]; cbn [List.find fst snd].
  - cbn. rewrite elem_of_nil. split; [tauto | lia].
  - cbn [fmap list_fmap fst]. rewrite elem_of_cons.
    destruct (String.eqb m n) eqn:E.
    + apply String.eqb_eq in E as ->. cbn in Hk |- *. tauto.
    + apply String.eqb_neq in E. rewrite IH. split; [| tauto].
      intros [-> | H]; [congruence | exact H].
Qed.

Lemma bump_positive (name : string) (counts : list (string * nat)) :
  Forall (fun entry => (0 < entry.2)%nat) counts ->
  Forall (fun entry => (0 < entry.2)%nat) (bump name counts).
Proof.
  induction 1 as [| [m k] counts Hk Hall IH]; cbn [bump].
  - repeat constructor.
  - destruct (String.eqb m name); constructor; cbn in *; try lia; assumption.
Qed.

Lemma segments_invariant (rows : list rfm_row) :
  forall (counts : list (string * nat)) (done : list rfm_row),
    NoDup counts.*1 ->
    Forall (fun entry => (0 < entry.2)%nat) counts ->
    (forall n, count_of n counts = count_named n done) ->
    sum_list counts.*2 = length done ->
    let result := foldl (fun counts row => bump (segment_name row) counts) counts rows in
    NoDup result.*1 /\
    Forall (fun entry => (0 < entry.2)%nat) result /\
    (forall n, count_of n result = count_named n (done ++ rows)) /\
    sum_list result.*2 = length (done ++ rows).
Proof.
  induction rows as [| row rows IH]; intros counts done Hnd Hpos Hcount Hsum.
  - cbn. rewrite app_nil_r. repeat split; assumption.
  - cbn [foldl].
    replace (done ++ row :: rows) with ((done ++ [row]) ++ rows)
      by (now rewrite <- app_assoc).
    apply IH.
    + now apply bump_names.
    + now apply bump_positive.
    + intros n. rewrite count_of_bump, Hcount. unfold count_named.
      rewrite List.filter_app, length_app. cbn [List.filter].
      destruct (String.eqb (segment_name row) n); cbn [length]; lia.
    + rewrite bump_total, Hsum, length_app. cbn. lia.
Qed.

(** X21.  The RFM report accounts for every customer: totalCustomers is
    the number of customers; row i belongs to customer i, counts their
    transactions and is scored (each of the three scores lies between 1
    and 5, the code is their three digits, the total their sum and the
    segment the one assignSegment gives them), whether or not the customer
    has transactions; each segment is listed once, with the number of rows
    of that segment, only when it has rows, and the counts add up to
    totalCustomers. *)
Theorem rfm_report_accounts_for_all (now : Z) (customers : list customer) :
  let r := performRFMAnalysis now customers in
  totalCustomers r = length customers /\
  length (rfmData r) = length customers /\
  (forall i c, customers !! i = Some c ->
     exists row rS fS mS,
       rfmData r !! i = Some row /\
       1 <= rS <= 5 /\ 1 <= fS <= 5 /\ 1 <= mS <= 5 /\
       customerId row = id c /\
       frequency row = Z.of_nat (length (Transactions c)) /\
       rfmScore row = Value (digit rS ++ digit fS ++ digit mS)%string /\
       totalScore row = Value (rS + fS + mS) /\
       segment row = Value (assignSegment rS fS mS)) /\
  NoDup (segments r).*1 /\
  (forall name, count_of name (segments r) = count_named name (rfmData r)) /\
  (forall name, name ∈ (segments r).*1 <-> (0 < count_named name (rfmData r))%nat) /\
  sum_list (segments r).*2 = totalCustomers r.
Proof.
  intros r.
  assert (Hlen : length (rfmData r) = length customers).
  { subst r. unfold performRFMAnalysis. cbn [rfmData]. now rewrite !length_map. }
  split; [exact Hlen |]. split; [exact Hlen |].
  split; [intros i c Hc; now apply rfm_rows |].
  destruct (segments_invariant (rfmData r) [] []) as (Hnd & Hpos & Hcount & Hsum).
  - constructor.
  - constructor.
  - reflexivity.
  - reflexivity.
  - cbn [app] in Hcount, Hsum.
    change (foldl (fun counts row => bump (segment_name row) counts) [] (rfmData r))
      with (segments r) in *.
    split; [exact Hnd |]. split; [exact Hcount |]. split; [| exact Hsum].
    intros name. rewrite <- Hcount. now apply count_of_listed.
Qed.

(** X22.  The segment table, read in the order of its rules, for scores
    between 1 and 5: the exact scores of each of the nine segments.  A
    customer with R <= 2 and F = M = 2 needs attention and is not lost;
    top recency with F >= 3 and M <= 2 falls through to Others. *)
Theorem assignSegment_table (r f m : Z) :
  1 <= r <= 5 -> 1 <= f <= 5 -> 1 <= m <= 5 ->
  let s := assignSegment r f m in
  (s = "Champions"%string <-> 4 <= r /\ 4 <= f /\ 4 <= m) /\
  (s = "Loyal Customers"%string <->
     4 <= r /\ 3 <= f /\ 3 <= m /\ (f = 3 \/ m = 3)) /\
  (s = "New Customers"%string <-> 4 <= r /\ f <= 2) /\
  (s = "Potential Loyalists"%string <-> r = 3 /\ 3 <= f /\ 3 <= m) /\
  (s = "At Risk"%string <-> r <= 2 /\ 4 <= f /\ 4 <= m) /\
  (s = "Need Attention"%string <->
     r <= 2 /\ 2 <= f /\ 2 <= m /\ (f <= 3 \/ m <= 3)) /\
  (s = "Lost"%string <-> r <= 2 /\ f <= 2 /\ m <= 2 /\ (f = 1 \/ m = 1)) /\
  (s = "Big Spenders"%string <->
     4 <= m /\ ((r = 3 /\ f <= 2) \/ (r <= 2 /\ f = 1))) /\
  (s = "Others"%string <->
     m <= 3 /\
     ((4 <= r /\ 3 <= f /\ m <= 2) \/
      (r = 3 /\ (f <= 2 \/ m <= 2)) \/
      (r <= 2 /\ ((f = 1 /\ m = 3) \/ (m = 1 /\ 3 <= f))))).
Proof.
  intros Hr Hf Hm.
  assert (Hr' : r = 1 \/ r = 2 \/ r = 3 \/ r = 4 \/ r = 5) by lia.
  assert (Hf' : f = 1 \/ f = 2 \/ f = 3 \/ f = 4 \/ f = 5) by lia.
  assert (Hm' : m = 1 \/ m = 2 \/ m = 3 \/ m = 4 \/ m = 5) by lia.
  clear Hr Hf Hm.
  destruct Hr' as [-> | [-> | [-> | [-> | ->]]]];
  destruct Hf' as [-> | [-> | [-> | [-> | ->]]]];
  destruct Hm' as [-> | [-> | [-> | [-> | ->]]]];
  cbv zeta; cbn [assignSegment Z.leb Z.compare Pos.compare Pos.compare_cont andb];
  repeat split; intros; first [reflexivity | discriminate | lia].
Qed.

Lemma assignSegment_table_witness :
  assignSegment 2 2 2 = "Need Attention"%string.
Proof.
  destruct (assignSegment_table 2 2 2) as (_ & _ & _ & _ & _ & Hneed & _);
    [lia | lia | lia |].
  apply Hneed. lia.
Defined.





Lemma insert_by_risk_perm (r : churn_row) (l : list churn_row) :
  insert_by_risk r l ≡ₚ r :: l.
Proof.
  induction l as [| x l IH]; [reflexivity |].
  cbn [insert_by_risk]. destruct (_ <? _); [| reflexivity].
  rewrite IH. apply Permutation_swap.
Qed.

Lemma sort_by_risk_perm (l : list churn_row) : foldr insert_by_risk [] l ≡ₚ l.
Proof.
  induction l as [| x l IH]; [reflexivity |].
  cbn [foldr]. rewrite insert_by_risk_perm. now apply Permutation_cons.
Qed.

Lemma insert_by_risk_sorted (r : churn_row) (l : list churn_row) :
  StronglySorted by_risk l -> StronglySorted by_risk (insert_by_risk r l).
Proof.
  induction 1 as [| x l Hl IH Hx]; cbn [insert_by_risk].
  - repeat constructor.
  - rewrite Forall_forall in Hx. unfold by_risk in Hx.
    destruct (riskOrder (riskLevel x) <? riskOrder (riskLevel r)) eqn:E.
    + apply Z.ltb_lt in E. constructor; [exact IH |].
      rewrite Forall_forall. intros z Hz. unfold by_risk.
      rewrite insert_by_risk_perm in Hz. apply elem_of_cons in Hz as [-> | Hz].
      * lia.
      * now apply Hx.
    + apply Z.ltb_ge in E. constructor; [now constructor; [| rewrite Forall_forall] |].
      constructor; [exact E |].
      rewrite Forall_forall. intros z Hz. specialize (Hx z Hz).
      unfold by_risk. lia.
Qed.

Lemma sort_by_risk_sorted (l : list churn_row) :
  StronglySorted by_risk (foldr insert_by_risk [] l).
Proof.
  induction l as [| x l IH]; [constructor |].
  cbn [foldr]. now apply insert_by_risk_sorted.
Qed.

Lemma churn_of_row (now : Z) (c : customer) (row : churn_row) :
  churn_of now c = Some row ->
  churnCustomerId row = id c /\
  (2 <= length (Transactions c))%nat /\
  transactionCount row = Z.of_nat (length (Transactions c)) /\
  riskLevel row <> low /\
  suggestedAction row = getSuggestedAction (riskLevel row) (loyalty_tier c).
Proof.
  unfold churn_of. destruct (Transactions c) as [| t rest]; [discriminate |].
  destruct (length (t :: rest) <? 2)%nat eqn:E; [discriminate |].
  apply Nat.ltb_ge in E.
  repeat match goal with
         | |- context [if (?a <? ?b) then _ else _] => destruct (a <? b)
         | |- context [if Qltb ?a ?b then _ else _] => destruct (Qltb a b)
         end;
    cbn -[percent length]; try discriminate;
    intros [= <-]; cbn -[length]; repeat split; try discriminate; exact E.
Qed.

Lemma count_risk_total (l : list churn_row) :
  Forall (fun row => riskLevel row <> low) l ->
  length l = (count_risk critical l + count_risk high l + count_risk medium l)%nat.
Proof.
  unfold count_risk. induction 1 as [| row l Hrow _ IH]; [reflexivity |].
  cbn [List.filter length]. destruct (riskLevel row); try contradiction;
    cbn [riskOrder Z.eqb Pos.eqb length] in *; rewrite IH; lia.
Qed.

(** X24.  The churn report is ordered and consistent: its rows are those
    that the loop produces for the customers, in order of risk (critical,
    high, medium); each row belongs to a customer with at least two
    completed transactions and carries the action suggested for its risk
    and tier; the three counts add up to totalAtRisk, which never exceeds
    the number of customers. *)
Theorem churn_report_ordered (now : Z) (customers : list customer) :
  let r := identifyChurnRisk now customers in
  churnCustomers r ≡ₚ omap (churn_of now) customers /\
  StronglySorted by_risk (churnCustomers r) /\
  (forall row, row ∈ churnCustomers r ->
     exists c, c ∈ customers /\ churn_of now c = Some row /\
       churnCustomerId row = id c /\
       (2 <= length (Transactions c))%nat /\
       riskLevel row <> low /\
       suggestedAction row = getSuggestedAction (riskLevel row) (loyalty_tier c)) /\
  totalAtRisk r = length (churnCustomers r) /\
  totalAtRisk r = (criticalCount r + highCount r + mediumCount r)%nat /\
  (totalAtRisk r <= length customers)%nat.
Proof.
  intros r. subst r. unfold identifyChurnRisk.
  cbn [churnCustomers totalAtRisk criticalCount highCount mediumCount].
  set (rows := omap (churn_of now) customers).
  pose proof (sort_by_risk_perm rows) as Hperm.
  assert (Hrows : forall row, row ∈ foldr insert_by_risk [] rows ->
            exists c, c ∈ customers /\ churn_of now c = Some row).
  { intros row Hrow. rewrite Hperm in Hrow. subst rows.
    apply list_elem_of_omap in Hrow as (c & Hc & Hrow). now exists c. }
  split; [exact Hperm |]. split; [apply sort_by_risk_sorted |]. split; [| split; [| split]].
  - intros row Hrow. destruct (Hrows row Hrow) as (c & Hc & Hchurn).
    destruct (churn_of_row now c row Hchurn) as (Hid & Hlen & _ & Hlow & Hact).
    exists c. repeat split; assumption.
  - reflexivity.
  - apply count_risk_total. rewrite Forall_forall. intros row Hrow.
    destruct (Hrows row Hrow) as (c & _ & Hchurn).
    now destruct (churn_of_row now c row Hchurn) as (_ & _ & _ & Hlow & _).
  - rewrite Hperm. subst rows. clear.
    induction customers as [| c l IH]; [reflexivity |].
    cbn. destruct (churn_of now c); cbn; lia.
Qed.

(** X25.  A customer whose completed purchases, at least two, all fall
    within fewer days than there are intervals between them (two purchases
    on one day, for example) has an average interval of 0 whole days, and
    is reported critical with 90% as soon as one whole day has passed
    since the last purchase. *)
Theorem burst_buyers_are_critical (now : Z) (c : customer)
    (t : transaction) (rest : list transaction) :
  Transactions c = t :: rest ->
  (1 <= length rest)%nat ->
  last_purchase t rest - first_purchase t rest
    < MS_PER_DAY * Z.of_nat (length rest) ->
  MS_PER_DAY <= now - last_purchase t rest ->
  exists row,
    churn_of now c = Some row /\
    avgDaysBetweenPurchases row = 0 /\
    riskLevel row = critical /\
    churnProbability row = "90%"%string.
Proof.
  intros Htx Hlen Hspan Hday. unfold churn_of. rewrite Htx.
  replace (length (t :: rest) <? 2)%nat with false
    by (symmetry; apply Nat.ltb_ge; cbn [length]; lia).
  rewrite latest_of_max, earliest_of_min.
  pose proof (purchase_bounds t rest) as Hb.
  assert (HI : (last_purchase t rest - first_purchase t rest)
               / (MS_PER_DAY * (Z.of_nat (length (t :: rest)) - 1)) = 0).
  { apply Z.div_small. cbn [length]. lia. }
  rewrite HI.
  assert (HD : 0 < (now - last_purchase t rest) / MS_PER_DAY).
  { apply Z.div_str_pos. unfold MS_PER_DAY in *. lia. }
  replace (0 * 3 <? (now - last_purchase t rest) / MS_PER_DAY) with true
    by (symmetry; apply Z.ltb_lt; lia).
  eexists. split; [reflexivity |]. repeat split.
Qed.

Lemma burst_buyers_are_critical_witness :
  exists row,
    churn_of (2 * MS_PER_DAY) burst_buyer = Some row /\
    riskLevel row = critical.
Proof.
  destruct (burst_buyers_are_critical (2 * MS_PER_DAY) burst_buyer
              {| timestamp := 1000; total_amount := 20 |}
              [ {| timestamp := 5000; total_amount := 30 |} ])
    as (row & Hrow & _ & Hrisk & _).
  - reflexivity.
  - cbn. lia.
  - vm_compute. reflexivity.
  - vm_compute. discriminate.
  - exists row. split; [exact Hrow | exact Hrisk].
Defined.

Lemma insert_by_score_perm (r : rfm_row) (l : list rfm_row) :
  insert_by_score r l ≡ₚ r :: l.
Proof.
  induction l as [| x l IH]; [reflexivity |].
  cbn [insert_by_score]. destruct (_ <? _); [| reflexivity].
  rewrite IH. apply Permutation_swap.
Qed.

Lemma insert_by_score_sorted (r : rfm_row) (l : list rfm_row) :
  StronglySorted higher_score l -> StronglySorted higher_score (insert_by_score r l).
Proof.
  induction 1 as [| x l Hl IH Hx]; cbn [insert_by_score].
  - repeat constructor.
  - rewrite Forall_forall in Hx. unfold higher_score in Hx.
    destruct (score_value r <? score_value x) eqn:E.
    + apply Z.ltb_lt in E. constructor; [exact IH |].
      rewrite Forall_forall. intros z Hz. unfold higher_score.
      rewrite insert_by_score_perm in Hz. apply elem_of_cons in Hz as [-> | Hz].
      * lia.
      * now apply Hx.
    + apply Z.ltb_ge in E. constructor; [now constructor; [| rewrite Forall_forall] |].
      constructor; [exact E |].
      rewrite Forall_forall. intros z Hz. specialize (Hx z Hz).
      unfold higher_score. lia.
Qed.

Lemma filter_all {A : Type} (f : A -> bool) (l : list A) :
  Forall (fun x => f x = true) l -> List.filter f l = l.
Proof.
  induction 1 as [| x l Hx _ IH]; [reflexivity |].
  cbn. now rewrite Hx, IH.
Qed.

(** X26.  topCustomers ranks every customer: since every row of the
    analysis carries a total score between 3 and 15, none is filtered
    out, customers without transactions included; the ranking is a
    rearrangement of all rows in descending order of total score and
    topCustomers is its first 20 rows (all of them when there are fewer). *)
Theorem topCustomers_ranks_all (now : Z) (customers : list customer) :
  let rows := rfmData (performRFMAnalysis now customers) in
  Forall (fun row => 3 <= score_value row <= 15) rows /\
  ranked_by_score rows ≡ₚ rows /\
  StronglySorted higher_score (ranked_by_score rows) /\
  topCustomers rows = firstn 20 (ranked_by_score rows) /\
  length (topCustomers rows) = Nat.min 20 (length customers).
Proof.
  intros rows.
  assert (Hscored : Forall (fun row => 3 <= score_value row <= 15) rows).
  { rewrite Forall_forall. intros row Hrow.
    apply list_elem_of_lookup in Hrow as [i Hi].
    assert (Hlt : (i < length customers)%nat).
    { apply lookup_lt_Some in Hi. subst rows. unfold performRFMAnalysis in Hi.
      cbn [rfmData] in Hi. now rewrite !length_map in Hi. }
    destruct (lookup_lt_is_Some_2 customers i Hlt) as [c Hc].
    destruct (rfm_rows now customers i c Hc)
      as (row' & rS & fS & mS & Hrow' & HrS & HfS & HmS & _ & _ & _ & Htot & _).
    fold rows in Hrow'. rewrite Hi in Hrow'. injection Hrow' as <-.
    unfold score_value. rewrite Htot. lia. }
  assert (Hkeep : List.filter has_totalScore rows = rows).
  { apply filter_all. eapply Forall_impl; [exact Hscored |].
    cbn. intros row. unfold score_value, has_totalScore.
    destruct (totalScore row) as [| | total]; lia. }
  assert (Hperm : ranked_by_score rows ≡ₚ rows).
  { unfold ranked_by_score. rewrite Hkeep. clear.
    induction rows as [| x l IH]; [reflexivity |].
    cbn [foldr]. rewrite insert_by_score_perm. now apply Permutation_cons. }
  split; [exact Hscored |]. split; [exact Hperm |]. split; [| split].
  - unfold ranked_by_score. generalize (List.filter has_totalScore rows). clear.
    intros l. induction l as [| x l IH]; [constructor |].
    cbn [foldr]. now apply insert_by_score_sorted.
  - reflexivity.
  - unfold topCustomers. rewrite length_firstn, Hperm. subst rows.
    unfold performRFMAnalysis. cbn [rfmData]. now rewrite !length_map.
Qed.

End CustomerMoreProps.

(** ** The transaction routes *)

Module TransactionRoutesProps.
Import JsNum JsNumFacts FraudDetection FraudProps FraudMoreProps TransactionRoutes.

Local Open Scope Z_scope.

Lemma analysis_answers getHours count now t c n :
  count (customer_id t) (now - 600000) = Fulfilled n ->
  exists a,
    analyzeTransaction getHours count now t c = Fulfilled a /\
    flag_types (flags a)
    = flag_types [checkAmountAnomaly t c;
                  if 5 <=? n then Flag velocity_exceeded 30 else NotSuspicious;
                  checkTimePattern getHours (timestamp t);
                  checkCustomerRisk c;
                  checkForBot (user_agent t)].
Proof.
  intros Hn. unfold analyzeTransaction.
  rewrite (checkVelocity_fulfilled _ _ _ _ Hn).
  cbn [mbind promise_bind mret promise_ret]. eexists. split; [reflexivity |].
  cbn [flags]. change VELOCITY_MAX_TRANSACTIONS with 5.
  assert (Hrec : forall ch acc,
            flag_types (record_check ch acc).1 = flag_types acc.1 ++ flag_types [ch]).
  { intros ch acc. unfold record_check, flag_types.
    destruct ch; cbn [suspicious fst omap]; [now rewrite app_nil_r |].
    now rewrite omap_app. }
  assert (Hcons : forall x y l,
            flag_types (x :: y :: l) = flag_types [x] ++ flag_types (y :: l)).
  { intros x y l. unfold flag_types. cbn [omap list_omap].
    destruct x; reflexivity. }
  rewrite !Hrec, !Hcons. cbn [fst]. change (flag_types []) with (@nil flag_type).
  cbn [app]. now rewrite <- !app_assoc.
Qed.

Lemma analysis_unavailable getHours rows now t c :
  exists err,
    analyzeTransaction getHours (count_rows false rows) now t c = Rejected err.
Proof. eexists. reflexivity. Qed.

Lemma count_rows_available rows cid windowStart :
  count_rows true rows cid windowStart
  = Fulfilled (Z.of_nat (length (List.filter (in_window cid windowStart) rows))).
Proof. reflexivity. Qed.

Lemma total_in_range (total : Q) :
  Qltb total (1 # 100) || Qltb 10000 total = false <->
  ((1 # 100) <= total <= 10000)%Q.
Proof.
  rewrite orb_false_iff, !Qltb_ge. tauto.
Qed.

(** The handler on a request that passes the checks before the creation
    of the transaction. *)
Lemma post_transaction_accepted getHours available created_at now req db c p :
  accepted req db c p ->
  post_transaction getHours available created_at now req db
  = let total_amount := total_amount_of p (body_quantity req) in
    let row := created_row req total_amount created_at in
    let rows := transactions db ++ [row] in
    match analyzeTransaction getHours (count_rows available rows)
            now (analysed req p created_at) (Some c) with
    | Rejected _ =>
        ({| customers := customers db; products := products db;
            transactions := rows; alerts := alerts db |},
         respond 500)
    | Fulfilled fraudAnalysis =>
        ({| customers :=
              <[body_customer_id req :=
                  {| total_spent := jadd (total_spent c) (Fin total_amount);
                     risk_score := risk_score c |}]> (customers db);
            products :=
              <[body_product_id req :=
                  {| price := price p;
                     stock_quantity := stock_quantity p - body_quantity req |}]>
                (products db);
            transactions := transactions db ++ [scored row fraudAnalysis];
            alerts :=
              if isSuspicious fraudAnalysis
              then alerts db
                   ++ [{| alert_severity := severity fraudAnalysis;
                          alert_customer_id := body_customer_id req;
                          alert_flags := flags fraudAnalysis |}]
              else alerts db |},
         {| status := 201;
            fraudAnalysis :=
              Some (fraudScore fraudAnalysis, isSuspicious fraudAnalysis,
                    severity fraudAnalysis) |})
    end.
Proof.
  intros (Hv & Hc & Hp & Hq & Hrange). unfold post_transaction.
  rewrite Hv, Hc, Hp. cbn [negb].
  replace (stock_quantity p <? body_quantity req) with false
    by (symmetry; apply Z.ltb_ge; lia).
  apply total_in_range in Hrange. rewrite Hrange. reflexivity.
Qed.

(** The handler on a request that fails one of those checks. *)
Lemma post_transaction_refused getHours available created_at now req db :
  (forall c p, ~ accepted req db c p) ->
  let result := post_transaction getHours available created_at now req db in
  result.1 = db /\ (status result.2 = 400 \/ status result.2 = 404).
Proof.
  intros Hno. unfold post_transaction.
  destruct (transactionValidation req) eqn:Hv; cbn [negb]; [| cbn; auto].
  destruct (customers db !! body_customer_id req) as [c |] eqn:Hc; [| cbn; auto].
  destruct (products db !! body_product_id req) as [p |] eqn:Hp; [| cbn; auto].
  destruct (stock_quantity p <? body_quantity req) eqn:Hq; [cbn; auto |].
  destruct (Qltb _ _ || Qltb _ _) eqn:Hrange; [cbn; auto |].
  exfalso. apply (Hno c p). apply Z.ltb_ge in Hq. apply total_in_range in Hrange.
  repeat split; try assumption; apply Hrange.
Qed.

Lemma accepted_unique req db c p c' p' :
  accepted req db c p -> accepted req db c' p' -> c' = c /\ p' = p.
Proof.
  intros (_ & Hc & Hp & _) (_ & Hc' & Hp' & _). split; congruence.
Qed.

(** X27.  POST /api/transactions answers 201, 400, 404 or 500.  It answers
    201 exactly when the request is valid, customer and product exist, the
    stock covers the quantity, the total with 8% tax lies between 0.01 and
    10000 and the analysis returns; the outcome of the analysis plays no
    part, so an order that is flagged, even as critical, is carried out.
    A 400 or 404 leaves the database as it was.  A 201 has decremented the
    stock by the quantity, to a value that is not negative, has added the
    total to the customer's total_spent, has stored the transaction with
    the score and flags of its analysis, and has raised one alert exactly
    when the analysis is suspicious. *)
Theorem post_transaction_outcome getHours available created_at now req db :
  let result := post_transaction getHours available created_at now req db in
  (status result.2 = 201 \/ status result.2 = 400 \/
   status result.2 = 404 \/ status result.2 = 500) /\
  (status result.2 = 201 <->
     available = true /\ exists c p, accepted req db c p) /\
  (status result.2 = 400 \/ status result.2 = 404 -> result.1 = db) /\
  (forall c p, accepted req db c p -> available = true ->
     let total := total_amount_of p (body_quantity req) in
     let row := created_row req total created_at in
     exists a,
       analyzeTransaction getHours (count_rows true (transactions db ++ [row]))
         now (analysed req p created_at) (Some c) = Fulfilled a /\
       result.2 = {| status := 201;
                     fraudAnalysis :=
                       Some (fraudScore a, isSuspicious a, severity a) |} /\
       products result.1
       = <[body_product_id req :=
             {| price := price p;
                stock_quantity := stock_quantity p - body_quantity req |}]>
           (products db) /\
       0 <= stock_quantity p - body_quantity req < stock_quantity p /\
       customers result.1
       = <[body_customer_id req :=
             {| total_spent := jadd (total_spent c) (Fin total);
                risk_score := risk_score c |}]> (customers db) /\
       transactions result.1 = transactions db ++ [scored row a] /\
       alerts result.1
       = alerts db
         ++ (if isSuspicious a
             then [{| alert_severity := severity a;
                      alert_customer_id := body_customer_id req;
                      alert_flags := flags a |}]
             else [])).
Proof.
  intros result.
  assert (Hcases : (exists c p, accepted req db c p) \/
                   (forall c p, ~ accepted req db c p)).
  { unfold accepted.
    destruct (transactionValidation req); [| right; intros c p [? _]; discriminate].
    destruct (customers db !! body_customer_id req) as [c |];
      [| right; intros c p (_ & ? & _); discriminate].
    destruct (products db !! body_product_id req) as [p |];
      [| right; intros c' p (_ & _ & ? & _); discriminate].
    destruct (Z_le_gt_dec (body_quantity req) (stock_quantity p)) as [Hq | Hq];
      [| right; intros c' p' (_ & _ & [= <-] & ? & _); lia].
    destruct (Qltb (total_amount_of p (body_quantity req)) (1 # 100)
              || Qltb 10000 (total_amount_of p (body_quantity req))) eqn:Hrange.
    - right. intros c' p' (_ & _ & [= <-] & _ & Hr).
      apply total_in_range in Hr. congruence.
    - left. exists c, p. apply total_in_range in Hrange. repeat split; tauto. }
  destruct Hcases as [(c & p & Hacc) | Hno].
  - pose proof (post_transaction_accepted getHours available created_at now
                  req db c p Hacc) as Hpost.
    cbv zeta in Hpost. fold result in Hpost.
    destruct available.
    + destruct (analysis_answers getHours
                  (count_rows true (transactions db
                     ++ [created_row req (total_amount_of p (body_quantity req))
                           created_at]))
                  now (analysed req p created_at) (Some c) _
                  (count_rows_available _ _ _)) as (a & Ha & _).
      rewrite Ha in Hpost. rewrite Hpost. cbn [fst snd status].
      split; [auto |]. split; [split; [eauto | reflexivity] |].
      split; [intros [H | H]; discriminate H |].
      intros c' p' Hacc' _.
      destruct (accepted_unique _ _ _ _ _ _ Hacc Hacc') as [-> ->].
      exists a. split; [exact Ha |]. split; [reflexivity |]. split; [reflexivity |].
      split.
      { destruct Hacc as (Hv & _ & _ & Hq & _).
        unfold transactionValidation in Hv. apply andb_true_iff in Hv as [Hv _].
        apply Z.leb_le in Hv. lia. }
      split; [reflexivity |]. split; [reflexivity |].
      cbn [alerts]. destruct (isSuspicious a); [reflexivity | now rewrite app_nil_r].
    + destruct (analysis_unavailable getHours
                  (transactions db
                     ++ [created_row req (total_amount_of p (body_quantity req))
                           created_at])
                  now (analysed req p created_at) (Some c)) as (err & Herr).
      rewrite Herr in Hpost. rewrite Hpost. cbn [fst snd status respond].
      split; [auto |]. split; [split; [discriminate | intros [? _]; discriminate] |].
      split; [intros [H | H]; discriminate H |].
      intros c' p' _ Hav. discriminate Hav.
  - destruct (post_transaction_refused getHours available created_at now req db Hno)
      as [Hdb Hstatus].
    fold result in Hdb, Hstatus.
    split; [tauto |]. split; [| split].
    + split.
      * intros H201. destruct Hstatus as [H | H]; rewrite H in H201; discriminate.
      * intros (_ & c & p & Hacc). now destruct (Hno c p).
    + intros _. exact Hdb.
    + intros c p Hacc. now destruct (Hno c p).
Qed.

Lemma post_transaction_outcome_witness :
  status (post_transaction getHoursUTC true 1700000000000 1700000000005
            order shop).2 = 201.
Proof.
  apply (proj1 (proj2 (post_transaction_outcome getHoursUTC true 1700000000000
                         1700000000005 order shop))).
  split; [reflexivity |].
  exists {| total_spent := Fin 1000; risk_score := Fin (1 # 10) |},
         {| price := 50; stock_quantity := 10 |}.
  repeat split; try reflexivity; vm_compute; discriminate.
Defined.

(** X28.  When the query of the velocity check fails on a request that
    passed every check, the handler answers 500 after the transaction has
    been created: the row stays in the table with status completed and the
    default fraud score 0, while the stock, the customer's total_spent and
    the alerts are left as they were. *)
Theorem failed_analysis_keeps_the_transaction getHours created_at now req db c p :
  accepted req db c p ->
  let result := post_transaction getHours false created_at now req db in
  let row := created_row req (total_amount_of p (body_quantity req)) created_at in
  result.2 = respond 500 /\
  transactions result.1 = transactions db ++ [row] /\
  row_status row = "completed"%string /\
  row_fraud_score row = 0%Q /\
  products result.1 = products db /\
  customers result.1 = customers db /\
  alerts result.1 = alerts db.
Proof.
  intros Hacc result row. subst result.
  rewrite (post_transaction_accepted _ _ _ _ _ _ _ _ Hacc). cbv zeta.
  destruct (analysis_unavailable getHours
              (transactions db
                 ++ [created_row req (total_amount_of p (body_quantity req))
                       created_at])
              now (analysed req p created_at) (Some c)) as (err & ->).
  repeat split.
Qed.

Lemma failed_analysis_keeps_the_transaction_witness :
  length (transactions
            (post_transaction getHoursUTC false 1700000000000 1700000000005
               order shop).1) = 1%nat.
Proof.
  destruct (failed_analysis_keeps_the_transaction getHoursUTC 1700000000000
              1700000000005 order shop
              {| total_spent := Fin 1000; risk_score := Fin (1 # 10) |}
              {| price := 50; stock_quantity := 10 |}) as (_ & Hrows & _).
  - repeat split; try reflexivity; vm_compute; discriminate.
  - rewrite Hrows. reflexivity.
Defined.

Lemma amount_check_accepted req db c p created_at :
  accepted req db c p ->
  In (checkAmountAnomaly (analysed req p created_at) (Some c))
     [NotSuspicious; Flag amount_deviation 25; Flag high_value 15].
Proof.
  intros (_ & _ & _ & _ & Hlo & Hhi). unfold checkAmountAnomaly.
  cbn [total_amount analysed]. unfold MAX_VALID_AMOUNT, MIN_VALID_AMOUNT.
  cbn [jgt jlt].
  replace (Qltb 10000 (total_amount_of p (body_quantity req))) with false
    by (symmetry; now apply Qltb_ge).
  replace (Qltb (total_amount_of p (body_quantity req)) (1 # 100)) with false
    by (symmetry; now apply Qltb_ge).
  case_ifs; cbn; tauto.
Qed.

Lemma risk_check_known c :
  In (checkCustomerRisk (Some c)) [NotSuspicious; Flag high_risk_customer 25].
Proof. unfold checkCustomerRisk. case_ifs; cbn; tauto. Qed.

(** X29.  In the handler the velocity query runs after the transaction has
    been created, so the new row is counted: when the analysis starts
    within ten minutes of the creation, the order is flagged for velocity
    exactly when the customer already has 4 transactions in the last ten
    minutes, one fewer than the threshold of 5.  Since the total has been
    validated and the customer exists, the analysis of an order never
    raises the flags for an amount above the limit, an amount too low or
    an unknown customer. *)
Theorem new_order_counts_itself getHours created_at now req db c p :
  accepted req db c p ->
  now - 600000 <= created_at ->
  let row := created_row req (total_amount_of p (body_quantity req)) created_at in
  exists a,
    analyzeTransaction getHours (count_rows true (transactions db ++ [row]))
      now (analysed req p created_at) (Some c) = Fulfilled a /\
    fraudAnalysis (post_transaction getHours true created_at now req db).2
    = Some (fraudScore a, isSuspicious a, severity a) /\
    (velocity_exceeded ∈ flag_types (flags a) <-> 4 <= earlier_in_window req db now) /\
    (amount_exceeds_limit ∉ flag_types (flags a)) /\
    (amount_too_low ∉ flag_types (flags a)) /\
    (unknown_customer ∉ flag_types (flags a)).
Proof.
  intros Hacc Hnow row.
  set (rows := transactions db ++ [row]).
  assert (Hcount : count_rows true rows (customer_id (analysed req p created_at))
                     (now - 600000)
                   = Fulfilled (earlier_in_window req db now + 1)).
  { rewrite count_rows_available. f_equal. subst rows. unfold earlier_in_window.
    cbn [customer_id analysed]. rewrite List.filter_app, length_app.
    cbn [List.filter]. unfold in_window at 2. subst row. cbn [created_row row_customer_id row_timestamp].
    rewrite Z.eqb_refl. cbn [andb].
    replace (now - 600000 <=? created_at) with true
      by (symmetry; apply Z.leb_le; lia).
    cbn [length]. lia. }
  destruct (analysis_answers getHours (count_rows true rows) now
              (analysed req p created_at) (Some c) _ Hcount) as (a & Ha & Hflags).
  exists a. split; [exact Ha |]. split.
  { rewrite (post_transaction_accepted _ _ _ _ _ _ _ _ Hacc). cbv zeta.
    fold row. fold rows. rewrite Ha. reflexivity. }
  rewrite Hflags.
  pose proof (amount_check_accepted req db c p created_at Hacc) as Hamount.
  pose proof (time_values getHours (timestamp (analysed req p created_at))) as Htime.
  pose proof (risk_check_known c) as Hrisk.
  pose proof (bot_values (user_agent (analysed req p created_at))) as Hbot.
  cbn [In] in Hamount, Htime, Hrisk, Hbot.
  assert (Hvel : (5 <=? earlier_in_window req db now + 1) = true
                 <-> 4 <= earlier_in_window req db now)
    by (rewrite Z.leb_le; lia).
  destruct (5 <=? earlier_in_window req db now + 1);
  repeat match goal with H : _ \/ _ |- _ => destruct H as [H | H] end;
  try contradiction;
  repeat match goal with H : _ = checkAmountAnomaly _ _ |- _ => rewrite <- H end;
  repeat match goal with H : _ = checkTimePattern _ _ |- _ => rewrite <- H end;
  repeat match goal with H : _ = checkCustomerRisk _ |- _ => rewrite <- H end;
  repeat match goal with H : _ = checkForBot _ |- _ => rewrite <- H end;
  cbn [flag_types omap option_bind list_omap];
  rewrite ?elem_of_cons, ?elem_of_nil;
  (split; [split; [intros Hin;
                   first [apply Hvel; reflexivity | exfalso; intuition discriminate]
                  | intros H4; apply Hvel in H4;
                    first [discriminate H4 | intuition auto]]
          | repeat split; intuition discriminate]).
Qed.

Lemma new_order_counts_itself_witness :
  exists a,
    fraudAnalysis (post_transaction getHoursUTC true 1700000000000 1700000000005
                     order shop).2
    = Some (fraudScore a, isSuspicious a, severity a) /\
    velocity_exceeded ∉ flag_types (flags a).
Proof.
  destruct (new_order_counts_itself getHoursUTC 1700000000000 1700000000005
              order shop
              {| total_spent := Fin 1000; risk_score := Fin (1 # 10) |}
              {| price := 50; stock_quantity := 10 |})
    as (a & _ & Hres & Hvel & _).
  - repeat split; try reflexivity; vm_compute; discriminate.
  - lia.
  - exists a. split; [exact Hres |].
    intros Hin. apply Hvel in Hin. vm_compute in Hin. now apply Hin.
Defined.

Lemma severity_class (x : Q) :
  Qle_bool (8 # 10) x
  = (severity_rank (getSeverity x) =? severity_rank critical) /\
  Qle_bool (6 # 10) x && Qltb x (8 # 10)
  = (severity_rank (getSeverity x) =? severity_rank high) /\
  Qle_bool (4 # 10) x && Qltb x (6 # 10)
  = (severity_rank (getSeverity x) =? severity_rank medium).
Proof.
  unfold getSeverity, Qltb.
  destruct (Qle_bool (8 # 10) x) eqn:E8;
    [apply Qle_bool_iff in E8 | apply Qle_bool_false in E8];
  (destruct (Qle_bool (6 # 10) x) eqn:E6;
    [apply Qle_bool_iff in E6 | apply Qle_bool_false in E6]);
  (destruct (Qle_bool (4 # 10) x) eqn:E4;
    [apply Qle_bool_iff in E4 | apply Qle_bool_false in E4]);
  cbn; repeat split; first [reflexivity | exfalso; lra].
Qed.

Lemma count_severity_total (scores : list Q) :
  length scores
  = (count_severity critical scores + count_severity high scores
     + count_severity medium scores + count_severity low scores)%nat.
Proof.
  unfold count_severity. induction scores as [| x l IH]; [reflexivity |].
  cbn [List.filter length].
  destruct (getSeverity x); cbn [severity_rank Z.eqb Pos.eqb length] in *; lia.
Qed.

Lemma count_severity_buckets (scores : list Q) :
  let s := summarise scores in
  summary_critical s = count_severity critical scores /\
  summary_high s = count_severity high scores /\
  summary_medium s = count_severity medium scores /\
  summary_total s
  = (count_severity critical scores + count_severity high scores
     + count_severity medium scores + count_severity low scores)%nat.
Proof.
  unfold summarise, count_severity.
  cbn [summary_critical summary_high summary_medium summary_total].
  split; [| split; [| split]].
  - f_equal. apply List.filter_ext. intros x. apply severity_class.
  - f_equal. apply List.filter_ext. intros x. apply severity_class.
  - f_equal. apply List.filter_ext. intros x. apply severity_class.
  - apply count_severity_total.
Qed.

(** X30.  GET /api/transactions/suspicious: a requested minimum score
    that is missing, not a number or 0 is replaced by 0.5, so the threshold
    is never 0.  The summary counts the rows found by the same bounds as
    getSeverity: critical, high and medium are the numbers of rows of those
    severities, rows below 0.4 are counted in the total but in no class,
    and the three classes add up to the total when every row found scores
    at least 0.4. *)
Theorem suspicious_summary (parsed : jsnum) (scores : list Q) :
  let s := summarise scores in
  (truthy parsed = false -> minScore_of parsed = Fin (5 # 10)) /\
  (truthy parsed = true -> minScore_of parsed = parsed) /\
  (forall q, minScore_of parsed = Fin q -> ~ (q == 0)%Q) /\
  summary_critical s = count_severity critical scores /\
  summary_high s = count_severity high scores /\
  summary_medium s = count_severity medium scores /\
  summary_total s
  = (summary_critical s + summary_high s + summary_medium s
     + count_severity low scores)%nat /\
  (Forall (fun x => ((4 # 10) <= x)%Q) scores ->
   summary_total s = (summary_critical s + summary_high s + summary_medium s)%nat).
Proof.
  intros s.
  destruct (count_severity_buckets scores) as (Hc & Hh & Hm & Ht). fold s in Hc, Hh, Hm, Ht.
  split; [| split; [| split]].
  - unfold minScore_of, jor. now intros ->.
  - unfold minScore_of, jor. now intros ->.
  - intros q. unfold minScore_of, jor. destruct (truthy parsed) eqn:E.
    + intros ->. cbn in E. apply negb_true_iff in E. intros Hq.
      apply Qeq_bool_iff in Hq. congruence.
    + intros [= <-]. intros Hq. discriminate Hq.
  - split; [exact Hc |]. split; [exact Hh |]. split; [exact Hm |].
    split; [rewrite Hc, Hh, Hm; exact Ht |].
    intros Hall. rewrite Ht, Hc, Hh, Hm.
    assert (Hlow : count_severity low scores = 0%nat).
    { unfold count_severity. clear -Hall.
      induction Hall as [| x l Hx _ IH]; [reflexivity |].
      cbn [List.filter]. unfold getSeverity at 1.
      destruct (Qle_bool (8 # 10) x); [exact IH |].
      destruct (Qle_bool (6 # 10) x); [exact IH |].
      apply Qle_bool_iff in Hx. rewrite Hx. exact IH. }
    rewrite Hlow. lia.
Qed.

Lemma suspicious_summary_witness :
  summary_total (summarise [9 # 10; 5 # 10; 3 # 10]%Q) = 3%nat /\
  minScore_of (Fin 0) = Fin (5 # 10).
Proof.
  destruct (suspicious_summary (Fin 0) [9 # 10; 5 # 10; 3 # 10]%Q)
    as (Hdefault & _ & _ & _ & _ & _ & Htotal & _).
  split; [rewrite Htotal; reflexivity | apply Hdefault; reflexivity].
Defined.

End TransactionRoutesProps.
